(** * ARGUS: polygon matcher and provider normalisation

    A shallow embedding of
      - [containerapp/ai_ocr/polygon_matcher.py]
      - [containerapp/ai_ocr/azure/mistral_doc_intelligence.py]
        ([normalize_mistral_bbox] and the content selection of
        [get_ocr_results])
    together with the properties the design document states about them.

    Conventions of the embedding.
      - Python numbers (int and float alike) are rationals [Q]; [==] on
        numbers is [Qeq_bool], [>=] is [Qle_bool] with swapped arguments.
        No arithmetic is done on them, except in the bounding boxes,
        whose numbers and addition are kept abstract.
      - Python [str] is [string]; a character is a code point below 256.
      - A Python [dict] is an association list in insertion order;
        [d[k] = v] is [dict_set].
      - [dict.get(k, default)] on the records of the spatial index is an
        optional field together with its default.
      - [rapidfuzz.fuzz.ratio], [rapidfuzz.fuzz.partial_ratio] and the
        built-in [str()] on values that are not strings are library code:
        they are parameters of the development. *)

From Stdlib Require Import List String Ascii Bool Arith ZArith QArith Lia.
Import ListNotations.

Local Open Scope string_scope.
Local Open Scope list_scope.
Local Open Scope nat_scope.

(* ------------------------------------------------------------------ *)
(** ** Python string primitives *)

Module PyStr.

(** [str.isspace] on one code point below 256. *)
Definition is_space (c : ascii) : bool :=
  let n := nat_of_ascii c in
  ((9 <=? n) && (n <=? 13)) || ((28 <=? n) && (n <=? 32))
  || (n =? 133) || (n =? 160).

(** [str.lower] on one code point below 256. *)
Definition lower_char (c : ascii) : ascii :=
  let n := nat_of_ascii c in
  if ((65 <=? n) && (n <=? 90))
     || ((192 <=? n) && (n <=? 222) && negb (n =? 215))
  then ascii_of_nat (n + 32) else c.

Fixpoint map_str (f : ascii -> ascii) (s : string) : string :=
  match s with
  | EmptyString => EmptyString
  | String c r => String (f c) (map_str f r)
  end.

Definition lower (s : string) : string := map_str lower_char s.

(** [s.replace(a, b)] for one-character [a] and [b]. *)
Definition replace_char (a b : ascii) (s : string) : string :=
  map_str (fun c => if Ascii.eqb c a then b else c) s.

Fixpoint lstrip (s : string) : string :=
  match s with
  | EmptyString => EmptyString
  | String c r => if is_space c then lstrip r else s
  end.

Fixpoint rstrip (s : string) : string :=
  match s with
  | EmptyString => EmptyString
  | String c r =>
      match rstrip r with
      | EmptyString => if is_space c then EmptyString else String c EmptyString
      | r' => String c r'
      end
  end.

Definition strip (s : string) : string := rstrip (lstrip s).

(** [s.split()]: the maximal runs of non-whitespace characters. *)
Fixpoint split (s : string) : list string :=
  match s with
  | EmptyString => []
  | String c r =>
      if is_space c then split r
      else match r with
           | EmptyString => [String c EmptyString]
           | String c' _ =>
               if is_space c' then String c EmptyString :: split r
               else match split r with
                    | w :: ws => String c w :: ws
                    | [] => [String c EmptyString]
                    end
           end
  end.

(** [needle in hay]. *)
Fixpoint contains (needle hay : string) : bool :=
  String.prefix needle hay
  || match hay with
     | EmptyString => false
     | String _ r => contains needle r
     end.

Definition startswith_char (c : ascii) (s : string) : bool :=
  match s with
  | String c' _ => Ascii.eqb c' c
  | EmptyString => false
  end.

Definition nonempty (s : string) : bool :=
  match s with EmptyString => false | _ => true end.

Definition all_space (s : string) : bool :=
  forallb is_space (list_ascii_of_string s).

End PyStr.

(* ------------------------------------------------------------------ *)
(** ** Numbers *)

Definition Qlt_bool (a b : Q) : bool := negb (Qle_bool b a).

Fixpoint Qlist_eqb (l1 l2 : list Q) : bool :=
  match l1, l2 with
  | [], [] => true
  | x :: r1, y :: r2 => Qeq_bool x y && Qlist_eqb r1 r2
  | _, _ => false
  end.

(** [a or b] where [a] is a number or [None] and [b] a number. *)
Definition py_or (a : option Q) (b : Q) : Q :=
  match a with
  | Some x => if Qeq_bool x 0 then b else x
  | None => b
  end.

(* ------------------------------------------------------------------ *)
(** ** JSON-like values and dicts *)

#[local] Set Warnings "-register-all".

Inductive json : Type :=
| JNull
| JBool (b : bool)
| JNum (q : Q)
| JStr (s : string)
| JList (l : list json)
| JDict (d : list (string * json)).

Definition dict := list (string * json).

Fixpoint dict_get (d : dict) (k : string) : option json :=
  match d with
  | [] => None
  | (k', v) :: r => if String.eqb k' k then Some v else dict_get r k
  end.

Definition dict_has (d : dict) (k : string) : bool :=
  match dict_get d k with Some _ => true | None => false end.

Fixpoint dict_set (d : dict) (k : string) (v : json) : dict :=
  match d with
  | [] => [(k, v)]
  | (k', v') :: r =>
      if String.eqb k' k then (k', v) :: r else (k', v') :: dict_set r k v
  end.

Definition dict_keys (d : dict) : list string := map fst d.

(** Python truthiness. *)
Definition truthy (v : json) : bool :=
  match v with
  | JNull => false
  | JBool b => b
  | JNum q => negb (Qeq_bool q 0)
  | JStr s => PyStr.nonempty s
  | JList l => match l with [] => false | _ => true end
  | JDict d => match d with [] => false | _ => true end
  end.

(* ------------------------------------------------------------------ *)
(** ** Bounding boxes of the second provider *)

(** The numbers of a box are whatever the provider sends (integers or
    floats) and [x + w] is the addition the interpreter applies to
    them: both are parameters.  All that is assumed of the addition is
    that it returns a number, as [+] does on floats (rounding, and
    overflowing to infinity) and on integers. *)
Section Bbox.

Variable num : Type.
Variable add : num -> num -> num.

Definition normalize_mistral_bbox (bbox : list num) : list num :=
  match bbox with
  | [] => []
  | _ =>
      if Nat.eqb (List.length bbox) 4 then
        match bbox with
        | [x; y; w; h] =>
            [x; y; add x w; y; add x w; add y h; x; add y h]
        | _ => bbox
        end
      else if Nat.eqb (List.length bbox) 8 then bbox
      else bbox
  end.

End Bbox.

Arguments normalize_mistral_bbox {num} add bbox.

(* ------------------------------------------------------------------ *)
(** ** The spatial index *)

(** One bounding polygon of a key-value element:
    [{"points": [...], "pageNumber": n}]. *)
Module Polygon.
Record t := mk { points : option (list Q); pageNumber : option Q }.
End Polygon.

(** The [key] or the [value] of a key-value pair. *)
Module Element.
Record t := mk { content : option string;
                 boundingPolygons : option (list Polygon.t) }.
End Element.

Module KVPair.
Record t := mk { key : option Element.t;
                 value : option Element.t;
                 confidence : option Q }.
End KVPair.

(** A word or a line of the index. *)
Module Item.
Record t := mk { content : option string;
                 pageNumber : option Q;
                 points : option (list Q);
                 confidence : option Q }.
End Item.

(** [polygon_data]; an absent collection reads as the empty list. *)
Module Index.
Record t := mk { keyValuePairs : list KVPair.t;
                 words : list Item.t;
                 lines : list Item.t;
                 paragraphs : list json }.
End Index.

(** The [source] tag of a match. *)
Inductive Source : Type :=
| doc_intelligence_kv
| fuzzy_match_line
| fuzzy_match_line_partial
| fuzzy_match_word
| fuzzy_match_word_partial.

Definition source_name (s : Source) : string :=
  match s with
  | doc_intelligence_kv => "doc_intelligence_kv"
  | fuzzy_match_line => "fuzzy_match_line"
  | fuzzy_match_line_partial => "fuzzy_match_line_partial"
  | fuzzy_match_word => "fuzzy_match_word"
  | fuzzy_match_word_partial => "fuzzy_match_word_partial"
  end.

(** A match dict.  Key-value matches carry [keySimilarity] and
    [valueSimilarity] and no [similarity]; fuzzy matches carry
    [similarity] only. *)
Module Match.
Record t := mk { points : list Q;
                 pageNumber : Q;
                 confidence : option Q;
                 source : Source;
                 matchedContent : string;
                 similarity : option Q;
                 keySimilarity : option Q;
                 valueSimilarity : option Q }.
End Match.

Definition opt_default {A : Type} (d : A) (o : option A) : A :=
  match o with Some a => a | None => d end.

(** [d.get(k, {}).get("content", "")] *)
Definition element_content (e : option Element.t) : string :=
  match e with
  | Some el => opt_default "" (Element.content el)
  | None => ""
  end.

(** [d.get(k, {}).get("boundingPolygons", [])] *)
Definition element_polygons (e : option Element.t) : list Polygon.t :=
  match e with
  | Some el => opt_default [] (Element.boundingPolygons el)
  | None => []
  end.

(* ------------------------------------------------------------------ *)
(** ** A concrete similarity

    The development is parametric in the two similarity functions.  To
    run the definitions on concrete documents we instantiate them with
    the normalised Indel similarity, [200 * lcs a b / (|a| + |b|)], and
    with its best value over the windows of the longer string. *)

Module Sim.

Fixpoint lcs (a b : list ascii) : nat :=
  match a with
  | [] => 0
  | x :: a' =>
      (fix go (b : list ascii) : nat :=
         match b with
         | [] => 0
         | y :: b' =>
             if Ascii.eqb x y then S (lcs a' b')
             else Nat.max (lcs a' b) (go b')
         end) b
  end.

Definition ratio (a b : string) : Q :=
  let n := String.length a + String.length b in
  match n with
  | O => 100%Q
  | S _ =>
      (Z.of_nat (200 * lcs (list_ascii_of_string a) (list_ascii_of_string b))
       # Pos.of_nat n)%Q
  end.

Definition Qmax (a b : Q) : Q := if Qle_bool a b then b else a.

Fixpoint windows (m : nat) (s : string) : list string :=
  match s with
  | EmptyString => []
  | String _ r => String.substring 0 m s :: windows m r
  end.

Definition partial_ratio (a b : string) : Q :=
  let (short, long) :=
    if String.length a <=? String.length b then (a, b) else (b, a) in
  match short with
  | EmptyString => match long with EmptyString => 100%Q | _ => 0%Q end
  | _ => fold_left Qmax
           (map (ratio short) (windows (String.length short) long)) 0%Q
  end.

(** [str()] on the values that are not strings: enough of it to run
    examples; numbers are printed in decimal when they are integers. *)
Definition digit (n : nat) : ascii := ascii_of_nat (48 + n).

Fixpoint digits (fuel n : nat) (acc : string) : string :=
  match fuel with
  | O => acc
  | S fuel' =>
      let acc' := String (digit (n mod 10)) acc in
      if n <? 10 then acc' else digits fuel' (n / 10) acc'
  end.

Definition str_of_Z (z : Z) : string :=
  let n := Z.abs_nat z in
  let d := digits (S n) n EmptyString in
  if (z <? 0)%Z then String "-" d else d.

Definition repr (v : json) : string :=
  match v with
  | JNull => "None"
  | JBool true => "True"
  | JBool false => "False"
  | JNum q => str_of_Z (Qnum q / Zpos (Qden q))
  | JStr s => s
  | JList [] => "[]"
  | JDict [] => "{}"
  | _ => "[...]"
  end.

End Sim.

(* ------------------------------------------------------------------ *)
(** ** The polygon matcher *)

Section Matcher.

(** [fuzz.ratio] and [fuzz.partial_ratio] of rapidfuzz. *)
Variable ratio : string -> string -> Q.
Variable partial_ratio : string -> string -> Q.
(** The built-in [str()] on a value that is not a string. *)
Variable py_repr : json -> string.

Definition py_str (v : json) : string :=
  match v with
  | JStr s => s
  | _ => py_repr v
  end.

Definition normalize_key (key : string) : string :=
  PyStr.strip
    (PyStr.replace_char "-" " "
       (PyStr.replace_char "_" " " (PyStr.lower key))).

(** *** Pass 1: key-value pairs *)

(** The dict appended for one polygon of an accepted pair. *)
Definition kv_match (kv_pair : KVPair.t) (value_content : string)
    (key_similarity value_similarity : Q) (polygon : Polygon.t) : Match.t :=
  {| Match.points := opt_default [] (Polygon.points polygon);
     Match.pageNumber := opt_default 1%Q (Polygon.pageNumber polygon);
     Match.confidence := KVPair.confidence kv_pair;
     Match.source := doc_intelligence_kv;
     Match.matchedContent := value_content;
     Match.similarity := None;
     Match.keySimilarity := Some key_similarity;
     Match.valueSimilarity := Some value_similarity |}.

(** The body of the loop over the key-value pairs: what one pair
    appends to [matches]. *)
Definition kv_pair_matches (normalized_field_name str_field_value : string)
    (threshold : Q) (kv_pair : KVPair.t) : list Match.t :=
  let key_content := element_content (KVPair.key kv_pair) in
  let value_content := element_content (KVPair.value kv_pair) in
  let key_similarity := ratio normalized_field_name (normalize_key key_content) in
  if Qle_bool threshold key_similarity then
    let value_similarity :=
      if PyStr.nonempty str_field_value && PyStr.nonempty value_content
      then ratio (PyStr.lower str_field_value) (PyStr.lower value_content)
      else 0%Q in
    if Qle_bool threshold value_similarity || String.eqb str_field_value ""
    then map (kv_match kv_pair value_content key_similarity value_similarity)
             (element_polygons (KVPair.value kv_pair))
    else []
  else [].

Definition str_field_value_of (field_value : json) : string :=
  if truthy field_value then PyStr.strip (py_str field_value) else "".

Definition find_key_value_polygon (field_name : string) (field_value : json)
    (key_value_pairs : list KVPair.t) (threshold : Q) : list Match.t :=
  let normalized_field_name := normalize_key field_name in
  let str_field_value := str_field_value_of field_value in
  fold_left
    (fun matches kv_pair =>
       matches ++ kv_pair_matches normalized_field_name str_field_value
                    threshold kv_pair)
    key_value_pairs [].

(** *** Pass 2: lines and words *)

Definition item_match (item : Item.t) (confidence : option Q)
    (source : Source) (similarity : Q) : Match.t :=
  {| Match.points := opt_default [] (Item.points item);
     Match.pageNumber := opt_default 1%Q (Item.pageNumber item);
     Match.confidence := confidence;
     Match.source := source;
     Match.matchedContent := opt_default "" (Item.content item);
     Match.similarity := Some similarity;
     Match.keySimilarity := None;
     Match.valueSimilarity := None |}.

(** The body of the loop over the lines. *)
Definition line_matches (search_value : string) (threshold : Q)
    (line : Item.t) : list Match.t :=
  let line_content := PyStr.lower (opt_default "" (Item.content line)) in
  let similarity := ratio search_value line_content in
  if Qle_bool threshold similarity then
    [item_match line None fuzzy_match_line similarity]
  else if PyStr.contains search_value line_content then
    let partial := partial_ratio search_value line_content in
    if Qle_bool threshold partial then
      [item_match line None fuzzy_match_line_partial partial]
    else []
  else [].

(** The body of the loop over the words. *)
Definition word_matches (search_value : string) (threshold : Q)
    (word : Item.t) : list Match.t :=
  let word_content := PyStr.lower (opt_default "" (Item.content word)) in
  if Nat.eqb (List.length (PyStr.split search_value)) 1 then
    let similarity := ratio search_value word_content in
    if Qle_bool threshold similarity then
      [item_match word (Item.confidence word) fuzzy_match_word similarity]
    else []
  else
    fold_left
      (fun matches search_word =>
         let similarity := ratio search_word word_content in
         if Qle_bool threshold similarity then
           matches ++ [item_match word (Item.confidence word)
                         fuzzy_match_word_partial similarity]
         else matches)
      (PyStr.split search_value) [].

Definition find_fuzzy_match_polygons (value : string)
    (words lines : list Item.t) (threshold : Q) : list Match.t :=
  let search_value := PyStr.lower (PyStr.strip value) in
  if negb (PyStr.nonempty search_value) then []
  else
    let matches :=
      if 1 <? List.length (PyStr.split search_value) then
        fold_left
          (fun matches line => matches ++ line_matches search_value threshold line)
          lines []
      else [] in
    fold_left
      (fun matches word => matches ++ word_matches search_value threshold word)
      words matches.

(** *** Deduplication *)

Definition match_key (polygon : Match.t) : list Q * Q :=
  (Match.points polygon, Match.pageNumber polygon).

(** Equality of two dict keys [(tuple(points), pageNumber)]. *)
Definition key_eqb (k1 k2 : list Q * Q) : bool :=
  Qlist_eqb (fst k1) (fst k2) && Qeq_bool (snd k1) (snd k2).

(** [p.get('confidence') or p.get('similarity') or 0] *)
Definition score (polygon : Match.t) : Q :=
  py_or (Match.confidence polygon) (py_or (Match.similarity polygon) 0%Q).

(** The dict [seen], in insertion order. *)
Definition seen_t := list ((list Q * Q) * Match.t).

Fixpoint seen_get (seen : seen_t) (key : list Q * Q) : option Match.t :=
  match seen with
  | [] => None
  | (k, m) :: r => if key_eqb k key then Some m else seen_get r key
  end.

Fixpoint seen_set (seen : seen_t) (key : list Q * Q) (polygon : Match.t)
  : seen_t :=
  match seen with
  | [] => [(key, polygon)]
  | (k, m) :: r =>
      if key_eqb k key then (k, polygon) :: r
      else (k, m) :: seen_set r key polygon
  end.

(** The body of the loop of [deduplicate_polygons]. *)
Definition dedup_step (seen : seen_t) (polygon : Match.t) : seen_t :=
  let key := match_key polygon in
  match seen_get seen key with
  | None => seen_set seen key polygon
  | Some existing =>
      if Qlt_bool (score existing) (score polygon)
      then seen_set seen key polygon
      else seen
  end.

Definition deduplicate_polygons (polygons : list Match.t) : list Match.t :=
  map snd (fold_left dedup_step polygons []).

(** *** The two passes together *)

(** The guard [field_value is None or (isinstance(field_value, str) and
    not field_value.strip())]. *)
Definition skipped (field_value : json) : bool :=
  match field_value with
  | JNull => true
  | JStr s => negb (PyStr.nonempty (PyStr.strip s))
  | _ => false
  end.

Definition correlate_field_with_polygons (field_name : string)
    (field_value : json) (polygon_data : Index.t) (threshold : Q)
  : list Match.t :=
  if skipped field_value then []
  else
    let kv_matches :=
      find_key_value_polygon field_name field_value
        (Index.keyValuePairs polygon_data) threshold in
    let all_matches := kv_matches in
    let all_matches :=
      match kv_matches with
      | [] =>
          all_matches ++
            find_fuzzy_match_polygons (py_str field_value)
              (Index.words polygon_data) (Index.lines polygon_data) threshold
      | _ => all_matches
      end in
    deduplicate_polygons all_matches.

(** The same function with its calls recorded.  A pass is run by
    [call], which hands back what the function called returns on the
    arguments given and records the call, arguments included: the
    record is written by running the pass and in no other way. *)
Inductive Call : Type :=
| Pass1 (field_name : string) (field_value : json)
        (key_value_pairs : list KVPair.t) (threshold : Q)
| Pass2 (value : string) (words lines : list Item.t) (threshold : Q).

Definition run (c : Call) : list Match.t :=
  match c with
  | Pass1 field_name field_value key_value_pairs threshold =>
      find_key_value_polygon field_name field_value key_value_pairs
        threshold
  | Pass2 value words lines threshold =>
      find_fuzzy_match_polygons value words lines threshold
  end.

Definition traced (A : Type) : Type := list Call * A.

Definition done {A : Type} (a : A) : traced A := ([], a).

Definition call (c : Call) : traced (list Match.t) := ([c], run c).

Definition and_then {A B : Type} (t : traced A) (f : A -> traced B)
  : traced B :=
  let (calls, a) := t in
  let (more, b) := f a in
  (calls ++ more, b).

Definition correlate_logged (field_name : string) (field_value : json)
    (polygon_data : Index.t) (threshold : Q) : traced (list Match.t) :=
  if skipped field_value then done []
  else
    let key_value_pairs := Index.keyValuePairs polygon_data in
    let words := Index.words polygon_data in
    let lines := Index.lines polygon_data in
    and_then (call (Pass1 field_name field_value key_value_pairs threshold))
      (fun kv_matches =>
         let all_matches := kv_matches in
         match kv_matches with
         | [] =>
             and_then
               (call (Pass2 (py_str field_value) words lines threshold))
               (fun fuzzy_matches =>
                  done (deduplicate_polygons (all_matches ++ fuzzy_matches)))
         | _ => done (deduplicate_polygons all_matches)
         end).

End Matcher.

(* ------------------------------------------------------------------ *)
(** ** The extraction enricher *)

Definition JInt (n : nat) : json := JNum (inject_Z (Z.of_nat n)).

(** [{"points": p.get('points', []), "pageNumber": p.get('pageNumber', 1)}] *)
Definition polygon_json (p : Match.t) : json :=
  JDict [("points", JList (map JNum (Match.points p)));
         ("pageNumber", JNum (Match.pageNumber p))].

(** The record built for a scalar element of an array. *)
Definition array_leaf (item : json) (polygons : list Match.t) : json :=
  JDict [("value", item);
         ("boundingPolygons", JList (map polygon_json polygons))].

(** The record built for a scalar reached as the value of a key. *)
Definition scalar_leaf (value : json) (polygons : list Match.t) : json :=
  let result := [("value", value);
                 ("boundingPolygons", JList (map polygon_json polygons))] in
  match polygons with
  | [] => JDict result
  | first :: _ =>
      let result :=
        dict_set result "source" (JStr (source_name (Match.source first))) in
      match Match.confidence first with
      | Some c =>
          if negb (Qeq_bool c 0) then JDict (dict_set result "confidence" (JNum c))
          else JDict result
      | None => JDict result
      end
  end.

Definition excluded_keys : list string :=
  ["error"; "error_type"; "extraction_failed"; "raw_content"; "parsing_error"].

Definition is_excluded (key : string) : bool :=
  existsb (String.eqb key) excluded_keys.

Section Enricher.

Variable ratio : string -> string -> Q.
Variable partial_ratio : string -> string -> Q.
Variable py_repr : json -> string.
Variable polygon_data : Index.t.
Variable threshold : Q.

Definition correlate (key : string) (value : json) : list Match.t :=
  correlate_field_with_polygons ratio partial_ratio py_repr
    key value polygon_data threshold.

(** [process_value]; its [parent_path] argument only builds [full_key],
    which is never read, and is left out. *)
Fixpoint process_value (key : string) (value : json) {struct value} : json :=
  match value with
  | JDict d =>
      JDict (fold_left
               (fun processed kv =>
                  dict_set processed (fst kv) (process_value (fst kv) (snd kv)))
               d [])
  | JList l =>
      JList (fold_left
               (fun processed_items item =>
                  match item with
                  | JDict d =>
                      processed_items ++
                        [JDict (fold_left
                                  (fun processed_item kv =>
                                     dict_set processed_item (fst kv)
                                       (process_value (fst kv) (snd kv)))
                                  d [])]
                  | _ =>
                      processed_items ++ [array_leaf item (correlate key item)]
                  end)
               l [])
  | _ => scalar_leaf value (correlate key value)
  end.

(** The loop over the top-level fields. *)
Definition enrich_fields (extracted_data : dict) : dict :=
  fold_left
    (fun enriched kv =>
       if is_excluded (fst kv) then dict_set enriched (fst kv) (snd kv)
       else dict_set enriched (fst kv) (process_value (fst kv) (snd kv)))
    extracted_data [].

End Enricher.

Definition is_leaf_record (d : dict) : bool :=
  dict_has d "value" && dict_has d "boundingPolygons".

Fixpoint count_fields (data : json) (count : nat) {struct data} : nat :=
  match data with
  | JDict d =>
      fold_left
        (fun count kv =>
           if PyStr.startswith_char "_" (fst kv) then count
           else match snd kv with
                | JDict vd =>
                    if is_leaf_record vd then count + 1
                    else count_fields (snd kv) count
                | JList l =>
                    fold_left (fun count item => count_fields item count) l count
                | _ => count + 1
                end)
        d count
  | _ => count
  end.

Fixpoint count_fields_with_polygons (data : json) (count : nat)
  {struct data} : nat :=
  match data with
  | JDict d =>
      fold_left
        (fun count kv =>
           if PyStr.startswith_char "_" (fst kv) then count
           else match snd kv with
                | JDict vd =>
                    if is_leaf_record vd then
                      if truthy (opt_default JNull (dict_get vd "boundingPolygons"))
                      then count + 1 else count
                    else count_fields_with_polygons (snd kv) count
                | JList l =>
                    fold_left
                      (fun count item => count_fields_with_polygons item count)
                      l count
                | _ => count
                end)
        d count
  | _ => count
  end.

Definition enrich_extraction_with_polygons
    (ratio partial_ratio : string -> string -> Q) (py_repr : json -> string)
    (extracted_data : dict) (polygon_data : Index.t) (threshold : Q) : dict :=
  let enriched :=
    enrich_fields ratio partial_ratio py_repr polygon_data threshold
      extracted_data in
  let total_fields := count_fields (JDict enriched) 0 in
  let fields_with_polygons := count_fields_with_polygons (JDict enriched) 0 in
  dict_set enriched "_polygonMetadata"
    (JDict
       [("totalFields", JInt total_fields);
        ("fieldsWithPolygons", JInt fields_with_polygons);
        ("correlationThreshold", JNum threshold);
        ("sourceDataAvailable",
         JDict
           [("words", JInt (List.length (Index.words polygon_data)));
            ("lines", JInt (List.length (Index.lines polygon_data)));
            ("keyValuePairs",
             JInt (List.length (Index.keyValuePairs polygon_data)));
            ("paragraphs",
             JInt (List.length (Index.paragraphs polygon_data)))])]).

(* ------------------------------------------------------------------ *)
(** ** Content selection of the second provider

    The part of [get_ocr_results] between [result = response.json()]
    and [return ocr_text]: the parsed response is a JSON object. *)

Inductive PyError : Type := TypeError | KeyError | AttributeError.

Inductive outcome (A : Type) : Type :=
| Returned (a : A)
| Raised (e : PyError).
Arguments Returned {A} a.
Arguments Raised {A} e.

Definition bind {A B : Type} (o : outcome A) (f : A -> outcome B) : outcome B :=
  match o with
  | Returned a => f a
  | Raised e => Raised e
  end.

Notation "x <- c1 ;; c2" := (bind c1 (fun x => c2))
  (at level 61, c1 at next level, right associativity).

Definition blank_line : string :=
  String (ascii_of_nat 10) (String (ascii_of_nat 10) EmptyString).

(** The loop collecting [page["markdown"]]. *)
Definition markdown_parts (pages : list json) : list json :=
  fold_left
    (fun parts page =>
       match page with
       | JDict d =>
           match dict_get d "markdown" with
           | Some m => parts ++ [m]
           | None => parts
           end
       | _ => parts
       end)
    pages [].

(** [sep.join(parts)]: every part has to be a string. *)
Fixpoint join_parts (parts : list json) : outcome (list string) :=
  match parts with
  | [] => Returned []
  | JStr s :: r => ss <- join_parts r ;; Returned (s :: ss)
  | _ :: _ => Raised TypeError
  end.

Definition py_join (sep : string) (parts : list json) : outcome json :=
  ss <- join_parts parts ;; Returned (JStr (String.concat sep ss)).

(** [len(v)] *)
Definition py_len (v : json) : outcome nat :=
  match v with
  | JStr s => Returned (String.length s)
  | JList l => Returned (List.length l)
  | JDict d => Returned (List.length d)
  | _ => Raised TypeError
  end.

(** [v[0]] for a [v] of positive length. *)
Definition py_first (v : json) : outcome json :=
  match v with
  | JList (x :: _) => Returned x
  | JStr (String c _) => Returned (JStr (String c EmptyString))
  | JDict _ => Raised KeyError
  | _ => Raised TypeError
  end.

(** [v.get(k, default)] *)
Definition py_get (v : json) (k : string) (default : json) : outcome json :=
  match v with
  | JDict d => Returned (opt_default default (dict_get d k))
  | _ => Raised AttributeError
  end.

Definition select_ocr_text (result : dict) : outcome json :=
  match dict_get result "pages" with
  | Some (JList pages) => py_join blank_line (markdown_parts pages)
  | _ =>
      match dict_get result "content" with
      | Some content => Returned content
      | None =>
          match dict_get result "text" with
          | Some text => Returned text
          | None =>
              match dict_get result "choices" with
              | Some choices =>
                  n <- py_len choices ;;
                  if 0 <? n then
                    choice <- py_first choices ;;
                    message <- py_get choice "message" (JDict []) ;;
                    py_get message "content" (JStr "")
                  else Returned (JStr "")
              | None => Returned (JStr "")
              end
          end
      end
  end.

(** [ocr_text] as returned when [include_polygons] is false; the log line
    before the return evaluates [len(ocr_text)]. *)
Definition ocr_text_of_result (result : dict) : outcome json :=
  ocr_text <- select_ocr_text result ;;
  _ <- py_len ocr_text ;;
  Returned ocr_text.

(** *** The fallback order as the design document words it *)

Definition is_string (v : json) : bool :=
  match v with JStr _ => true | _ => false end.

Definition page_well_formed (page : json) : bool :=
  match page with
  | JDict d =>
      match dict_get d "markdown" with
      | Some m => is_string m
      | None => true
      end
  | _ => true
  end.

Definition choice_well_formed (choice : json) : bool :=
  match choice with
  | JDict c =>
      match dict_get c "message" with
      | Some (JDict m) =>
          match dict_get m "content" with
          | Some x => is_string x
          | None => true
          end
      | Some _ => false
      | None => true
      end
  | _ => false
  end.

(** The fields the selection reads have a type it can handle: the
    [markdown] of each page of a [pages] list is a string; without a
    [pages] list, the first of [content], [text] and [choices] that is
    there is a string, a string, or an empty collection or a list whose
    first element is a choice as the provider documents it.  The fields
    that are not read are not constrained. *)
Definition well_formed_response (result : dict) : bool :=
  match dict_get result "pages" with
  | Some (JList pages) => forallb page_well_formed pages
  | _ =>
      match dict_get result "content" with
      | Some v => is_string v
      | None =>
          match dict_get result "text" with
          | Some v => is_string v
          | None =>
              match dict_get result "choices" with
              | Some (JList (choice :: _)) => choice_well_formed choice
              | Some (JList []) | Some (JDict []) | Some (JStr EmptyString) =>
                  true
              | Some _ => false
              | None => true
              end
          end
      end
  end.

Definition page_markdowns (pages : list json) : list string :=
  flat_map
    (fun page =>
       match page with
       | JDict d =>
           match dict_get d "markdown" with
           | Some (JStr s) => [s]
           | _ => []
           end
       | _ => []
       end)
    pages.

Definition first_choice_content (choices : json) : string :=
  match choices with
  | JList (JDict c :: _) =>
      match dict_get c "message" with
      | Some (JDict m) =>
          match dict_get m "content" with
          | Some (JStr s) => s
          | _ => ""
          end
      | _ => ""
      end
  | _ => ""
  end.

Definition fallback_content (result : dict) : string :=
  match dict_get result "pages" with
  | Some (JList pages) => String.concat blank_line (page_markdowns pages)
  | _ =>
      match dict_get result "content" with
      | Some (JStr s) => s
      | _ =>
          match dict_get result "text" with
          | Some (JStr s) => s
          | _ =>
              match dict_get result "choices" with
              | Some choices => first_choice_content choices
              | None => ""
              end
          end
      end
  end.

(* ------------------------------------------------------------------ *)
(** ** Notions used to state the properties *)

(** Two matches lie in the same deduplication group. *)
Definition same_group (a b : Match.t) : Prop :=
  key_eqb (match_key a) (match_key b) = true.

(** [m] is the first member of its group in [l] whose [score] is
    maximal in the group. *)
Definition first_best (l : list Match.t) (m : Match.t) : Prop :=
  exists l1 l2,
    l = l1 ++ m :: l2
    /\ (forall x, In x l1 -> same_group x m -> (score x < score m)%Q)
    /\ (forall x, In x l2 -> same_group x m -> (score x <= score m)%Q).

(** No two members of [l] lie in the same group. *)
Fixpoint distinct_groups (l : list Match.t) : Prop :=
  match l with
  | [] => True
  | m :: r => (forall x, In x r -> ~ same_group m x) /\ distinct_groups r
  end.


(** The keys of every mapping of the tree are pairwise different, as in
    any Python dict. *)
Fixpoint unique_keysb (keys : list string) : bool :=
  match keys with
  | [] => true
  | k :: r => negb (existsb (String.eqb k) r) && unique_keysb r
  end.

Fixpoint well_keyed (v : json) : bool :=
  match v with
  | JDict d =>
      unique_keysb (map fst d) && forallb (fun kv => well_keyed (snd kv)) d
  | JList l => forallb well_keyed l
  | _ => true
  end.

Definition is_list (v : json) : bool :=
  match v with JList _ => true | _ => false end.

(** No sequence of the tree has a sequence as an element. *)
Fixpoint flat_sequences (v : json) : bool :=
  match v with
  | JDict d => forallb (fun kv => flat_sequences (snd kv)) d
  | JList l => forallb (fun item => negb (is_list item) && flat_sequences item) l
  | _ => true
  end.

(** [out] has the shape of [inp]: the same keys at each mapping, the
    same indices at each sequence, and a record holding the value and a
    [boundingPolygons] list in place of each scalar. *)
Fixpoint mirrors (inp out : json) {struct inp} : bool :=
  match inp with
  | JDict d =>
      match out with
      | JDict d' =>
          (fix go (d : list (string * json)) (d' : dict) : bool :=
             match d, d' with
             | [], [] => true
             | kv :: r, kv' :: r' =>
                 String.eqb (fst kv) (fst kv') && mirrors (snd kv) (snd kv')
                 && go r r'
             | _, _ => false
             end) d d'
      | _ => false
      end
  | JList l =>
      match out with
      | JList l' =>
          (fix go (l l' : list json) : bool :=
             match l, l' with
             | [], [] => true
             | x :: r, x' :: r' => mirrors x x' && go r r'
             | _, _ => false
             end) l l'
      | _ => false
      end
  | _ =>
      match out with
      | JDict rec =>
          match dict_get rec "value", dict_get rec "boundingPolygons" with
          | Some v, Some (JList _) =>
              match inp, v with
              | JNull, JNull => true
              | JBool a, JBool b => Bool.eqb a b
              | JNum a, JNum b =>
                  (Qnum a =? Qnum b)%Z && (Qden a =? Qden b)%positive
              | JStr a, JStr b => String.eqb a b
              | _, _ => false
              end
          | _, _ => false
          end
      | _ => false
      end
  end.

(** A value that is neither a mapping nor a sequence. *)
Definition is_scalar (v : json) : bool :=
  match v with
  | JList _ | JDict _ => false
  | _ => true
  end.

(** An induction principle for [json] that reaches through the lists. *)
Fixpoint json_induction (P : json -> Prop)
    (Hnull : P JNull) (Hbool : forall b, P (JBool b))
    (Hnum : forall q, P (JNum q)) (Hstr : forall s, P (JStr s))
    (Hlist : forall l, Forall P l -> P (JList l))
    (Hdict : forall d, Forall (fun kv => P (snd kv)) d -> P (JDict d))
    (v : json) {struct v} : P v :=
  match v with
  | JNull => Hnull
  | JBool b => Hbool b
  | JNum q => Hnum q
  | JStr s => Hstr s
  | JList l =>
      Hlist l
        ((fix go (l : list json) : Forall P l :=
            match l with
            | [] => Forall_nil P
            | x :: r =>
                Forall_cons x
                  (json_induction P Hnull Hbool Hnum Hstr Hlist Hdict x) (go r)
            end) l)
  | JDict d =>
      Hdict d
        ((fix go (d : list (string * json))
            : Forall (fun kv => P (snd kv)) d :=
            match d with
            | [] => Forall_nil _
            | kv :: r =>
                Forall_cons kv
                  (json_induction P Hnull Hbool Hnum Hstr Hlist Hdict (snd kv))
                  (go r)
            end) d)
  end.


(** The keys of [seen] are pairwise different. *)
Fixpoint distinct_keys (seen : seen_t) : Prop :=
  match seen with
  | [] => True
  | (k, _) :: r =>
      (forall k' m', In (k', m') r -> key_eqb k k' = false) /\ distinct_keys r
  end.


(** What holds of [seen] after the loop has consumed [l]. *)
Definition seen_invariant (l : list Match.t) (seen : seen_t) : Prop :=
  (forall k m, In (k, m) seen ->
               key_eqb k (match_key m) = true /\ first_best l m)
  /\ distinct_keys seen
  /\ (forall x, In x l ->
                exists k m, In (k, m) seen /\ key_eqb k (match_key x) = true).


(** The value stored for one top-level field. *)
Definition enriched_field
    (ratio partial_ratio : string -> string -> Q) (py_repr : json -> string)
    (polygon_data : Index.t) (threshold : Q) (kv : string * json) : json :=
  if is_excluded (fst kv) then snd kv
  else process_value ratio partial_ratio py_repr polygon_data threshold
         (fst kv) (snd kv).

(** The bodies of the two counting loops over the items of a dict. *)
Definition count_step (count : nat) (kv : string * json) : nat :=
  if PyStr.startswith_char "_" (fst kv) then count
  else match snd kv with
       | JDict vd =>
           if is_leaf_record vd then count + 1
           else count_fields (snd kv) count
       | JList l =>
           fold_left (fun count item => count_fields item count) l count
       | _ => count + 1
       end.

Definition count_polygons_step (count : nat) (kv : string * json) : nat :=
  if PyStr.startswith_char "_" (fst kv) then count
  else match snd kv with
       | JDict vd =>
           if is_leaf_record vd then
             if truthy (opt_default JNull (dict_get vd "boundingPolygons"))
             then count + 1 else count
           else count_fields_with_polygons (snd kv) count
       | JList l =>
           fold_left
             (fun count item => count_fields_with_polygons item count)
             l count
       | _ => count
       end.

(* ------------------------------------------------------------------ *)
(** ** Sample documents *)

Module Sample.

Definition P1 : list Q := [1; 2; 3; 4; 5; 6; 7; 8]%Q.
Definition P2 : list Q := [10; 20; 30; 40; 50; 60; 70; 80]%Q.

(** The word "Total", read with confidence 0.99. *)
Definition word_total : Item.t :=
  Item.mk (Some "Total") (Some 1%Q) (Some P1) (Some (99 # 100)%Q).


Definition match_of_totals : Match.t :=
  item_match word_total (Some (99 # 100)%Q) fuzzy_match_word_partial
    (1000 # 11)%Q.

Definition match_of_total : Match.t :=
  item_match word_total (Some (99 # 100)%Q) fuzzy_match_word_partial
    (1000 # 10)%Q.

End Sample.

Module Sample2.

(** A key-value pair "Invoice Number" / "INV-2024-001" read with
    confidence 0.9, the value at polygon [P2]. *)
Definition kv_invoice : KVPair.t :=
  KVPair.mk
    (Some (Element.mk (Some "Invoice Number")
             (Some [Polygon.mk (Some Sample.P1) (Some 1%Q)])))
    (Some (Element.mk (Some "INV-2024-001")
             (Some [Polygon.mk (Some Sample.P2) (Some 1%Q)])))
    (Some (9 # 10)%Q).

Definition line_paid : Item.t :=
  Item.mk (Some "Paid in full") (Some 1%Q) (Some Sample.P1) None.

Definition index_invoice : Index.t :=
  Index.mk [kv_invoice] [Sample.word_total] [line_paid] [].

(** The same pair read with confidence 0. *)
Definition kv_invoice_zero : KVPair.t :=
  KVPair.mk (KVPair.key kv_invoice) (KVPair.value kv_invoice) (Some 0%Q).

Definition index_zero : Index.t :=
  Index.mk [kv_invoice_zero] [Sample.word_total] [line_paid] [].

End Sample2.

Module Sample3.

(** A tree with a sequence inside a sequence. *)
Definition nested_rows : dict := [("rows", JList [JList [JNum 1]])].

(** A tree that uses the reserved key of the report. *)
Definition reserved_tree : dict :=
  [("_polygonMetadata", JStr "x"); ("a", JNum 1)].

Definition invoice_tree : dict :=
  [("error", JStr "OCR failed");
   ("invoice_number", JStr "INV-2024-001");
   ("items", JList [JDict [("sku", JStr "A-1"); ("qty", JNum 2)]]);
   ("tags", JList [JStr "Total"; JNull])].

End Sample3.

(* ------------------------------------------------------------------ *)
(** ** Notions used by the further properties *)

(** Characters that normalisation leaves alone. *)
Definition normal_char (c : ascii) : bool :=
  Ascii.eqb (PyStr.lower_char c) c
  && negb (Ascii.eqb c "_") && negb (Ascii.eqb c "-").

Definition is_dict (v : json) : bool :=
  match v with JDict _ => true | _ => false end.

(** Every sequence of the tree holds mappings only. *)
Fixpoint mapping_arrays (v : json) : bool :=
  match v with
  | JDict d => forallb (fun kv => mapping_arrays (snd kv)) d
  | JList l => forallb (fun item => is_dict item && mapping_arrays item) l
  | _ => true
  end.

(* ------------------------------------------------------------------ *)
(** ** The spatial index of the second provider

    [extract_bboxes_from_mistral_response].  The response is typed as
    the provider documents it: a page is an object whose [words],
    [lines] and [blocks], when they are lists, hold objects; a field of
    such an object, when present, has its documented type.  A field
    that is absent (or, for the three collections, not a list) reads as
    [None]. *)

Module Entry.
Record t := mk { bbox : option (list Q);
                 bounding_box : option (list Q);
                 text : option string;
                 content : option string;
                 confidence : option Q }.
End Entry.

Module Page.
Record t := mk { words : option (list Entry.t);
                 lines : option (list Entry.t);
                 blocks : option (list Entry.t) }.
End Page.

(** [e.get("bbox", e.get("bounding_box", []))] *)
Definition entry_bbox (e : Entry.t) : list Q :=
  opt_default (opt_default [] (Entry.bounding_box e)) (Entry.bbox e).

(** [e.get("text", e.get("content", ""))] *)
Definition entry_text (e : Entry.t) : string :=
  opt_default (opt_default "" (Entry.content e)) (Entry.text e).

(** The numbers of a box are rationals here; the addition the
    interpreter applies to them in [normalize_mistral_bbox] is the
    parameter [add], of which nothing is assumed. *)
Section MistralIndex.

Variable add : Q -> Q -> Q.

Definition mistral_word (page_number : Q) (word : Entry.t) : Item.t :=
  Item.mk (Some (entry_text word)) (Some page_number)
    (Some (normalize_mistral_bbox add (entry_bbox word)))
    (Entry.confidence word).

Definition mistral_line (page_number : Q) (line : Entry.t) : Item.t :=
  Item.mk (Some (entry_text line)) (Some page_number)
    (Some (normalize_mistral_bbox add (entry_bbox line))) None.

(** The body of the loop over the pages; [page_idx] counts from 0. *)
Definition extract_page (acc : list Item.t * list Item.t) (page_idx : nat)
    (page : Page.t) : list Item.t * list Item.t :=
  let page_number := inject_Z (Z.of_nat (page_idx + 1)) in
  let words :=
    fold_left (fun words word => words ++ [mistral_word page_number word])
      (opt_default [] (Page.words page)) (fst acc) in
  let lines :=
    fold_left (fun lines line => lines ++ [mistral_line page_number line])
      (opt_default [] (Page.lines page)) (snd acc) in
  let lines :=
    fold_left
      (fun lines block =>
         match entry_bbox block with
         | [] => lines
         | _ => lines ++ [mistral_line page_number block]
         end)
      (opt_default [] (Page.blocks page)) lines in
  (words, lines).

Definition extract_pages (pages : list Page.t)
  : list Item.t * list Item.t :=
  fst (fold_left
         (fun st page => (extract_page (fst st) (snd st) page, S (snd st)))
         pages (([], []), 0)).

(** [pages] is [None] when the response has no list under ["pages"]. *)
Definition extract_bboxes_from_mistral_response
    (pages : option (list Page.t)) : Index.t :=
  match pages with
  | None => Index.mk [] [] [] []
  | Some pages =>
      let (words, lines) := extract_pages pages in
      Index.mk [] words lines []
  end.

End MistralIndex.

(** [enumerate(result["pages"])] with [page_number = page_idx + 1]. *)
Fixpoint numbered_from (page_idx : nat) (pages : list Page.t)
  : list (Q * Page.t) :=
  match pages with
  | [] => []
  | page :: rest =>
      (inject_Z (Z.of_nat (page_idx + 1)), page)
      :: numbered_from (S page_idx) rest
  end.

(** An item as the second provider's normaliser builds them: content,
    page and points are there, the page is one of the first [n] pages
    and the points are not a 4-number box. *)
Definition mistral_item_ok (n : nat) (item : Item.t) : Prop :=
  Item.content item <> None
  /\ (exists k, Item.pageNumber item = Some (inject_Z (Z.of_nat k))
                /\ 1 <= k <= n)
  /\ exists points, Item.points item = Some points
                    /\ List.length points <> 4.

Definition nonempty_bbox (e : Entry.t) : bool :=
  match entry_bbox e with [] => false | _ => true end.

Module Sample4.

Definition page_one : Page.t :=
  Page.mk
    (Some [Entry.mk (Some [1; 2; 3; 4]%Q) None (Some "Total") None
             (Some (99 # 100)%Q)])
    (Some [Entry.mk None None (Some "Total due") None None])
    (Some [Entry.mk None (Some Sample.P1) None (Some "Paid in full") None;
           Entry.mk None None (Some "footer") None None]).

Definition response : option (list Page.t) :=
  Some [Page.mk None None None; page_one].

End Sample4.

(* ------------------------------------------------------------------ *)
(** ** The request to the second provider *)

(** [s.endswith(suffix)] *)
Definition endswith (s suffix : string) : bool :=
  let n := String.length s in
  let m := String.length suffix in
  if m <=? n then String.eqb (String.substring (n - m) m s) suffix
  else false.

(** [encode_file_to_base64], from the bytes read from the file;
    [b64encode] is [base64.b64encode(...).decode('utf-8')]. *)
Definition encode_file_to_base64 (b64encode : string -> string)
    (file_path file_bytes : string) : string * string :=
  let base64_encoded := b64encode file_bytes in
  if endswith (PyStr.lower file_path) ".pdf" then
    (("data:application/pdf;base64," ++ base64_encoded)%string, "document_url")
  else if endswith (PyStr.lower file_path) ".jpg"
          || endswith (PyStr.lower file_path) ".jpeg" then
    (("data:image/jpeg;base64," ++ base64_encoded)%string, "image_url")
  else if endswith (PyStr.lower file_path) ".png" then
    (("data:image/png;base64," ++ base64_encoded)%string, "image_url")
  else
    (("data:application/pdf;base64," ++ base64_encoded)%string, "document_url").

(** [get_mistral_doc_ai_client], from the dict that [get_config]
    returns; [None] stands for the [ValueError]. *)
Definition get_mistral_doc_ai_client (config : dict) : option dict :=
  let mistral_endpoint :=
    opt_default JNull (dict_get config "mistral_doc_ai_endpoint") in
  let mistral_api_key :=
    opt_default JNull (dict_get config "mistral_doc_ai_key") in
  let mistral_model :=
    opt_default (JStr "mistral-document-ai-2505")
      (dict_get config "mistral_doc_ai_model") in
  if negb (truthy mistral_endpoint) || negb (truthy mistral_api_key)
  then None
  else Some [("endpoint", mistral_endpoint);
             ("api_key", mistral_api_key);
             ("model", mistral_model)].

(** The [payload] of [get_ocr_results]; [json_schema] is [JNull] when
    the caller passes none. *)
Definition request_payload (model_name : json) (url_type data_url : string)
    (json_schema : json) (include_polygons : bool) : dict :=
  let payload :=
    [("model", model_name);
     ("document",
      JDict (dict_set [("type", JStr url_type)] url_type (JStr data_url)));
     ("include_image_base64", JBool false)] in
  if truthy json_schema || include_polygons then
    if truthy json_schema then
      dict_set payload "bbox_annotation_format"
        (JDict [("type", JStr "json_schema");
                ("json_schema",
                 JDict [("schema", json_schema);
                        ("name", JStr "document_annotation");
                        ("strict", JBool true)])])
    else dict_set payload "include_bboxes" (JBool true)
  else payload.

(* ------------------------------------------------------------------ *)
(** ** The spatial index of the first provider

    [doc_intelligence.py].  The objects of the analysis result are
    records of optional attributes: [getattr(o, a, default)] reads the
    attribute [a] or its default, an attribute that is there holding a
    value of its documented type.  The [polygon] of a word or of a line
    is declared optional by the provider's library: it is there on
    every such object and may hold [None]; it is kept apart below.  The
    [polygon] of a bounding region is a required field. *)

(** An attribute that may hold [None]: not set, set to [None], or set
    to a value. *)
Inductive attribute (A : Type) : Type :=
| Missing
| IsNone
| Has (a : A).
Arguments Missing {A}.
Arguments IsNone {A}.
Arguments Has {A} a.

Module Region.
Record t := mk { page_number : option Q; polygon : option (list Q) }.
End Region.

(** A word or a line of a page. *)
Module DIWord.
Record t := mk { content : option string;
                 confidence : option Q;
                 polygon : attribute (list Q) }.
End DIWord.

Module DIPage.
Record t := mk { page_number : option Q;
                 words : option (list DIWord.t);
                 lines : option (list DIWord.t) }.
End DIPage.

(** The key or the value object of a pair. *)
Module DIElement.
Record t := mk { content : option string;
                 bounding_regions : option (list Region.t) }.
End DIElement.

Module DIPair.
Record t := mk { key : option DIElement.t;
                 value : option DIElement.t;
                 confidence : option Q }.
End DIPair.

Module DIParagraph.
Record t := mk { content : option string;
                 role : option string;
                 bounding_regions : option (list Region.t) }.
End DIParagraph.

Module DIResult.
Record t := mk { content : string;
                 pages : option (list DIPage.t);
                 key_value_pairs : option (list DIPair.t);
                 paragraphs : option (list DIParagraph.t) }.
End DIResult.

Definition region_polygon (region : Region.t) : Polygon.t :=
  Polygon.mk (Some (opt_default [] (Region.polygon region)))
    (Some (opt_default 1%Q (Region.page_number region))).

Definition extract_polygon_from_bounding_regions
    (bounding_regions : option (list Region.t)) : list Polygon.t :=
  match bounding_regions with
  | None | Some [] => []
  | Some regions =>
      fold_left (fun polygons region => polygons ++ [region_polygon region])
        regions []
  end.

(** [list(getattr(o, 'polygon', [])) if hasattr(o, 'polygon') else []]:
    [list(None)] raises. *)
Definition polygon_points (polygon : attribute (list Q))
  : outcome (list Q) :=
  match polygon with
  | Missing => Returned []
  | IsNone => Raised TypeError
  | Has points => Returned points
  end.

Definition di_word_item (page_number : Q) (word : DIWord.t)
  : outcome Item.t :=
  points <- polygon_points (DIWord.polygon word) ;;
  Returned
    (Item.mk (Some (opt_default "" (DIWord.content word))) (Some page_number)
       (Some points) (DIWord.confidence word)).

Definition di_line_item (page_number : Q) (line : DIWord.t)
  : outcome Item.t :=
  points <- polygon_points (DIWord.polygon line) ;;
  Returned
    (Item.mk (Some (opt_default "" (DIWord.content line))) (Some page_number)
       (Some points) None).

Definition extract_words_with_polygons (pages : option (list DIPage.t))
  : outcome (list Item.t) :=
  match pages with
  | None | Some [] => Returned []
  | Some pages =>
      fold_left
        (fun state page =>
           words_data <- state ;;
           let page_number := opt_default 1%Q (DIPage.page_number page) in
           fold_left
             (fun state word =>
                words_data <- state ;;
                word_data <- di_word_item page_number word ;;
                Returned (words_data ++ [word_data]))
             (opt_default [] (DIPage.words page)) (Returned words_data))
        pages (Returned [])
  end.

Definition extract_lines_with_polygons (pages : option (list DIPage.t))
  : outcome (list Item.t) :=
  match pages with
  | None | Some [] => Returned []
  | Some pages =>
      fold_left
        (fun state page =>
           lines_data <- state ;;
           let page_number := opt_default 1%Q (DIPage.page_number page) in
           fold_left
             (fun state line =>
                lines_data <- state ;;
                line_data <- di_line_item page_number line ;;
                Returned (lines_data ++ [line_data]))
             (opt_default [] (DIPage.lines page)) (Returned lines_data))
        pages (Returned [])
  end.

(** [{"content": ..., "boundingPolygons": ...}] for a key or a value
    object, which may be missing. *)
Definition di_element (obj : option DIElement.t) : Element.t :=
  match obj with
  | Some o =>
      Element.mk (Some (opt_default "" (DIElement.content o)))
        (Some (extract_polygon_from_bounding_regions
                 (Some (opt_default [] (DIElement.bounding_regions o)))))
  | None =>
      Element.mk (Some "")
        (Some (extract_polygon_from_bounding_regions (Some [])))
  end.

Definition di_pair (kv_pair : DIPair.t) : KVPair.t :=
  KVPair.mk (Some (di_element (DIPair.key kv_pair)))
    (Some (di_element (DIPair.value kv_pair)))
    (DIPair.confidence kv_pair).

Definition extract_key_value_pairs
    (key_value_pairs : option (list DIPair.t)) : list KVPair.t :=
  match key_value_pairs with
  | None | Some [] => []
  | Some pairs =>
      fold_left (fun kv_data kv_pair => kv_data ++ [di_pair kv_pair]) pairs []
  end.

Definition polygon_dict (p : Polygon.t) : json :=
  JDict [("pageNumber", JNum (opt_default 1%Q (Polygon.pageNumber p)));
         ("points", JList (map JNum (opt_default [] (Polygon.points p))))].

Definition di_paragraph (paragraph : DIParagraph.t) : json :=
  JDict [("content", JStr (opt_default "" (DIParagraph.content paragraph)));
         ("role",
          match DIParagraph.role paragraph with
          | Some r => JStr r
          | None => JNull
          end);
         ("boundingPolygons",
          JList (map polygon_dict
                   (extract_polygon_from_bounding_regions
                      (Some (opt_default []
                               (DIParagraph.bounding_regions paragraph))))))].

Definition extract_paragraphs_with_polygons
    (paragraphs : option (list DIParagraph.t)) : list json :=
  match paragraphs with
  | None | Some [] => []
  | Some paragraphs =>
      fold_left (fun para_data paragraph => para_data ++ [di_paragraph paragraph])
        paragraphs []
  end.

(** The dict that [get_ocr_results] returns with [include_polygons]:
    its [content] and the four collections, built in the order of the
    dict display. *)
Definition di_polygon_data (result : DIResult.t)
  : outcome (string * Index.t) :=
  words <- extract_words_with_polygons (DIResult.pages result) ;;
  lines <- extract_lines_with_polygons (DIResult.pages result) ;;
  Returned
    (DIResult.content result,
     Index.mk (extract_key_value_pairs (DIResult.key_value_pairs result))
       words lines
       (extract_paragraphs_with_polygons (DIResult.paragraphs result))).

(** The polygon of a word or of a line holds [None]. *)
Definition polygon_is_none (entry : DIWord.t) : bool :=
  match DIWord.polygon entry with
  | IsNone => true
  | _ => false
  end.

(** Some word or some line of some page has a polygon holding [None]. *)
Definition some_polygon_is_none (result : DIResult.t) : bool :=
  existsb
    (fun page => existsb polygon_is_none (opt_default [] (DIPage.words page)))
    (opt_default [] (DIResult.pages result))
  || existsb
       (fun page =>
          existsb polygon_is_none (opt_default [] (DIPage.lines page)))
       (opt_default [] (DIResult.pages result)).

Module Sample5.

Definition pair_invoice : DIPair.t :=
  DIPair.mk
    (Some (DIElement.mk (Some "Invoice Number")
             (Some [Region.mk (Some 1%Q) (Some Sample.P1)])))
    (Some (DIElement.mk (Some "INV-2024-001")
             (Some [Region.mk (Some 2%Q) (Some Sample.P2);
                    Region.mk None None])))
    (Some (9 # 10)%Q).

(** A pair whose value was not read. *)
Definition pair_no_value : DIPair.t :=
  DIPair.mk
    (Some (DIElement.mk (Some "Invoice Number")
             (Some [Region.mk (Some 1%Q) (Some Sample.P1)])))
    None None.

Definition result : DIResult.t :=
  DIResult.mk "Invoice Number INV-2024-001"
    (Some [DIPage.mk (Some 1%Q)
             (Some [DIWord.mk (Some "Invoice") (Some (98 # 100)%Q)
                      (Has Sample.P1)])
             None])
    (Some [pair_no_value; pair_invoice]) None.

(** The same result with a line whose polygon holds [None]. *)
Definition result_line_without_polygon : DIResult.t :=
  DIResult.mk "Invoice Number INV-2024-001"
    (Some [DIPage.mk (Some 1%Q)
             (Some [DIWord.mk (Some "Invoice") (Some (98 # 100)%Q)
                      (Has Sample.P1)])
             (Some [DIWord.mk (Some "Invoice Number") None IsNone])])
    (Some [pair_no_value; pair_invoice]) None.

End Sample5.

(* ------------------------------------------------------------------ *)
(** ** [BlobInputStream]

    The stream object with its cache [_content], and the number of
    downloads made so far through its blob client;
    [download n] is what [download_blob().readall()] returns on the
    download number [n]. *)

Module BlobInputStream.

Record t := mk { name : string;
                 length : Z;
                 _content : option (list Byte.byte);
                 downloads : nat }.

(** [content[:size]] *)
Definition slice_to (content : list Byte.byte) (size : Z) : list Byte.byte :=
  if (0 <=? size)%Z then firstn (Z.to_nat size) content
  else firstn (Z.to_nat (Z.of_nat (List.length content) + size)) content.

Section Read.

Variable download : nat -> list Byte.byte.

Definition read (self : t) (size : Z) : list Byte.byte * t :=
  let self :=
    match _content self with
    | None =>
        mk (name self) (length self) (Some (download (downloads self)))
          (S (downloads self))
    | Some _ => self
    end in
  let content := opt_default [] (_content self) in
  if (size =? -1)%Z then (content, self)
  else (slice_to content size, self).

(** A sequence of calls of [read]. *)
Fixpoint reads (self : t) (sizes : list Z) : list (list Byte.byte) * t :=
  match sizes with
  | [] => ([], self)
  | size :: rest =>
      let (data, self) := read self size in
      let (more, self) := reads self rest in
      (data :: more, self)
  end.

End Read.

(** [BlobInputStream(blob_name, blob_size, blob_client)] *)
Definition new (blob_name : string) (blob_size : Z) : t :=
  mk blob_name blob_size None 0.

End BlobInputStream.

(** The coarsest similarity: 100 for equal strings and 0 otherwise. *)
Definition exact_ratio (a b : string) : Q :=
  if String.eqb a b then 100%Q else 0%Q.
(* ================================================================== *)
(** * Properties *)

(** ** Loops that append *)

Lemma fold_left_append {A B : Type} (f : list B -> A -> list B)
    (g : A -> list B) :
  (forall acc x, f acc x = acc ++ g x) ->
  forall l init, fold_left f l init = init ++ flat_map g l.
Proof.
  intros Hf l; induction l as [|x l IH]; intros init; simpl.
  - now rewrite app_nil_r.
  - rewrite IH, Hf, <- app_assoc. reflexivity.
Qed.

(** ** Strings *)

Lemma lstrip_all_space (s : string) :
  PyStr.all_space s = true -> PyStr.lstrip s = EmptyString.
Proof.
  unfold PyStr.all_space.
  induction s as [|c s IH]; simpl; [reflexivity|].
  intros H. apply andb_true_iff in H as [Hc Hs].
  rewrite Hc. auto.
Qed.

Lemma strip_all_space (s : string) :
  PyStr.all_space s = true -> PyStr.strip s = EmptyString.
Proof.
  intros H. unfold PyStr.strip. now rewrite lstrip_all_space.
Qed.

(** ** Bounding boxes *)

(** C6. A box of four numbers [x, y, w, h] becomes the eight numbers
    [x, y, x+w, y, x+w, y+h, x, y+h], where [+] is the addition of the
    code on the numbers of the box, whatever their type; a box of eight
    numbers, and a box of any other length (the empty one included), is
    returned as it is.  The function is total: no length raises. *)
Theorem normalize_mistral_bbox_cases
    (num : Type) (add : num -> num -> num) :
  (forall x y w h,
      normalize_mistral_bbox add [x; y; w; h]
      = [x; y; add x w; y; add x w; add y h; x; add y h])
  /\ (forall bbox, List.length bbox = 8 ->
                   normalize_mistral_bbox add bbox = bbox)
  /\ (forall bbox, List.length bbox <> 4 ->
                   normalize_mistral_bbox add bbox = bbox).
Proof.
  split; [reflexivity|].
  assert (Hother : forall bbox, List.length bbox <> 4 ->
                                normalize_mistral_bbox add bbox = bbox).
  { intros bbox Hlen. unfold normalize_mistral_bbox.
    destruct bbox as [|a r]; [reflexivity|].
    apply Nat.eqb_neq in Hlen. rewrite Hlen.
    now destruct (Nat.eqb (List.length (a :: r)) 8). }
  split; [|exact Hother].
  intros bbox Hlen. apply Hother. lia.
Qed.

Lemma normalize_mistral_bbox_cases_witness :
  normalize_mistral_bbox Qplus [1; 2; 3; 4; 5; 6; 7; 8]%Q
  = [1; 2; 3; 4; 5; 6; 7; 8]%Q
  /\ normalize_mistral_bbox Z.add [10; 20; 30; 30; 10; 30]%Z
     = [10; 20; 30; 30; 10; 30]%Z.
Proof.
  split.
  - apply (proj1 (proj2 (normalize_mistral_bbox_cases Q Qplus))).
    reflexivity.
  - apply (proj2 (proj2 (normalize_mistral_bbox_cases Z Z.add))).
    simpl. lia.
Defined.

(** ** The guard of the matcher *)

(** C8. Whatever the field name, the index and the threshold, a field
    value that is [None], or a string made of whitespace only, is
    matched to the empty list. *)
Theorem correlate_empty_value
    (ratio partial_ratio : string -> string -> Q) (py_repr : json -> string)
    (field_name : string) (field_value : json) (polygon_data : Index.t)
    (threshold : Q) :
  field_value = JNull
  \/ (exists s, field_value = JStr s /\ PyStr.all_space s = true) ->
  correlate_field_with_polygons ratio partial_ratio py_repr
    field_name field_value polygon_data threshold = [].
Proof.
  intros [-> | [s [-> Hs]]]; unfold correlate_field_with_polygons; simpl.
  - reflexivity.
  - now rewrite (strip_all_space s Hs).
Qed.

Lemma correlate_empty_value_witness :
  correlate_field_with_polygons Sim.ratio Sim.partial_ratio Sim.repr
    "total" JNull
    (Index.mk [] [Item.mk (Some "None") (Some 1%Q) (Some []) None] [] [])
    90%Q = []
  /\ correlate_field_with_polygons Sim.ratio Sim.partial_ratio Sim.repr
       "total" (JStr "   ")
       (Index.mk [] [Item.mk (Some " ") (Some 1%Q) (Some []) None] [] [])
       90%Q = [].
Proof.
  split.
  - apply correlate_empty_value. left. reflexivity.
  - apply correlate_empty_value. right. exists "   ". split; reflexivity.
Defined.

(** ** Content selection *)

Lemma markdown_parts_flat_map (pages : list json) :
  markdown_parts pages
  = flat_map
      (fun page =>
         match page with
         | JDict d =>
             match dict_get d "markdown" with
             | Some m => [m]
             | None => []
             end
         | _ => []
         end)
      pages.
Proof.
  unfold markdown_parts.
  rewrite fold_left_append with (g := fun page =>
    match page with
    | JDict d => match dict_get d "markdown" with Some m => [m] | None => [] end
    | _ => []
    end); [reflexivity|].
  intros acc [| | | | |d]; try (now rewrite app_nil_r).
  destruct (dict_get d "markdown"); [reflexivity | now rewrite app_nil_r].
Qed.

Lemma join_markdown_parts (pages : list json) :
  forallb page_well_formed pages = true ->
  join_parts (markdown_parts pages) = Returned (page_markdowns pages).
Proof.
  rewrite markdown_parts_flat_map. unfold page_markdowns.
  induction pages as [|page pages IH]; simpl; [reflexivity|].
  intros H. apply andb_true_iff in H as [Hp Hr]. specialize (IH Hr).
  destruct page as [| | | | |d]; simpl; try exact IH.
  unfold page_well_formed in Hp.
  destruct (dict_get d "markdown") as [m|]; simpl; [|exact IH].
  destruct m; try discriminate. simpl. rewrite IH. reflexivity.
Qed.

(** The fallback order.  On a response object whose fields, as far as
    they are read, have a type the selection can handle, the content
    is: the markdown of the pages, in page order, joined by a blank
    line, when the response has a list under [pages]; otherwise its
    [content]; otherwise its [text]; otherwise
    [choices[0].message.content]; and the empty string when none of
    these is there.  The selection returns: nothing is raised. *)
Lemma ocr_text_fallback_order (result : dict) :
  well_formed_response result = true ->
  ocr_text_of_result result = Returned (JStr (fallback_content result)).
Proof.
  unfold well_formed_response, ocr_text_of_result, select_ocr_text,
    fallback_content.
  intros H.
  assert (Hrest :
    match dict_get result "content" with
    | Some v => is_string v
    | None =>
        match dict_get result "text" with
        | Some v => is_string v
        | None =>
            match dict_get result "choices" with
            | Some (JList (choice :: _)) => choice_well_formed choice
            | Some (JList []) | Some (JDict []) | Some (JStr EmptyString) =>
                true
            | Some _ => false
            | None => true
            end
        end
    end = true ->
    (ocr_text <-
       match dict_get result "content" with
       | Some content => Returned content
       | None =>
           match dict_get result "text" with
           | Some text => Returned text
           | None =>
               match dict_get result "choices" with
               | Some choices =>
                   n <- py_len choices ;;
                   if 0 <? n then
                     choice <- py_first choices ;;
                     message <- py_get choice "message" (JDict []) ;;
                     py_get message "content" (JStr "")
                   else Returned (JStr "")
               | None => Returned (JStr "")
               end
           end
       end ;;
     _ <- py_len ocr_text ;; Returned ocr_text)
    = Returned (JStr
        match dict_get result "content" with
        | Some (JStr s) => s
        | _ =>
            match dict_get result "text" with
            | Some (JStr s) => s
            | _ =>
                match dict_get result "choices" with
                | Some choices => first_choice_content choices
                | None => ""
                end
            end
        end)).
  { intros Hr.
    destruct (dict_get result "content") as [c|].
    { destruct c; try discriminate. reflexivity. }
    destruct (dict_get result "text") as [t|].
    { destruct t; try discriminate. reflexivity. }
    destruct (dict_get result "choices") as [ch|]; [|reflexivity].
    destruct ch as [| | |s|l|dd]; try discriminate.
    - destruct s; [reflexivity|discriminate].
    - destruct l as [|c l]; [reflexivity|].
      destruct c as [| | | | |c]; try discriminate.
      simpl in *. destruct (dict_get c "message") as [m|]; [|reflexivity].
      destruct m as [| | | | |m]; try discriminate.
      simpl. destruct (dict_get m "content") as [x|]; [|reflexivity].
      destruct x; try discriminate. reflexivity.
    - destruct dd; [reflexivity|discriminate]. }
  destruct (dict_get result "pages") as [pg|].
  - destruct pg as [| | | |pages|]; try (apply Hrest; exact H).
    unfold py_join. rewrite (join_markdown_parts pages H). reflexivity.
  - apply Hrest; exact H.
Qed.

Lemma ocr_text_fallback_order_witness :
  ocr_text_of_result
    [("pages", JList [JDict [("index", JNum 0); ("markdown", JStr "# A")];
                      JDict [("index", JNum 1)];
                      JDict [("markdown", JStr "B")]]);
     ("content", JStr "unused")]
  = Returned (JStr (String.concat blank_line ["# A"; "B"]))
  /\ ocr_text_of_result
       [("pages", JNull);
        ("choices",
         JList [JDict [("message", JDict [("content", JStr "hello")])]])]
     = Returned (JStr "hello")
  /\ ocr_text_of_result [("usage", JNum 3)] = Returned (JStr "").
Proof.
  split; [|split].
  - apply (ocr_text_fallback_order
             [("pages", JList [JDict [("index", JNum 0); ("markdown", JStr "# A")];
                               JDict [("index", JNum 1)];
                               JDict [("markdown", JStr "B")]]);
              ("content", JStr "unused")]).
    reflexivity.
  - apply (ocr_text_fallback_order
             [("pages", JNull);
              ("choices",
               JList [JDict [("message", JDict [("content", JStr "hello")])]])]).
    reflexivity.
  - apply (ocr_text_fallback_order [("usage", JNum 3)]). reflexivity.
Defined.

(** C9. The selection does not degrade on every response that has none
    of the known content fields.  The branch for [choices] takes the
    length of whatever is stored there, and the line that reports the
    number of characters takes the length of the text selected: on the
    object with [choices] null, and on the object with [content] null,
    a [TypeError] is raised where the empty string is promised.  The
    branch for [pages] does check the type first: with [pages] null
    the selection falls through to the empty string. *)
Theorem ocr_text_null_field_raises :
  ocr_text_of_result [("choices", JNull)] = Raised TypeError
  /\ ocr_text_of_result [("content", JNull)] = Raised TypeError
  /\ ocr_text_of_result [("text", JNull)] = Raised TypeError
  /\ ocr_text_of_result [("pages", JNull)] = Returned (JStr "")
  /\ ocr_text_of_result [] = Returned (JStr "").
Proof.
  repeat split; reflexivity.
Qed.

(** ** Deduplication *)

Lemma Qlt_bool_true (a b : Q) : Qlt_bool a b = true <-> (a < b)%Q.
Proof.
  unfold Qlt_bool. rewrite negb_true_iff. split; intros H.
  - apply Qnot_le_lt. intros Hle. apply Qle_bool_iff in Hle. congruence.
  - destruct (Qle_bool b a) eqn:E; [|reflexivity].
    apply Qle_bool_iff in E. apply Qle_not_lt in E. contradiction.
Qed.

Lemma Qlt_bool_false (a b : Q) : Qlt_bool a b = false <-> (b <= a)%Q.
Proof.
  unfold Qlt_bool. rewrite negb_false_iff. apply Qle_bool_iff.
Qed.

Lemma Qlist_eqb_refl (l : list Q) : Qlist_eqb l l = true.
Proof.
  induction l as [|x l IH]; simpl; [reflexivity|].
  now rewrite Qeq_bool_refl, IH.
Qed.

Lemma Qlist_eqb_sym (l1 l2 : list Q) :
  Qlist_eqb l1 l2 = true -> Qlist_eqb l2 l1 = true.
Proof.
  revert l2; induction l1 as [|x l1 IH]; intros [|y l2]; simpl;
    try easy.
  intros H. apply andb_true_iff in H as [Hx Hl].
  rewrite (Qeq_bool_sym _ _ Hx), (IH _ Hl). reflexivity.
Qed.

Lemma Qlist_eqb_trans (l1 l2 l3 : list Q) :
  Qlist_eqb l1 l2 = true -> Qlist_eqb l2 l3 = true -> Qlist_eqb l1 l3 = true.
Proof.
  revert l2 l3; induction l1 as [|x l1 IH]; intros [|y l2] [|z l3]; simpl;
    try easy.
  intros H1 H2.
  apply andb_true_iff in H1 as [Hx1 Hl1].
  apply andb_true_iff in H2 as [Hx2 Hl2].
  rewrite (Qeq_bool_trans _ _ _ Hx1 Hx2), (IH _ _ Hl1 Hl2). reflexivity.
Qed.

Lemma key_eqb_refl k : key_eqb k k = true.
Proof.
  unfold key_eqb. now rewrite Qlist_eqb_refl, Qeq_bool_refl.
Qed.

Lemma key_eqb_sym k1 k2 : key_eqb k1 k2 = true -> key_eqb k2 k1 = true.
Proof.
  unfold key_eqb. intros H. apply andb_true_iff in H as [H1 H2].
  now rewrite (Qlist_eqb_sym _ _ H1), (Qeq_bool_sym _ _ H2).
Qed.

Lemma key_eqb_trans k1 k2 k3 :
  key_eqb k1 k2 = true -> key_eqb k2 k3 = true -> key_eqb k1 k3 = true.
Proof.
  unfold key_eqb. intros H1 H2.
  apply andb_true_iff in H1 as [A1 B1].
  apply andb_true_iff in H2 as [A2 B2].
  now rewrite (Qlist_eqb_trans _ _ _ A1 A2), (Qeq_bool_trans _ _ _ B1 B2).
Qed.

Lemma key_eqb_false_l k1 k2 k3 :
  key_eqb k1 k2 = true -> key_eqb k1 k3 = false -> key_eqb k2 k3 = false.
Proof.
  intros H12 H13. destruct (key_eqb k2 k3) eqn:E; [|reflexivity].
  rewrite (key_eqb_trans _ _ _ H12 E) in H13. discriminate.
Qed.

Lemma seen_get_none seen key :
  seen_get seen key = None ->
  (forall k m, In (k, m) seen -> key_eqb k key = false)
  /\ forall p, seen_set seen key p = seen ++ [(key, p)].
Proof.
  induction seen as [|[k m] r IH]; simpl; intros H.
  - split; [intros ? ? []|reflexivity].
  - destruct (key_eqb k key) eqn:E; [discriminate|].
    destruct (IH H) as [IH1 IH2]. split.
    + intros k' m' [Heq|Hin]; [now inversion Heq; subst|eauto].
    + intros p. now rewrite IH2.
Qed.

Lemma seen_get_some seen key e :
  seen_get seen key = Some e ->
  exists s1 k s2,
    seen = s1 ++ (k, e) :: s2
    /\ key_eqb k key = true
    /\ forall p, seen_set seen key p = s1 ++ (k, p) :: s2.
Proof.
  induction seen as [|[k m] r IH]; simpl; intros H; [discriminate|].
  destruct (key_eqb k key) eqn:E.
  - inversion H; subst. exists [], k, r. auto.
  - destruct (IH H) as (s1 & k0 & s2 & -> & Hk & Hset).
    exists ((k, m) :: s1), k0, s2. repeat split; auto.
    intros p. simpl. now rewrite Hset.
Qed.

Lemma distinct_keys_middle s1 k e s2 :
  distinct_keys (s1 ++ (k, e) :: s2) ->
  forall k' m', In (k', m') (s1 ++ s2) -> key_eqb k k' = false.
Proof.
  induction s1 as [|[k0 m0] s1 IH]; simpl.
  - intros [H _]. exact H.
  - intros [H0 Hd] k' m' [Heq|Hin].
    + inversion Heq; subst.
      destruct (key_eqb k k') eqn:E; [|reflexivity].
      apply key_eqb_sym in E.
      rewrite (H0 k e) in E; [discriminate|].
      apply in_or_app. right. now left.
    + eauto.
Qed.

Lemma distinct_keys_replace s1 k e p s2 :
  distinct_keys (s1 ++ (k, e) :: s2) -> distinct_keys (s1 ++ (k, p) :: s2).
Proof.
  induction s1 as [|[k0 m0] s1 IH]; simpl.
  - auto.
  - intros [H0 Hd]. split; [|auto].
    intros k' m' Hin. apply in_app_or in Hin as [Hin|[Heq|Hin]].
    + apply (H0 k' m'). apply in_or_app. now left.
    + inversion Heq; subst. apply (H0 k' e). apply in_or_app. right. now left.
    + apply (H0 k' m'). apply in_or_app. right. now right.
Qed.

Lemma distinct_keys_snoc seen key p :
  distinct_keys seen ->
  (forall k m, In (k, m) seen -> key_eqb k key = false) ->
  distinct_keys (seen ++ [(key, p)]).
Proof.
  induction seen as [|[k m] r IH]; simpl.
  - intros _ _. split; [intros ? ? []|exact I].
  - intros [H0 Hd] Hnew. split.
    + intros k' m' Hin. apply in_app_or in Hin as [Hin|[Heq|[]]].
      * eauto.
      * inversion Heq; subst. apply (Hnew k m). now left.
    + apply IH; [exact Hd|].
      intros k0 m0 Hin. apply (Hnew k0 m0). now right.
Qed.

Lemma first_best_bound l m x :
  first_best l m -> In x l -> same_group x m -> (score x <= score m)%Q.
Proof.
  intros (l1 & l2 & -> & H1 & H2) Hin Hg.
  apply in_app_or in Hin as [Hin|[<-|Hin]].
  - apply Qlt_le_weak. auto.
  - apply Qle_refl.
  - auto.
Qed.

Lemma first_best_snoc l m x :
  first_best l m -> (same_group x m -> (score x <= score m)%Q) ->
  first_best (l ++ [x]) m.
Proof.
  intros (l1 & l2 & -> & H1 & H2) Hx.
  exists l1, (l2 ++ [x]). split; [now rewrite <- app_assoc|].
  split; [exact H1|].
  intros y Hin Hg. apply in_app_or in Hin as [Hin|[<-|[]]]; auto.
Qed.

Lemma seen_invariant_step l seen x :
  seen_invariant l seen -> seen_invariant (l ++ [x]) (dedup_step seen x).
Proof.
  intros (Hbest & Hdist & Hcov). unfold dedup_step.
  destruct (seen_get seen (match_key x)) as [e|] eqn:Hget.
  - destruct (seen_get_some _ _ _ Hget) as (s1 & k & s2 & -> & Hk & Hset).
    assert (Hin_e : In (k, e) (s1 ++ (k, e) :: s2))
      by (apply in_or_app; right; now left).
    destruct (Hbest k e Hin_e) as [Hke Hbe].
    assert (Hother : forall k' m', In (k', m') (s1 ++ s2) ->
                                   ~ same_group x m').
    { intros k' m' Hin Hg.
      assert (Hin' : In (k', m') (s1 ++ (k, e) :: s2)).
      { apply in_app_or in Hin as [?|?]; apply in_or_app;
          [now left | right; now right]. }
      destruct (Hbest k' m' Hin') as [Hk' _].
      pose proof (distinct_keys_middle _ _ _ _ Hdist k' m' Hin) as Hne.
      unfold same_group in Hg.
      rewrite (key_eqb_trans _ _ _ Hk
                 (key_eqb_trans _ _ _ Hg (key_eqb_sym _ _ Hk'))) in Hne.
      discriminate. }
    assert (Hkeep : forall k' m', In (k', m') (s1 ++ s2) ->
                      key_eqb k' (match_key m') = true
                      /\ first_best (l ++ [x]) m').
    { intros k' m' Hin.
      assert (Hin' : In (k', m') (s1 ++ (k, e) :: s2)).
      { apply in_app_or in Hin as [?|?]; apply in_or_app;
          [now left | right; now right]. }
      destruct (Hbest k' m' Hin') as [Hk' Hb']. split; [exact Hk'|].
      apply first_best_snoc; [exact Hb'|].
      intros Hg. exfalso. exact (Hother k' m' Hin Hg). }
    destruct (Qlt_bool (score e) (score x)) eqn:Hlt.
    + apply Qlt_bool_true in Hlt. rewrite Hset.
      split; [|split].
      * intros k' m' Hin. apply in_app_or in Hin as [Hin|[Heq|Hin]].
        -- apply Hkeep. apply in_or_app. now left.
        -- inversion Heq; subst k' m'. split; [exact Hk|].
           exists l, []. split; [reflexivity|].
           split; [|intros ? []].
           intros y Hy Hg.
           apply Qle_lt_trans with (y := score e); [|exact Hlt].
           apply (first_best_bound _ _ _ Hbe Hy).
           unfold same_group in *.
           apply (key_eqb_trans _ _ _ Hg).
           apply (key_eqb_trans _ _ _ (key_eqb_sym _ _ Hk) Hke).
        -- apply Hkeep. apply in_or_app. now right.
      * eapply distinct_keys_replace; eauto.
      * intros y Hy. apply in_app_or in Hy as [Hy|[<-|[]]].
        -- destruct (Hcov y Hy) as (k' & m' & Hin & Hk').
           apply in_app_or in Hin as [Hin|[Heq|Hin]].
           ++ exists k', m'. split; [apply in_or_app; now left|exact Hk'].
           ++ inversion Heq; subst k' m'. exists k, x.
              split; [apply in_or_app; right; now left|exact Hk'].
           ++ exists k', m'.
              split; [apply in_or_app; right; now right|exact Hk'].
        -- exists k, x. split; [apply in_or_app; right; now left|exact Hk].
    + apply Qlt_bool_false in Hlt.
      split; [|split].
      * intros k' m' Hin. apply in_app_or in Hin as [Hin|[Heq|Hin]].
        -- apply Hkeep. apply in_or_app. now left.
        -- inversion Heq; subst k' m'. split; [exact Hke|].
           apply first_best_snoc; [exact Hbe|]. intros _. exact Hlt.
        -- apply Hkeep. apply in_or_app. now right.
      * exact Hdist.
      * intros y Hy. apply in_app_or in Hy as [Hy|[<-|[]]]; [auto|].
        exists k, e. split; [exact Hin_e|exact Hk].
  - destruct (seen_get_none _ _ Hget) as [Hnone Hset]. rewrite Hset.
    split; [|split].
    + intros k' m' Hin. apply in_app_or in Hin as [Hin|[Heq|[]]].
      * destruct (Hbest k' m' Hin) as [Hk' Hb']. split; [exact Hk'|].
        apply first_best_snoc; [exact Hb'|].
        intros Hg. exfalso. unfold same_group in Hg.
        pose proof (Hnone k' m' Hin) as Hne.
        rewrite (key_eqb_trans _ _ _ Hk' (key_eqb_sym _ _ Hg)) in Hne.
        discriminate.
      * inversion Heq; subst k' m'. split; [apply key_eqb_refl|].
        exists l, []. split; [reflexivity|].
        split; [|intros ? []].
        intros y Hy Hg. exfalso.
        destruct (Hcov y Hy) as (k' & m' & Hin & Hk').
        unfold same_group in Hg.
        pose proof (Hnone k' m' Hin) as Hne.
        rewrite (key_eqb_trans _ _ _ Hk' Hg) in Hne. discriminate.
    + apply distinct_keys_snoc; auto.
    + intros y Hy. apply in_app_or in Hy as [Hy|[<-|[]]].
      * destruct (Hcov y Hy) as (k' & m' & Hin & Hk').
        exists k', m'. split; [apply in_or_app; now left|exact Hk'].
      * exists (match_key x), x.
        split; [apply in_or_app; right; now left|apply key_eqb_refl].
Qed.

Lemma seen_invariant_fold l :
  seen_invariant l (fold_left dedup_step l []).
Proof.
  induction l as [|x l IH] using rev_ind.
  - split; [|split]; simpl.
    + intros k m [].
    + exact I.
    + intros x [].
  - rewrite fold_left_app. simpl. now apply seen_invariant_step.
Qed.

Lemma deduplicate_subset (polygons : list Match.t) (m : Match.t) :
  In m (deduplicate_polygons polygons) -> In m polygons.
Proof.
  unfold deduplicate_polygons. intros Hin.
  apply in_map_iff in Hin as ([k m'] & <- & Hin).
  destruct (seen_invariant_fold polygons) as (Hbest & _ & _).
  destruct (Hbest k m' Hin) as (_ & l1 & l2 & -> & _).
  apply in_or_app. right. now left.
Qed.

Lemma deduplicate_covers (polygons : list Match.t) (x : Match.t) :
  In x polygons ->
  exists m, In m (deduplicate_polygons polygons) /\ same_group x m.
Proof.
  unfold deduplicate_polygons. intros Hx.
  destruct (seen_invariant_fold polygons) as (Hbest & _ & Hcov).
  destruct (Hcov x Hx) as (k & m & Hin & Hk).
  exists m. split.
  - apply in_map_iff. exists (k, m). auto.
  - destruct (Hbest k m Hin) as [Hkm _]. unfold same_group.
    apply (key_eqb_trans _ _ _ (key_eqb_sym _ _ Hk) Hkm).
Qed.

Lemma deduplicate_nonempty (polygons : list Match.t) :
  polygons <> [] -> deduplicate_polygons polygons <> [].
Proof.
  destruct polygons as [|x r]; [congruence|]. intros _ Hnil.
  destruct (deduplicate_covers (x :: r) x (or_introl eq_refl))
    as (m & Hin & _).
  rewrite Hnil in Hin. destruct Hin.
Qed.




(** ** Pass 1 *)

Section Passes.

Variable ratio : string -> string -> Q.
Variable partial_ratio : string -> string -> Q.
Variable py_repr : json -> string.

Lemma find_key_value_polygon_flat_map field_name field_value kvs threshold :
  find_key_value_polygon ratio py_repr field_name field_value kvs threshold
  = flat_map
      (kv_pair_matches ratio (normalize_key field_name)
         (str_field_value_of py_repr field_value) threshold)
      kvs.
Proof.
  unfold find_key_value_polygon.
  now rewrite fold_left_append with
    (g := kv_pair_matches ratio (normalize_key field_name)
            (str_field_value_of py_repr field_value) threshold).
Qed.

Lemma kv_pair_matches_source nfn sfv threshold kv_pair m :
  In m (kv_pair_matches ratio nfn sfv threshold kv_pair) ->
  Match.source m = doc_intelligence_kv.
Proof.
  unfold kv_pair_matches.
  destruct (Qle_bool threshold _); [|intros []].
  destruct (_ || _); [|intros []].
  intros Hin. apply in_map_iff in Hin as (p & <- & _). reflexivity.
Qed.

Lemma find_key_value_polygon_source field_name field_value kvs threshold m :
  In m (find_key_value_polygon ratio py_repr field_name field_value kvs
          threshold) ->
  Match.source m = doc_intelligence_kv.
Proof.
  rewrite find_key_value_polygon_flat_map. intros Hin.
  apply in_flat_map in Hin as (kv & _ & Hin).
  eapply kv_pair_matches_source; eauto.
Qed.

Lemma correlate_logged_result field_name field_value polygon_data threshold :
  snd (correlate_logged ratio partial_ratio py_repr
         field_name field_value polygon_data threshold)
  = correlate_field_with_polygons ratio partial_ratio py_repr
      field_name field_value polygon_data threshold.
Proof.
  unfold correlate_logged, correlate_field_with_polygons.
  destruct (skipped field_value); [reflexivity|].
  unfold call, and_then, done, run.
  destruct (find_key_value_polygon _ _ _ _ _ _); reflexivity.
Qed.

Lemma correlate_logged_calls field_name field_value polygon_data threshold :
  fst (correlate_logged ratio partial_ratio py_repr
         field_name field_value polygon_data threshold)
  = if skipped field_value then []
    else
      Pass1 field_name field_value (Index.keyValuePairs polygon_data)
        threshold
      :: match find_key_value_polygon ratio py_repr field_name field_value
                 (Index.keyValuePairs polygon_data) threshold with
         | [] => [Pass2 (py_str py_repr field_value)
                    (Index.words polygon_data) (Index.lines polygon_data)
                    threshold]
         | _ => []
         end.
Proof.
  unfold correlate_logged.
  destruct (skipped field_value); [reflexivity|].
  unfold call, and_then, done, run.
  destruct (find_key_value_polygon _ _ _ _ _ _); reflexivity.
Qed.

End Passes.

(** C5. The calls made for a field are recorded with their arguments.
    Unless the value is [None] or a blank string (then neither pass is
    called and the result is empty), Pass 1 is called first, on the
    field name, the value and the key-value pairs of the index; Pass 2,
    the fuzzy matching [find_fuzzy_match_polygons] of the value's text
    against the words and lines of the index, is called exactly when
    Pass 1 was called and returned no match, and nothing else is
    called.  When Pass 1 returns no match the result is the
    deduplicated list of the matches of Pass 2; when it returns at
    least one, Pass 1 is the only call and the result is the
    deduplicated list of its key-value matches and nothing else. *)
Theorem pass2_iff_pass1_empty
    (ratio partial_ratio : string -> string -> Q) (py_repr : json -> string)
    (field_name : string) (field_value : json) (polygon_data : Index.t)
    (threshold : Q) :
  let pass1 :=
    Pass1 field_name field_value (Index.keyValuePairs polygon_data)
      threshold in
  let pass2 :=
    Pass2 (py_str py_repr field_value) (Index.words polygon_data)
      (Index.lines polygon_data) threshold in
  let kv_matches :=
    find_key_value_polygon ratio py_repr field_name field_value
      (Index.keyValuePairs polygon_data) threshold in
  let fuzzy_matches :=
    find_fuzzy_match_polygons ratio partial_ratio
      (py_str py_repr field_value) (Index.words polygon_data)
      (Index.lines polygon_data) threshold in
  let logged :=
    correlate_logged ratio partial_ratio py_repr
      field_name field_value polygon_data threshold in
  snd logged
  = correlate_field_with_polygons ratio partial_ratio py_repr
      field_name field_value polygon_data threshold
  /\ fst logged
     = (if skipped field_value then []
        else pass1 :: match kv_matches with [] => [pass2] | _ => [] end)
  /\ (forall c, In c (fst logged) -> c = pass1 \/ c = pass2)
  /\ (In pass1 (fst logged) <-> skipped field_value = false)
  /\ (In pass2 (fst logged) <-> In pass1 (fst logged) /\ kv_matches = [])
  /\ (In pass1 (fst logged) -> kv_matches = [] ->
      snd logged = deduplicate_polygons fuzzy_matches)
  /\ (In pass1 (fst logged) -> kv_matches <> [] ->
      fst logged = [pass1]
      /\ snd logged = deduplicate_polygons kv_matches
      /\ snd logged <> []
      /\ forall m, In m (snd logged) ->
                   In m kv_matches /\ Match.source m = doc_intelligence_kv).
Proof.
  intros pass1 pass2 kv_matches fuzzy_matches logged.
  pose proof (correlate_logged_result ratio partial_ratio py_repr
                field_name field_value polygon_data threshold) as Hres.
  pose proof (correlate_logged_calls ratio partial_ratio py_repr
                field_name field_value polygon_data threshold) as Hlog.
  fold logged in Hres, Hlog. fold pass1 pass2 kv_matches in Hlog.
  split; [exact Hres|]. split; [exact Hlog|].
  rewrite Hres, Hlog. unfold correlate_field_with_polygons.
  fold kv_matches fuzzy_matches.
  destruct (skipped field_value).
  - split; [intros c []|].
    split; [split; [intros []|discriminate]|].
    split; [split; [intros []|intros [[] _]]|].
    split; intros [].
  - destruct kv_matches as [|m0 r] eqn:Hkv.
    + split; [intros c [<-|[<-|[]]]; auto|].
      split; [split; [reflexivity|intros _; now left]|].
      split; [split; [intros _; split; [now left|reflexivity]
                     |intros _; right; now left]|].
      split; [intros _ _; reflexivity|].
      intros _ H. now contradiction H.
    + split; [intros c [<-|[]]; auto|].
      split; [split; [reflexivity|intros _; now left]|].
      split; [split; [intros [H|[]]; discriminate H
                     |intros [_ H]; discriminate H]|].
      split; [intros _ H; discriminate H|].
      intros _ _. split; [reflexivity|]. split; [reflexivity|]. split.
      * apply deduplicate_nonempty. discriminate.
      * intros m Hin. apply deduplicate_subset in Hin.
        split; [exact Hin|].
        apply (find_key_value_polygon_source ratio py_repr field_name
                 field_value (Index.keyValuePairs polygon_data) threshold).
        subst kv_matches. rewrite Hkv. exact Hin.
Qed.

Lemma pass2_iff_pass1_empty_witness :
  fst (correlate_logged Sim.ratio Sim.partial_ratio Sim.repr
         "invoice_number" (JStr "INV-2024-001") Sample2.index_invoice 90%Q)
  = [Pass1 "invoice_number" (JStr "INV-2024-001") [Sample2.kv_invoice]
       90%Q]
  /\ correlate_field_with_polygons Sim.ratio Sim.partial_ratio Sim.repr
       "invoice_number" (JStr "INV-2024-001") Sample2.index_invoice 90%Q
     = deduplicate_polygons
         (find_key_value_polygon Sim.ratio Sim.repr
            "invoice_number" (JStr "INV-2024-001") [Sample2.kv_invoice]
            90%Q).
Proof.
  pose proof (pass2_iff_pass1_empty Sim.ratio Sim.partial_ratio Sim.repr
                "invoice_number" (JStr "INV-2024-001")
                Sample2.index_invoice 90%Q) as H.
  cbv zeta in H. destruct H as (Hres & _ & _ & _ & _ & _ & Hkv).
  rewrite <- Hres.
  assert (Hone : In (Pass1 "invoice_number" (JStr "INV-2024-001")
                       (Index.keyValuePairs Sample2.index_invoice) 90%Q)
                   (fst (correlate_logged Sim.ratio Sim.partial_ratio
                           Sim.repr "invoice_number" (JStr "INV-2024-001")
                           Sample2.index_invoice 90%Q))).
  { vm_compute. now left. }
  assert (Hne : find_key_value_polygon Sim.ratio Sim.repr
                  "invoice_number" (JStr "INV-2024-001")
                  (Index.keyValuePairs Sample2.index_invoice) 90%Q <> []).
  { vm_compute. discriminate. }
  destruct (Hkv Hone Hne) as (Hcalls & Hdedup & _).
  split; [exact Hcalls|exact Hdedup].
Defined.




(** ** Pass 2 *)

Lemma split_nonempty (s : string) :
  1 < List.length (PyStr.split s) -> PyStr.nonempty s = true.
Proof.
  destruct s; simpl; [lia|reflexivity].
Qed.

Lemma find_fuzzy_match_polygons_multi_word
    (ratio partial_ratio : string -> string -> Q)
    (value : string) (words lines : list Item.t) (threshold : Q) :
  let search_value := PyStr.lower (PyStr.strip value) in
  1 < List.length (PyStr.split search_value) ->
  find_fuzzy_match_polygons ratio partial_ratio value words lines threshold
  = flat_map (line_matches ratio partial_ratio search_value threshold) lines
    ++ flat_map (word_matches ratio search_value threshold) words.
Proof.
  intros search_value Hmulti. unfold find_fuzzy_match_polygons.
  fold search_value. rewrite (split_nonempty _ Hmulti). simpl.
  apply Nat.ltb_lt in Hmulti. rewrite Hmulti.
  rewrite fold_left_append with
    (g := word_matches ratio search_value threshold) by reflexivity.
  rewrite fold_left_append with
    (g := line_matches ratio partial_ratio search_value threshold)
    by reflexivity.
  reflexivity.
Qed.

(** C2 (as amended). For a search value of several words Pass 2 emits,
    for each line in turn, what [line_matches] gives, before the
    matches of the words.  On one line the full-string check comes
    first: at or above the threshold it emits a line-fuzzy match and
    the containment check is not made; below the threshold, a
    line-partial match is emitted when the search value is a substring
    of the line and the partial similarity reaches the threshold.  A
    line therefore yields at most one match, never both kinds. *)
Theorem line_checks_exclusive
    (ratio partial_ratio : string -> string -> Q)
    (value : string) (words lines : list Item.t) (threshold : Q) :
  let search_value := PyStr.lower (PyStr.strip value) in
  1 < List.length (PyStr.split search_value) ->
  find_fuzzy_match_polygons ratio partial_ratio value words lines threshold
  = flat_map (line_matches ratio partial_ratio search_value threshold) lines
    ++ flat_map (word_matches ratio search_value threshold) words
  /\ forall line,
      let line_content := PyStr.lower (opt_default "" (Item.content line)) in
      let found := line_matches ratio partial_ratio search_value threshold line in
      let fuzzy :=
        item_match line None fuzzy_match_line (ratio search_value line_content) in
      let partial :=
        item_match line None fuzzy_match_line_partial
          (partial_ratio search_value line_content) in
      (In fuzzy found <->
         Qle_bool threshold (ratio search_value line_content) = true)
      /\ (In partial found <->
            Qle_bool threshold (ratio search_value line_content) = false
            /\ PyStr.contains search_value line_content = true
            /\ Qle_bool threshold (partial_ratio search_value line_content)
               = true)
      /\ (forall m, In m found -> m = fuzzy \/ m = partial)
      /\ List.length found <= 1.
Proof.
  intros search_value Hmulti.
  split; [now apply find_fuzzy_match_polygons_multi_word|].
  intros line line_content found fuzzy partial.
  subst found. unfold line_matches. fold line_content. fold fuzzy. fold partial.
  assert (Hne : fuzzy <> partial) by (unfold fuzzy, partial, item_match; congruence).
  destruct (Qle_bool threshold (ratio search_value line_content)).
  - simpl. split; [|split; [|split]].
    + split; [reflexivity|intros _; now left].
    + split; [intros [E|[]]; now apply Hne in E|intros [E _]; discriminate].
    + intros m [<-|[]]. now left.
    + lia.
  - destruct (PyStr.contains search_value line_content).
    + destruct (Qle_bool threshold (partial_ratio search_value line_content)).
      * simpl. split; [|split; [|split]].
        -- split; [intros [E|[]]; symmetry in E; now apply Hne in E
                  |discriminate].
        -- split; [auto|intros _; now left].
        -- intros m [<-|[]]. now right.
        -- lia.
      * simpl. split; [|split; [|split]].
        -- split; [intros []|discriminate].
        -- split; [intros []|intros (_ & _ & E); discriminate].
        -- intros m [].
        -- lia.
    + simpl. split; [|split; [|split]].
      * split; [intros []|discriminate].
      * split; [intros []|intros (_ & E & _); discriminate].
      * intros m [].
      * lia.
Qed.

Lemma line_checks_exclusive_witness :
  find_fuzzy_match_polygons Sim.ratio Sim.partial_ratio
    " Paid in Full" [Sample.word_total] [Sample2.line_paid] 90%Q
  = flat_map (line_matches Sim.ratio Sim.partial_ratio "paid in full" 90%Q)
      [Sample2.line_paid]
    ++ flat_map (word_matches Sim.ratio "paid in full" 90%Q)
         [Sample.word_total].
Proof.
  apply (proj1 (line_checks_exclusive Sim.ratio Sim.partial_ratio
                  " Paid in Full" [Sample.word_total] [Sample2.line_paid]
                  90%Q ltac:(vm_compute; lia))).
Defined.

(** C2 as worded fails: the two checks of a line are not independent.
    The line "Paid in full" contains the search value "paid in full"
    and their partial similarity, 100, reaches the threshold 90; yet
    no line-partial match is emitted, because the full-string check
    already succeeded. *)
Lemma line_partial_counterexample :
  ~ (forall (value : string) (lines : list Item.t) (threshold : Q) line,
        let search_value := PyStr.lower (PyStr.strip value) in
        let line_content := PyStr.lower (opt_default "" (Item.content line)) in
        1 < List.length (PyStr.split search_value) ->
        In line lines ->
        PyStr.contains search_value line_content = true ->
        Qle_bool threshold (Sim.partial_ratio search_value line_content) = true ->
        exists m,
          In m (find_fuzzy_match_polygons Sim.ratio Sim.partial_ratio
                  value [] lines threshold)
          /\ Match.source m = fuzzy_match_line_partial).
Proof.
  intros H.
  destruct (H "Paid in full" [Sample2.line_paid] 90%Q Sample2.line_paid)
    as (m & Hin & Hsrc).
  - vm_compute. lia.
  - left. reflexivity.
  - vm_compute. reflexivity.
  - vm_compute. reflexivity.
  - vm_compute in Hin. destruct Hin as [<-|[]]. discriminate.
Qed.

(** ** Dicts *)

Lemma existsb_eqb_In (k : string) (keys : list string) :
  existsb (String.eqb k) keys = true <-> In k keys.
Proof.
  rewrite existsb_exists. split.
  - intros (x & Hin & Heq). apply String.eqb_eq in Heq. now subst.
  - intros Hin. exists k. split; [exact Hin|apply String.eqb_refl].
Qed.

Lemma dict_set_fresh (d : dict) (k : string) (v : json) :
  ~ In k (map fst d) -> dict_set d k v = d ++ [(k, v)].
Proof.
  induction d as [|[k' v'] r IH]; simpl; intros Hnin; [reflexivity|].
  destruct (String.eqb k' k) eqn:E.
  - apply String.eqb_eq in E. subst. exfalso. apply Hnin. now left.
  - rewrite IH; [reflexivity|]. intros Hin. apply Hnin. now right.
Qed.

Lemma unique_keysb_app_cons (a : list string) (k : string) (b : list string) :
  unique_keysb (a ++ k :: b) = true ->
  ~ In k a /\ ~ In k b /\ unique_keysb (a ++ b) = true.
Proof.
  induction a as [|x a IH]; simpl; intros H.
  - apply andb_true_iff in H as [Hk Hb]. apply negb_true_iff in Hk.
    repeat split; auto. intros Hin.
    apply existsb_eqb_In in Hin. congruence.
  - apply andb_true_iff in H as [Hx Ha]. apply negb_true_iff in Hx.
    destruct (IH Ha) as (Hka & Hkb & Hab). repeat split; auto.
    + intros [->|Hin]; [|auto].
      assert (Hin : In k (a ++ k :: b)) by (apply in_or_app; right; now left).
      apply existsb_eqb_In in Hin. congruence.
    + rewrite Hab, andb_true_r. apply negb_true_iff.
      destruct (existsb (String.eqb x) (a ++ b)) eqn:E; [|reflexivity].
      apply existsb_eqb_In in E.
      assert (Hin : In x (a ++ k :: b)).
      { apply in_app_or in E as [?|?]; apply in_or_app;
          [now left|right; now right]. }
      apply existsb_eqb_In in Hin. congruence.
Qed.

(** A loop [for k, v in d.items(): out[k] = f(k, v)] over a dict builds
    the dict of the same keys in the same order. *)
Lemma fold_dict_set_map (f : string * json -> json) (d : dict) :
  unique_keysb (map fst d) = true ->
  forall init,
    (forall k, In k (map fst init) -> ~ In k (map fst d)) ->
    fold_left (fun out kv => dict_set out (fst kv) (f kv)) d init
    = init ++ map (fun kv => (fst kv, f kv)) d.
Proof.
  induction d as [|[k v] r IH]; simpl; intros Hu init Hdis.
  - now rewrite app_nil_r.
  - apply andb_true_iff in Hu as [Hk Hr]. apply negb_true_iff in Hk.
    rewrite dict_set_fresh.
    + rewrite IH; [now rewrite <- app_assoc|exact Hr|].
      intros k' Hin. rewrite map_app in Hin.
      apply in_app_or in Hin as [Hin|[<-|[]]].
      * intros Hin'. apply (Hdis k' Hin). now right.
      * simpl. intros Hin'. apply existsb_eqb_In in Hin'. congruence.
    + intros Hin. apply (Hdis k Hin). now left.
Qed.

Lemma fold_dict_set_map_nil (f : string * json -> json) (d : dict) :
  unique_keysb (map fst d) = true ->
  fold_left (fun out kv => dict_set out (fst kv) (f kv)) d []
  = map (fun kv => (fst kv, f kv)) d.
Proof.
  intros Hu. rewrite fold_dict_set_map; [reflexivity|exact Hu|intros k []].
Qed.

Lemma dict_get_set_other (d : dict) (k k' : string) (v : json) :
  k <> k' -> dict_get (dict_set d k' v) k = dict_get d k.
Proof.
  intros Hne. induction d as [|[k0 v0] r IH]; simpl.
  - destruct (String.eqb k' k) eqn:E; [|reflexivity].
    apply String.eqb_eq in E. congruence.
  - destruct (String.eqb k0 k') eqn:E0; simpl.
    + apply String.eqb_eq in E0. subst k0.
      destruct (String.eqb k' k) eqn:E; [|reflexivity].
      apply String.eqb_eq in E. congruence.
    + now rewrite IH.
Qed.

Lemma dict_get_set_same (d : dict) (k : string) (v : json) :
  dict_get (dict_set d k v) k = Some v.
Proof.
  induction d as [|[k0 v0] r IH]; simpl.
  - now rewrite String.eqb_refl.
  - destruct (String.eqb k0 k) eqn:E; simpl; rewrite E; auto.
Qed.

Lemma dict_keys_set (d : dict) (k : string) (v : json) :
  dict_keys (dict_set d k v)
  = dict_keys d ++ (if dict_has d k then [] else [k]).
Proof.
  unfold dict_keys, dict_has.
  induction d as [|[k0 v0] r IH]; simpl; [reflexivity|].
  destruct (String.eqb k0 k) eqn:E; simpl.
  - now rewrite app_nil_r.
  - now rewrite IH.
Qed.

Lemma dict_has_keys (d d' : dict) (k : string) :
  dict_keys d = dict_keys d' -> dict_has d k = dict_has d' k.
Proof.
  unfold dict_keys, dict_has. revert d'.
  induction d as [|[k0 v0] r IH]; intros [|[k1 v1] r'] H; simpl in *;
    try discriminate; [reflexivity|].
  injection H as -> H.
  destruct (String.eqb k1 k); [reflexivity|]. now apply IH.
Qed.

Lemma dict_get_map_unique (g : string * json -> json) (d : dict)
    (k : string) (v : json) :
  unique_keysb (map fst d) = true -> In (k, v) d ->
  dict_get (map (fun kv => (fst kv, g kv)) d) k = Some (g (k, v)).
Proof.
  induction d as [|[k0 v0] r IH]; simpl; intros Hu Hin; [destruct Hin|].
  apply andb_true_iff in Hu as [Hk Hr]. apply negb_true_iff in Hk.
  destruct Hin as [Heq|Hin].
  - inversion Heq; subst. now rewrite String.eqb_refl.
  - destruct (String.eqb k0 k) eqn:E.
    + apply String.eqb_eq in E. subst k0. exfalso.
      assert (Hin' : In k (map fst r)) by (apply in_map_iff; now exists (k, v)).
      apply existsb_eqb_In in Hin'. congruence.
    + now apply IH.
Qed.

(** ** The enricher *)

Section EnricherFacts.

Variable ratio : string -> string -> Q.
Variable partial_ratio : string -> string -> Q.
Variable py_repr : json -> string.
Variable polygon_data : Index.t.
Variable threshold : Q.

Local Abbreviation process :=
  (process_value ratio partial_ratio py_repr polygon_data threshold).
Local Abbreviation matcher :=
  (correlate ratio partial_ratio py_repr polygon_data threshold).

Lemma process_value_dict (key : string) (d : dict) :
  unique_keysb (map fst d) = true ->
  process key (JDict d)
  = JDict (map (fun kv => (fst kv, process (fst kv) (snd kv))) d).
Proof.
  intros Hu. simpl. f_equal.
  apply (fold_dict_set_map_nil (fun kv => process (fst kv) (snd kv)) d Hu).
Qed.

Lemma process_value_dict_key (key key' : string) (d : dict) :
  process key (JDict d) = process key' (JDict d).
Proof. reflexivity. Qed.

Lemma process_value_list (key : string) (l : list json) :
  process key (JList l)
  = JList (map (fun item =>
                  match item with
                  | JDict _ => process key item
                  | _ => array_leaf item (matcher key item)
                  end) l).
Proof.
  simpl. f_equal.
  rewrite fold_left_append with
    (g := fun item =>
            [match item with
             | JDict _ => process key item
             | _ => array_leaf item (matcher key item)
             end]).
  - simpl. induction l as [|x l IH]; simpl; [reflexivity|now rewrite IH].
  - intros acc [| | | | |d]; reflexivity.
Qed.

Lemma process_value_scalar (key : string) (value : json) :
  is_scalar value = true ->
  process key value = scalar_leaf value (matcher key value).
Proof.
  destruct value; simpl; intros H; try discriminate; reflexivity.
Qed.

End EnricherFacts.

Lemma scalar_leaf_fields (value : json) (polygons : list Match.t) :
  exists rec,
    scalar_leaf value polygons = JDict rec
    /\ dict_get rec "value" = Some value
    /\ dict_get rec "boundingPolygons"
       = Some (JList (map polygon_json polygons)).
Proof.
  unfold scalar_leaf. destruct polygons as [|first rest].
  - eexists. split; [reflexivity|]. split; reflexivity.
  - destruct (Match.confidence first) as [c|].
    + destruct (negb (Qeq_bool c 0)); eexists;
        (split; [reflexivity|]); split; reflexivity.
    + eexists. split; [reflexivity|]. split; reflexivity.
Qed.

Lemma mirrors_leaf (value : json) (rec : dict) (polys : list json) :
  is_scalar value = true ->
  dict_get rec "value" = Some value ->
  dict_get rec "boundingPolygons" = Some (JList polys) ->
  mirrors value (JDict rec) = true.
Proof.
  intros Hs Hv Hb.
  destruct value; try discriminate; simpl; rewrite Hv, Hb.
  - reflexivity.
  - apply Bool.eqb_reflx.
  - now rewrite Z.eqb_refl, Pos.eqb_refl.
  - apply String.eqb_refl.
Qed.

Lemma mirrors_dict_map (g : string * json -> json) (d : dict) :
  Forall (fun kv => mirrors (snd kv) (g kv) = true) d ->
  mirrors (JDict d) (JDict (map (fun kv => (fst kv, g kv)) d)) = true.
Proof.
  intros H. simpl. induction H as [|kv r Hkv Hr IH]; simpl; [reflexivity|].
  now rewrite String.eqb_refl, Hkv, IH.
Qed.

Lemma mirrors_list_map (g : json -> json) (l : list json) :
  Forall (fun x => mirrors x (g x) = true) l ->
  mirrors (JList l) (JList (map g l)) = true.
Proof.
  intros H. simpl. induction H as [|x r Hx Hr IH]; simpl; [reflexivity|].
  now rewrite Hx, IH.
Qed.

Lemma process_value_mirrors
    (ratio partial_ratio : string -> string -> Q) (py_repr : json -> string)
    (polygon_data : Index.t) (threshold : Q) (value : json) :
  well_keyed value = true ->
  flat_sequences value = true ->
  forall key,
    mirrors value
      (process_value ratio partial_ratio py_repr polygon_data threshold
         key value) = true.
Proof.
  induction value as [| b | q | s | l IH | d IH] using json_induction;
    intros Hwk Hflat key;
    try (rewrite process_value_scalar by reflexivity;
         match goal with
         | |- mirrors ?v (scalar_leaf ?v ?p) = true =>
             destruct (scalar_leaf_fields v p) as (rec & -> & Hv & Hb)
         end;
         eapply mirrors_leaf; [reflexivity|exact Hv|exact Hb]).
  - rewrite process_value_list. apply mirrors_list_map.
    simpl in Hwk, Hflat. rewrite forallb_forall in Hwk, Hflat.
    rewrite Forall_forall in IH |- *. intros item Hin.
    specialize (Hflat item Hin). apply andb_true_iff in Hflat as [Hnl Hfl].
    destruct item as [| | | |l'|d'];
      try (eapply mirrors_leaf; reflexivity).
    + discriminate.
    + apply IH; auto.
  - simpl in Hwk. apply andb_true_iff in Hwk as [Hu Hwk].
    rewrite process_value_dict by exact Hu. apply mirrors_dict_map.
    simpl in Hflat. rewrite forallb_forall in Hwk, Hflat.
    rewrite Forall_forall in IH |- *. intros kv Hin.
    apply IH; auto.
Qed.

Lemma fold_left_eq {A B : Type} (f g : A -> B -> A) :
  (forall a b, f a b = g a b) ->
  forall l a, fold_left f l a = fold_left g l a.
Proof.
  intros H l; induction l as [|x l IH]; intros a; simpl; [reflexivity|].
  now rewrite H, IH.
Qed.

Lemma enrich_fields_map
    (ratio partial_ratio : string -> string -> Q) (py_repr : json -> string)
    (polygon_data : Index.t) (threshold : Q) (extracted_data : dict) :
  unique_keysb (map fst extracted_data) = true ->
  enrich_fields ratio partial_ratio py_repr polygon_data threshold
    extracted_data
  = map (fun kv =>
           (fst kv,
            enriched_field ratio partial_ratio py_repr polygon_data threshold
              kv))
        extracted_data.
Proof.
  intros Hu. unfold enrich_fields.
  rewrite <- (fold_dict_set_map_nil
                (enriched_field ratio partial_ratio py_repr polygon_data
                   threshold) extracted_data Hu).
  apply fold_left_eq. intros enriched kv. unfold enriched_field.
  now destruct (is_excluded (fst kv)).
Qed.

(** C7 (as amended). For a tree in which no sequence has a sequence as
    an element, enrichment keeps the shape.  The returned tree has the
    keys of the input, in its order, followed by the reserved key
    [_polygonMetadata] when the input does not have it; under the
    reserved key it always holds the report, which replaces a field of
    that name of the input.  Under every other key it holds the input
    value itself when the key is excluded, and otherwise a value with
    the same keys at each mapping and the same indices at each sequence
    as the input value, with a record holding the original value and a
    [boundingPolygons] list, possibly empty, in place of each scalar.
    The same holds of the fields as the loop leaves them, before the
    report is stored. *)
Theorem enrichment_mirrors_tree
    (ratio partial_ratio : string -> string -> Q) (py_repr : json -> string)
    (extracted_data : dict) (polygon_data : Index.t) (threshold : Q) :
  well_keyed (JDict extracted_data) = true ->
  flat_sequences (JDict extracted_data) = true ->
  let fields :=
    enrich_fields ratio partial_ratio py_repr polygon_data threshold
      extracted_data in
  let enriched :=
    enrich_extraction_with_polygons ratio partial_ratio py_repr
      extracted_data polygon_data threshold in
  dict_keys enriched
  = dict_keys extracted_data
    ++ (if dict_has extracted_data "_polygonMetadata" then []
        else ["_polygonMetadata"])
  /\ (exists report,
        dict_get enriched "_polygonMetadata" = Some (JDict report)
        /\ dict_keys report
           = ["totalFields"; "fieldsWithPolygons"; "correlationThreshold";
              "sourceDataAvailable"])
  /\ (forall key value,
        In (key, value) extracted_data -> key <> "_polygonMetadata" ->
        exists out,
          dict_get enriched key = Some out
          /\ if is_excluded key then out = value
             else mirrors value out = true)
  /\ dict_keys fields = dict_keys extracted_data
  /\ (forall key, key <> "_polygonMetadata" ->
                  dict_get enriched key = dict_get fields key)
  /\ (forall key value,
        In (key, value) extracted_data -> is_excluded key = false ->
        exists out,
          dict_get fields key = Some out /\ mirrors value out = true).
Proof.
  intros Hwk Hflat fields enriched.
  simpl in Hwk. apply andb_true_iff in Hwk as [Hu Hwk].
  simpl in Hflat. rewrite forallb_forall in Hwk, Hflat.
  assert (Hmap := enrich_fields_map ratio partial_ratio py_repr polygon_data
                    threshold extracted_data Hu).
  fold fields in Hmap.
  assert (Hkeys : dict_keys fields = dict_keys extracted_data).
  { rewrite Hmap. unfold dict_keys. rewrite map_map. reflexivity. }
  assert (Hother : forall key, key <> "_polygonMetadata" ->
                               dict_get enriched key = dict_get fields key).
  { intros key Hne. subst enriched.
    unfold enrich_extraction_with_polygons. fold fields.
    now apply dict_get_set_other. }
  assert (Hget : forall key value,
             In (key, value) extracted_data ->
             dict_get fields key
             = Some (enriched_field ratio partial_ratio py_repr polygon_data
                       threshold (key, value))).
  { intros key value Hin. rewrite Hmap.
    apply (dict_get_map_unique
             (enriched_field ratio partial_ratio py_repr polygon_data
                threshold) extracted_data key value Hu Hin). }
  assert (Hmirror : forall key value,
             In (key, value) extracted_data ->
             mirrors value
               (process_value ratio partial_ratio py_repr polygon_data
                  threshold key value) = true).
  { intros key value Hin. apply process_value_mirrors.
    - apply (Hwk (key, value) Hin).
    - apply (Hflat (key, value) Hin). }
  split; [|split; [|split; [|split; [exact Hkeys|split; [exact Hother|]]]]].
  - subst enriched. unfold enrich_extraction_with_polygons. fold fields.
    rewrite dict_keys_set, Hkeys.
    now rewrite (dict_has_keys fields extracted_data _ Hkeys).
  - subst enriched. unfold enrich_extraction_with_polygons. fold fields.
    eexists. split; [apply dict_get_set_same|reflexivity].
  - intros key value Hin Hne. eexists. split.
    + rewrite (Hother key Hne). apply (Hget key value Hin).
    + unfold enriched_field. cbn [fst snd].
      destruct (is_excluded key); [reflexivity|].
      apply (Hmirror key value Hin).
  - intros key value Hin Hex. eexists. split.
    + apply (Hget key value Hin).
    + unfold enriched_field. cbn [fst snd]. rewrite Hex.
      apply (Hmirror key value Hin).
Qed.

Lemma enrichment_mirrors_tree_witness :
  exists out,
    dict_get (enrich_extraction_with_polygons Sim.ratio Sim.partial_ratio
                Sim.repr Sample3.invoice_tree Sample2.index_invoice 90%Q)
      "items" = Some out
    /\ mirrors (JList [JDict [("sku", JStr "A-1"); ("qty", JNum 2)]]) out
       = true.
Proof.
  apply (proj1 (proj2 (proj2 (enrichment_mirrors_tree
                                Sim.ratio Sim.partial_ratio Sim.repr
                                Sample3.invoice_tree Sample2.index_invoice
                                90%Q eq_refl eq_refl)))
           "items" (JList [JDict [("sku", JStr "A-1"); ("qty", JNum 2)]])).
  - right. right. left. reflexivity.
  - discriminate.
Defined.

(** C7 as worded fails on a sequence inside a sequence: the inner
    sequence is taken for one opaque value and wrapped whole, so the
    enriched tree has a record where the input has a sequence and the
    scalars of the inner sequence are not replaced. *)
Lemma nested_sequence_counterexample :
  ~ (forall (extracted_data : dict) (polygon_data : Index.t) (threshold : Q)
            key value,
        well_keyed (JDict extracted_data) = true ->
        In (key, value) extracted_data -> is_excluded key = false ->
        exists out,
          dict_get (enrich_extraction_with_polygons
                      Sim.ratio Sim.partial_ratio Sim.repr
                      extracted_data polygon_data threshold) key = Some out
          /\ mirrors value out = true).
Proof.
  intros H.
  destruct (H Sample3.nested_rows Sample2.index_invoice 90%Q
              "rows" (JList [JList [JNum 1]]) eq_refl
              (or_introl eq_refl) eq_refl) as (out & Hget & Hm).
  vm_compute in Hget. inversion Hget; subst out.
  vm_compute in Hm. discriminate.
Qed.

(** The reserved key has to be set apart: a field of the input stored
    under [_polygonMetadata] is replaced by the report, so the returned
    tree does not mirror it, even when no sequence holds a sequence. *)
Lemma reserved_key_replaced :
  ~ (forall (extracted_data : dict) (polygon_data : Index.t) (threshold : Q)
            key value,
        well_keyed (JDict extracted_data) = true ->
        flat_sequences (JDict extracted_data) = true ->
        In (key, value) extracted_data -> is_excluded key = false ->
        exists out,
          dict_get (enrich_extraction_with_polygons
                      Sim.ratio Sim.partial_ratio Sim.repr
                      extracted_data polygon_data threshold) key = Some out
          /\ mirrors value out = true).
Proof.
  intros H.
  destruct (H Sample3.reserved_tree Sample2.index_invoice 90%Q
              "_polygonMetadata" (JStr "x") eq_refl eq_refl
              (or_introl eq_refl) eq_refl) as (out & Hget & Hm).
  vm_compute in Hget. inversion Hget; subst out.
  vm_compute in Hm. discriminate.
Qed.

(** C4 (as amended). A scalar reached as the value of a key, for which
    the matcher returns at least one match, becomes a record that
    holds the value, the polygons of all the matches, the [source] of
    the first match and, when the confidence of the first match is
    present and not zero, that confidence; the record has no
    [confidence] when it is missing or zero. *)
Theorem scalar_leaf_annotation
    (ratio partial_ratio : string -> string -> Q) (py_repr : json -> string)
    (polygon_data : Index.t) (threshold : Q)
    (key : string) (value : json) (first : Match.t) (rest : list Match.t) :
  is_scalar value = true ->
  correlate ratio partial_ratio py_repr polygon_data threshold key value
  = first :: rest ->
  exists rec,
    process_value ratio partial_ratio py_repr polygon_data threshold key value
    = JDict rec
    /\ dict_get rec "value" = Some value
    /\ dict_get rec "boundingPolygons"
       = Some (JList (map polygon_json (first :: rest)))
    /\ dict_get rec "source" = Some (JStr (source_name (Match.source first)))
    /\ dict_get rec "confidence"
       = match Match.confidence first with
         | Some c => if Qeq_bool c 0 then None else Some (JNum c)
         | None => None
         end.
Proof.
  intros Hs Hm. rewrite process_value_scalar by exact Hs. rewrite Hm.
  unfold scalar_leaf. destruct (Match.confidence first) as [c|].
  - destruct (Qeq_bool c 0); simpl; eexists;
      (split; [reflexivity|]); repeat split.
  - eexists. split; [reflexivity|]. repeat split.
Qed.

Lemma scalar_leaf_annotation_witness :
  exists rec,
    process_value Sim.ratio Sim.partial_ratio Sim.repr
      Sample2.index_invoice 90%Q "invoice_number" (JStr "INV-2024-001")
    = JDict rec
    /\ dict_get rec "source" = Some (JStr "doc_intelligence_kv")
    /\ dict_get rec "confidence" = Some (JNum (9 # 10)).
Proof.
  destruct (scalar_leaf_annotation Sim.ratio Sim.partial_ratio Sim.repr
              Sample2.index_invoice 90%Q "invoice_number"
              (JStr "INV-2024-001")
              (kv_match Sample2.kv_invoice "INV-2024-001"
                 (2800 # 28)%Q (2400 # 24)%Q
                 (Polygon.mk (Some Sample.P2) (Some 1%Q)))
              [] eq_refl ltac:(vm_compute; reflexivity))
    as (rec & Hp & _ & _ & Hsrc & Hconf).
  exists rec. split; [exact Hp|]. split; [exact Hsrc|exact Hconf].
Defined.

(** C4 as worded fails twice.  A first match whose confidence is 0 has
    a confidence, yet the record of the leaf carries none; and a scalar
    element of an array gets a record with the value and the polygons
    only, without [source], although the matcher found a match. *)
Lemma leaf_annotation_counterexample :
  (exists first rest rec,
      correlate Sim.ratio Sim.partial_ratio Sim.repr Sample2.index_zero 90%Q
        "invoice_number" (JStr "INV-2024-001") = first :: rest
      /\ Match.confidence first = Some 0%Q
      /\ process_value Sim.ratio Sim.partial_ratio Sim.repr
           Sample2.index_zero 90%Q "invoice_number" (JStr "INV-2024-001")
         = JDict rec
      /\ dict_get rec "confidence" = None)
  /\ (exists first rest rec,
        correlate Sim.ratio Sim.partial_ratio Sim.repr
          Sample2.index_invoice 90%Q "tags" (JStr "Total") = first :: rest
        /\ process_value Sim.ratio Sim.partial_ratio Sim.repr
             Sample2.index_invoice 90%Q "tags" (JList [JStr "Total"])
           = JList [JDict rec]
        /\ dict_get rec "source" = None).
Proof.
  split.
  - eexists. eexists. eexists.
    split; [vm_compute; reflexivity|].
    split; [reflexivity|].
    split; [vm_compute; reflexivity|reflexivity].
  - eexists. eexists. eexists.
    split; [vm_compute; reflexivity|].
    split; [vm_compute; reflexivity|reflexivity].
Qed.

(** ** The report *)

Lemma count_fields_dict (d : dict) (count : nat) :
  count_fields (JDict d) count = fold_left count_step d count.
Proof. reflexivity. Qed.

Lemma count_fields_with_polygons_dict (d : dict) (count : nat) :
  count_fields_with_polygons (JDict d) count
  = fold_left count_polygons_step d count.
Proof. reflexivity. Qed.

Lemma fold_left_additive {A : Type} (f : nat -> A -> nat) (l : list A) :
  Forall (fun x => forall c, f c x = c + f 0 x) l ->
  forall c, fold_left f l c = c + fold_left f l 0.
Proof.
  induction 1 as [|x l Hx Hl IH]; intros c; simpl; [lia|].
  rewrite IH, (IH (f 0 x)), Hx. lia.
Qed.

Lemma fold_left_additive_remove {A : Type} (f : nat -> A -> nat)
    (a : list A) (x : A) (b : list A) :
  (forall y c, f c y = c + f 0 y) ->
  fold_left f (a ++ x :: b) 0 = fold_left f (a ++ b) 0 + f 0 x.
Proof.
  intros Hf.
  assert (Hall : forall l, Forall (fun y => forall c, f c y = c + f 0 y) l).
  { intros l. apply Forall_forall. intros y _. apply Hf. }
  rewrite !fold_left_app. simpl.
  rewrite (fold_left_additive f b (Hall b) (f (fold_left f a 0) x)).
  rewrite (fold_left_additive f b (Hall b) (fold_left f a 0)).
  rewrite Hf. lia.
Qed.

Lemma count_fields_additive (v : json) :
  (forall c, count_fields v c = c + count_fields v 0)
  /\ match v with
     | JList l =>
         Forall (fun item => forall c,
                     count_fields item c = c + count_fields item 0) l
     | _ => True
     end.
Proof.
  induction v as [| b | q | s | l IH | d IH] using json_induction;
    try (split; [intros c; simpl; lia|exact I]).
  - split; [intros c; simpl; lia|].
    eapply Forall_impl; [|exact IH]. intros item [H _]. exact H.
  - split; [|exact I]. intros c. rewrite !count_fields_dict.
    apply fold_left_additive.
    eapply Forall_impl; [|exact IH].
    intros [k v] [Hv Hl] c'. unfold count_step. simpl in *.
    destruct (PyStr.startswith_char "_" k); [lia|].
    destruct v as [| | | |l|vd]; try lia.
    + apply (fold_left_additive (fun count item => count_fields item count)
               l Hl c').
    + destruct (is_leaf_record vd); [lia|apply Hv].
Qed.

Lemma count_fields_with_polygons_additive (v : json) :
  (forall c, count_fields_with_polygons v c
             = c + count_fields_with_polygons v 0)
  /\ match v with
     | JList l =>
         Forall (fun item => forall c,
                     count_fields_with_polygons item c
                     = c + count_fields_with_polygons item 0) l
     | _ => True
     end.
Proof.
  induction v as [| b | q | s | l IH | d IH] using json_induction;
    try (split; [intros c; simpl; lia|exact I]).
  - split; [intros c; simpl; lia|].
    eapply Forall_impl; [|exact IH]. intros item [H _]. exact H.
  - split; [|exact I]. intros c. rewrite !count_fields_with_polygons_dict.
    apply fold_left_additive.
    eapply Forall_impl; [|exact IH].
    intros [k v] [Hv Hl] c'. unfold count_polygons_step. simpl in *.
    destruct (PyStr.startswith_char "_" k); [lia|].
    destruct v as [| | | |l|vd]; try lia.
    + apply (fold_left_additive
               (fun count item => count_fields_with_polygons item count)
               l Hl c').
    + destruct (is_leaf_record vd); [|apply Hv].
      destruct (truthy _); lia.
Qed.

Lemma count_step_additive (kv : string * json) (c : nat) :
  count_step c kv = c + count_step 0 kv.
Proof.
  destruct kv as [k v]. unfold count_step. simpl.
  destruct (PyStr.startswith_char "_" k); [lia|].
  destruct v as [| | | |l|vd]; try lia.
  - apply (fold_left_additive (fun count item => count_fields item count) l
             (proj2 (count_fields_additive (JList l))) c).
  - destruct (is_leaf_record vd); [lia|].
    apply (proj1 (count_fields_additive (JDict vd))).
Qed.

Lemma count_polygons_step_additive (kv : string * json) (c : nat) :
  count_polygons_step c kv = c + count_polygons_step 0 kv.
Proof.
  destruct kv as [k v]. unfold count_polygons_step. simpl.
  destruct (PyStr.startswith_char "_" k); [lia|].
  destruct v as [| | | |l|vd]; try lia.
  - apply (fold_left_additive
             (fun count item => count_fields_with_polygons item count) l
             (proj2 (count_fields_with_polygons_additive (JList l))) c).
  - destruct (is_leaf_record vd);
      [destruct (truthy _); lia|].
    apply (proj1 (count_fields_with_polygons_additive (JDict vd))).
Qed.

Lemma excluded_not_private (key : string) :
  is_excluded key = true -> PyStr.startswith_char "_" key = false.
Proof.
  intros H. apply existsb_exists in H as (x & Hin & Heq).
  apply String.eqb_eq in Heq. subst x.
  simpl in Hin.
  destruct Hin as [<-|[<-|[<-|[<-|[<-|[]]]]]]; reflexivity.
Qed.

(** C3 (as amended). A top-level field whose key is in the exclusion
    set is copied to the enriched tree as it is, whatever the index,
    the threshold and the similarity are (the matcher has no part in
    it).  It is not left out of the report: the counting walks treat it
    like any other entry, and when its value is a scalar it adds one to
    the total leaf count and nothing to the matched-leaf count. *)
Theorem excluded_field_copied_and_counted
    (ratio partial_ratio : string -> string -> Q) (py_repr : json -> string)
    (d1 : dict) (key : string) (value : json) (d2 : dict)
    (polygon_data : Index.t) (threshold : Q) :
  let extracted_data := d1 ++ (key, value) :: d2 in
  unique_keysb (map fst extracted_data) = true ->
  is_excluded key = true ->
  let fields :=
    enrich_fields ratio partial_ratio py_repr polygon_data threshold
      extracted_data in
  let fields_without :=
    enrich_fields ratio partial_ratio py_repr polygon_data threshold
      (d1 ++ d2) in
  let enriched :=
    enrich_extraction_with_polygons ratio partial_ratio py_repr
      extracted_data polygon_data threshold in
  dict_get enriched key = Some value
  /\ (exists report,
        dict_get enriched "_polygonMetadata" = Some (JDict report)
        /\ dict_get report "totalFields"
           = Some (JInt (count_fields (JDict fields) 0))
        /\ dict_get report "fieldsWithPolygons"
           = Some (JInt (count_fields_with_polygons (JDict fields) 0)))
  /\ (is_scalar value = true ->
      count_fields (JDict fields) 0
      = count_fields (JDict fields_without) 0 + 1
      /\ count_fields_with_polygons (JDict fields) 0
         = count_fields_with_polygons (JDict fields_without) 0).
Proof.
  intros extracted_data Hu Hex fields fields_without enriched.
  pose proof (excluded_not_private key Hex) as Hpriv.
  assert (Hu' : unique_keysb (map fst (d1 ++ d2)) = true).
  { subst extracted_data. rewrite map_app in Hu. simpl in Hu.
    rewrite map_app. now apply unique_keysb_app_cons in Hu as (_ & _ & H). }
  assert (Hf := enrich_fields_map ratio partial_ratio py_repr polygon_data
                  threshold extracted_data Hu).
  assert (Hf' := enrich_fields_map ratio partial_ratio py_repr polygon_data
                   threshold (d1 ++ d2) Hu').
  fold fields in Hf. fold fields_without in Hf'.
  split; [|split].
  - subst enriched. unfold enrich_extraction_with_polygons. fold fields.
    rewrite dict_get_set_other.
    + rewrite Hf.
      rewrite (dict_get_map_unique
                 (enriched_field ratio partial_ratio py_repr polygon_data
                    threshold) extracted_data key value Hu).
      * unfold enriched_field. simpl. now rewrite Hex.
      * subst extracted_data. apply in_or_app. right. now left.
    + intros ->. discriminate Hpriv.
  - subst enriched. unfold enrich_extraction_with_polygons. fold fields.
    eexists. split; [apply dict_get_set_same|]. split; reflexivity.
  - intros Hs.
    assert (Hkv : enriched_field ratio partial_ratio py_repr polygon_data
                    threshold (key, value) = value)
      by (unfold enriched_field; simpl; now rewrite Hex).
    rewrite !count_fields_dict, !count_fields_with_polygons_dict, Hf, Hf'.
    subst extracted_data. rewrite !map_app. simpl. rewrite Hkv.
    rewrite (fold_left_additive_remove count_step);
      [|intros; apply count_step_additive].
    rewrite (fold_left_additive_remove count_polygons_step);
      [|intros; apply count_polygons_step_additive].
    unfold count_step, count_polygons_step. simpl. rewrite Hpriv.
    destruct value; try discriminate; split; lia.
Qed.

Lemma excluded_field_copied_and_counted_witness :
  dict_get (enrich_extraction_with_polygons
              Sim.ratio Sim.partial_ratio Sim.repr
              Sample3.invoice_tree Sample2.index_invoice 90%Q) "error"
  = Some (JStr "OCR failed").
Proof.
  apply (proj1 (excluded_field_copied_and_counted
                  Sim.ratio Sim.partial_ratio Sim.repr
                  [] "error" (JStr "OCR failed") (tl Sample3.invoice_tree)
                  Sample2.index_invoice 90%Q eq_refl eq_refl)).
Defined.

(** C3 as worded fails: an excluded field is counted in the total leaf
    count.  With the field [error] the report of the sample tree counts
    one leaf more than without it. *)
Lemma excluded_field_counted_counterexample :
  ~ (forall (d1 : dict) (key : string) (value : json) (d2 : dict)
            (polygon_data : Index.t) (threshold : Q),
        unique_keysb (map fst (d1 ++ (key, value) :: d2)) = true ->
        is_excluded key = true ->
        forall report report',
          dict_get (enrich_extraction_with_polygons
                      Sim.ratio Sim.partial_ratio Sim.repr
                      (d1 ++ (key, value) :: d2) polygon_data threshold)
            "_polygonMetadata" = Some (JDict report) ->
          dict_get (enrich_extraction_with_polygons
                      Sim.ratio Sim.partial_ratio Sim.repr
                      (d1 ++ d2) polygon_data threshold)
            "_polygonMetadata" = Some (JDict report') ->
          dict_get report "totalFields" = dict_get report' "totalFields").
Proof.
  intros H.
  specialize (H [] "error" (JStr "OCR failed") (tl Sample3.invoice_tree)
                Sample2.index_invoice 90%Q eq_refl eq_refl
                _ _ ltac:(vm_compute; reflexivity)
                ltac:(vm_compute; reflexivity)).
  vm_compute in H. discriminate.
Qed.

(* ================================================================== *)
(** * Further properties of the matcher *)

(** ** Deduplication, continued *)

Lemma deduplicate_distinct (polygons : list Match.t) :
  distinct_groups (deduplicate_polygons polygons).
Proof.
  unfold deduplicate_polygons.
  destruct (seen_invariant_fold polygons) as (Hbest & Hdist & _).
  set (seen := fold_left dedup_step polygons []) in *. clearbody seen.
  induction seen as [|[k m] r IH]; simpl; [exact I|].
  destruct Hdist as [H0 Hd]. split.
  - intros x Hx Hg. apply in_map_iff in Hx as ([k' m'] & <- & Hin).
    simpl in Hg. unfold same_group in Hg.
    destruct (Hbest k m (or_introl eq_refl)) as [Hkm _].
    destruct (Hbest k' m' (or_intror Hin)) as [Hkm' _].
    pose proof (H0 k' m' Hin) as Hne.
    rewrite (key_eqb_trans _ _ _ Hkm
               (key_eqb_trans _ _ _ Hg (key_eqb_sym _ _ Hkm'))) in Hne.
    discriminate.
  - apply IH; [|exact Hd].
    intros k' m' Hin. apply Hbest. now right.
Qed.

Lemma seen_get_absent (seen : seen_t) (key : list Q * Q) :
  (forall k m, In (k, m) seen -> key_eqb k key = false) ->
  seen_get seen key = None.
Proof.
  induction seen as [|[k m] r IH]; simpl; intros H; [reflexivity|].
  rewrite (H k m (or_introl eq_refl)). apply IH.
  intros k' m' Hin. apply (H k' m'). now right.
Qed.

Lemma not_same_group_false (a b : Match.t) :
  ~ same_group a b -> key_eqb (match_key a) (match_key b) = false.
Proof.
  unfold same_group. now destruct (key_eqb (match_key a) (match_key b)).
Qed.

Lemma dedup_fold_distinct (polygons : list Match.t) :
  distinct_groups polygons ->
  forall seen,
    (forall k m x, In (k, m) seen -> In x polygons ->
                   key_eqb k (match_key x) = false) ->
    fold_left dedup_step polygons seen
    = seen ++ map (fun m => (match_key m, m)) polygons.
Proof.
  induction polygons as [|x r IH]; simpl; intros Hd seen Hs.
  - now rewrite app_nil_r.
  - destruct Hd as [Hx Hr]. unfold dedup_step at 2.
    assert (Hnone : seen_get seen (match_key x) = None).
    { apply seen_get_absent. intros k m Hin. apply (Hs k m x Hin). now left. }
    rewrite Hnone. rewrite (proj2 (seen_get_none _ _ Hnone)).
    rewrite IH; [now rewrite <- app_assoc|exact Hr|].
    intros k m y Hin Hy. apply in_app_or in Hin as [Hin|[Heq|[]]].
    + apply (Hs k m y Hin). now right.
    + inversion Heq; subst. apply not_same_group_false. now apply Hx.
Qed.

(** X1. A list in which no two matches share a location (points and
    page) is returned by deduplication as it is, order included. *)
Theorem deduplicate_distinct_identity (polygons : list Match.t) :
  distinct_groups polygons -> deduplicate_polygons polygons = polygons.
Proof.
  intros Hd. unfold deduplicate_polygons.
  rewrite (dedup_fold_distinct polygons Hd []); [|intros k m x []].
  simpl. rewrite map_map. simpl. apply map_id.
Qed.

Lemma deduplicate_distinct_identity_witness :
  deduplicate_polygons
    [Sample.match_of_total;
     kv_match Sample2.kv_invoice "INV-2024-001" 100%Q 100%Q
       (Polygon.mk (Some Sample.P2) (Some 1%Q))]
  = [Sample.match_of_total;
     kv_match Sample2.kv_invoice "INV-2024-001" 100%Q 100%Q
       (Polygon.mk (Some Sample.P2) (Some 1%Q))].
Proof.
  apply deduplicate_distinct_identity. simpl. repeat split.
  - intros x [<-|[]]. unfold same_group. vm_compute. discriminate.
  - intros x [].
Defined.

(** X2. Deduplication is idempotent. *)
Theorem deduplicate_idempotent (polygons : list Match.t) :
  deduplicate_polygons (deduplicate_polygons polygons)
  = deduplicate_polygons polygons.
Proof.
  pose proof (deduplicate_distinct polygons) as Hd.
  set (kept := deduplicate_polygons polygons) in *. clearbody kept.
  unfold deduplicate_polygons.
  rewrite (dedup_fold_distinct kept Hd []); [|intros k m x []].
  simpl. rewrite map_map. simpl. apply map_id.
Qed.

(** ** Key normalisation *)

Lemma rstrip_idempotent (s : string) :
  PyStr.rstrip (PyStr.rstrip s) = PyStr.rstrip s.
Proof.
  induction s as [|c r IH]; simpl; [reflexivity|].
  destruct (PyStr.rstrip r) as [|c' r'] eqn:E.
  - destruct (PyStr.is_space c) eqn:Hc; simpl; [reflexivity|].
    now rewrite Hc.
  - change (PyStr.rstrip (String c (String c' r')) = String c (String c' r')).
    cbn [PyStr.rstrip]. fold PyStr.rstrip.
    change (match PyStr.rstrip (String c' r') with
            | EmptyString =>
                if PyStr.is_space c then EmptyString
                else String c EmptyString
            | String a b => String c (String a b)
            end = String c (String c' r')).
    now rewrite IH.
Qed.

Lemma lstrip_head (s : string) :
  PyStr.lstrip s = EmptyString
  \/ exists c t, PyStr.lstrip s = String c t /\ PyStr.is_space c = false.
Proof.
  induction s as [|c r IH]; simpl; [now left|].
  destruct (PyStr.is_space c) eqn:Hc; [exact IH|].
  right. exists c, r. auto.
Qed.

Lemma rstrip_head (c : ascii) (t : string) :
  PyStr.is_space c = false ->
  exists t', PyStr.rstrip (String c t) = String c t'.
Proof.
  intros Hc. simpl. destruct (PyStr.rstrip t); [|eauto].
  rewrite Hc. eauto.
Qed.

Lemma strip_idempotent (s : string) :
  PyStr.strip (PyStr.strip s) = PyStr.strip s.
Proof.
  unfold PyStr.strip.
  destruct (lstrip_head s) as [E|(c & t & E & Hc)]; rewrite E.
  - reflexivity.
  - destruct (rstrip_head c t Hc) as (t' & Ht). rewrite Ht.
    simpl PyStr.lstrip. rewrite Hc. rewrite <- Ht. apply rstrip_idempotent.
Qed.

Lemma normalized_char_normal (c : ascii) :
  normal_char
    ((fun c => if Ascii.eqb c "-" then " "%char else c)
       ((fun c => if Ascii.eqb c "_" then " "%char else c)
          (PyStr.lower_char c))) = true.
Proof.
  destruct c as [[] [] [] [] [] [] [] []]; vm_compute; reflexivity.
Qed.

Lemma map_str_chars (f : ascii -> ascii) (s : string) :
  list_ascii_of_string (PyStr.map_str f s)
  = map f (list_ascii_of_string s).
Proof.
  induction s as [|c r IH]; simpl; [reflexivity|now rewrite IH].
Qed.

Lemma map_str_fixed (f : ascii -> ascii) (s : string) :
  (forall c, In c (list_ascii_of_string s) -> f c = c) ->
  PyStr.map_str f s = s.
Proof.
  induction s as [|c r IH]; simpl; intros H; [reflexivity|].
  rewrite (H c (or_introl eq_refl)), IH; [reflexivity|].
  intros c' Hin. apply H. now right.
Qed.

Lemma lstrip_chars (s : string) (c : ascii) :
  In c (list_ascii_of_string (PyStr.lstrip s)) ->
  In c (list_ascii_of_string s).
Proof.
  induction s as [|a r IH]; simpl; [auto|].
  destruct (PyStr.is_space a); simpl; auto.
Qed.

Lemma rstrip_chars (s : string) (c : ascii) :
  In c (list_ascii_of_string (PyStr.rstrip s)) ->
  In c (list_ascii_of_string s).
Proof.
  revert c. induction s as [|a r IH]; simpl; intros c; [auto|].
  destruct (PyStr.rstrip r) as [|a' r'] eqn:E.
  - destruct (PyStr.is_space a); simpl; [intros []|].
    intros [H|[]]. now left.
  - simpl. intros [H|H]; [now left|right]. apply IH. exact H.
Qed.

Lemma strip_chars (s : string) (c : ascii) :
  In c (list_ascii_of_string (PyStr.strip s)) ->
  In c (list_ascii_of_string s).
Proof.
  unfold PyStr.strip. intros H. apply lstrip_chars, rstrip_chars, H.
Qed.

Lemma normalize_key_chars (key : string) (c : ascii) :
  In c (list_ascii_of_string (normalize_key key)) -> normal_char c = true.
Proof.
  unfold normalize_key, PyStr.replace_char, PyStr.lower. intros H.
  apply strip_chars in H. rewrite !map_str_chars, !map_map in H.
  apply in_map_iff in H as (c0 & <- & _).
  apply (normalized_char_normal c0).
Qed.

(** X3. Key normalisation is idempotent, and a normalised key holds no
    underscore, no hyphen and no character that [lower] would change. *)
Theorem normalize_key_idempotent (key : string) :
  normalize_key (normalize_key key) = normalize_key key
  /\ forall c, In c (list_ascii_of_string (normalize_key key)) ->
               c <> "_"%char /\ c <> "-"%char /\ PyStr.lower_char c = c.
Proof.
  assert (Hn : forall c, In c (list_ascii_of_string (normalize_key key)) ->
                         c <> "_"%char /\ c <> "-"%char
                         /\ PyStr.lower_char c = c).
  { intros c Hin. apply normalize_key_chars in Hin. unfold normal_char in Hin.
    apply andb_true_iff in Hin as [Hin H2].
    apply andb_true_iff in Hin as [H0 H1].
    apply negb_true_iff in H1, H2.
    apply Ascii.eqb_eq in H0. apply Ascii.eqb_neq in H1, H2. auto. }
  split; [|exact Hn].
  set (n := normalize_key key) in *.
  unfold normalize_key at 1. unfold PyStr.lower, PyStr.replace_char.
  rewrite (map_str_fixed PyStr.lower_char n) by (intros c Hc; apply Hn, Hc).
  rewrite (map_str_fixed _ n).
  - rewrite (map_str_fixed _ n).
    + subst n. unfold normalize_key. apply strip_idempotent.
    + intros c Hc. destruct (Hn c Hc) as (_ & H & _).
      apply Ascii.eqb_neq in H. now rewrite H.
  - intros c Hc. destruct (Hn c Hc) as (H & _ & _).
    apply Ascii.eqb_neq in H. now rewrite H.
Qed.

Lemma normalize_key_idempotent_witness :
  "i"%char <> "_"%char /\ "i"%char <> "-"%char
  /\ PyStr.lower_char "i" = "i"%char.
Proof.
  apply (proj2 (normalize_key_idempotent "Invoice_Number") "i"%char).
  vm_compute. left. reflexivity.
Defined.

(** ** What the passes return *)

Section PassFacts.

Variable ratio : string -> string -> Q.
Variable partial_ratio : string -> string -> Q.
Variable py_repr : json -> string.

Lemma find_fuzzy_match_polygons_parts (value : string)
    (words lines : list Item.t) (threshold : Q) :
  let search_value := PyStr.lower (PyStr.strip value) in
  find_fuzzy_match_polygons ratio partial_ratio value words lines threshold
  = if negb (PyStr.nonempty search_value) then []
    else (if 1 <? List.length (PyStr.split search_value)
          then flat_map
                 (line_matches ratio partial_ratio search_value threshold)
                 lines
          else [])
         ++ flat_map (word_matches ratio search_value threshold) words.
Proof.
  intros search_value. unfold find_fuzzy_match_polygons. fold search_value.
  destruct (negb (PyStr.nonempty search_value)); [reflexivity|].
  rewrite fold_left_append with
    (g := word_matches ratio search_value threshold) by reflexivity.
  destruct (1 <? List.length (PyStr.split search_value)); [|reflexivity].
  rewrite fold_left_append with
    (g := line_matches ratio partial_ratio search_value threshold)
    by reflexivity.
  reflexivity.
Qed.

Lemma word_matches_flat_map (search_value : string) (threshold : Q)
    (word : Item.t) :
  let word_content := PyStr.lower (opt_default "" (Item.content word)) in
  word_matches ratio search_value threshold word
  = if Nat.eqb (List.length (PyStr.split search_value)) 1 then
      if Qle_bool threshold (ratio search_value word_content)
      then [item_match word (Item.confidence word) fuzzy_match_word
              (ratio search_value word_content)]
      else []
    else
      flat_map
        (fun search_word =>
           if Qle_bool threshold (ratio search_word word_content)
           then [item_match word (Item.confidence word)
                   fuzzy_match_word_partial (ratio search_word word_content)]
           else [])
        (PyStr.split search_value).
Proof.
  intros word_content. unfold word_matches. fold word_content.
  destruct (Nat.eqb (List.length (PyStr.split search_value)) 1);
    [reflexivity|].
  apply fold_left_append with
    (g := fun search_word =>
            if Qle_bool threshold (ratio search_word word_content)
            then [item_match word (Item.confidence word)
                    fuzzy_match_word_partial (ratio search_word word_content)]
            else []).
  intros acc sw.
  destruct (Qle_bool threshold (ratio sw word_content));
    [reflexivity|now rewrite app_nil_r].
Qed.

Lemma word_matches_in (search_value : string) (threshold : Q)
    (word : Item.t) (m : Match.t) :
  In m (word_matches ratio search_value threshold word) ->
  exists s src,
    m = item_match word (Item.confidence word) src s
    /\ Qle_bool threshold s = true
    /\ ((src = fuzzy_match_word
         /\ List.length (PyStr.split search_value) = 1)
        \/ (src = fuzzy_match_word_partial
            /\ List.length (PyStr.split search_value) <> 1)).
Proof.
  rewrite word_matches_flat_map.
  destruct (Nat.eqb (List.length (PyStr.split search_value)) 1) eqn:E.
  - apply Nat.eqb_eq in E.
    destruct (Qle_bool threshold _) eqn:Hq; [|intros []].
    intros [<-|[]]. eexists. eexists. split; [reflexivity|]. split; auto.
  - apply Nat.eqb_neq in E. intros Hin.
    apply in_flat_map in Hin as (sw & _ & Hin).
    destruct (Qle_bool threshold _) eqn:Hq; [|destruct Hin].
    destruct Hin as [<-|[]].
    eexists. eexists. split; [reflexivity|]. split; auto.
Qed.

Lemma line_matches_in (search_value : string) (threshold : Q)
    (line : Item.t) (m : Match.t) :
  In m (line_matches ratio partial_ratio search_value threshold line) ->
  exists s src,
    m = item_match line None src s
    /\ Qle_bool threshold s = true
    /\ (src = fuzzy_match_line \/ src = fuzzy_match_line_partial).
Proof.
  unfold line_matches.
  destruct (Qle_bool threshold (ratio _ _)) eqn:Hq.
  - intros [<-|[]]. eexists. eexists. split; [reflexivity|]. auto.
  - destruct (PyStr.contains _ _); [|intros []].
    destruct (Qle_bool threshold (partial_ratio _ _)) eqn:Hp; [|intros []].
    intros [<-|[]]. eexists. eexists. split; [reflexivity|]. auto.
Qed.

End PassFacts.

Lemma find_key_value_polygon_sound_aux
    (ratio : string -> string -> Q) (py_repr : json -> string)
    (field_name : string) (field_value : json)
    (key_value_pairs : list KVPair.t) (threshold : Q) (m : Match.t) :
  In m (find_key_value_polygon ratio py_repr field_name field_value
          key_value_pairs threshold) ->
  Match.source m = doc_intelligence_kv
  /\ exists ks, Match.keySimilarity m = Some ks /\ (threshold <= ks)%Q.
Proof.
  rewrite find_key_value_polygon_flat_map. intros Hin.
  apply in_flat_map in Hin as (kv_pair & Hkv & Hin).
  unfold kv_pair_matches in Hin.
  destruct (Qle_bool threshold (ratio _ _)) eqn:Hk; [|destruct Hin].
  destruct (Qle_bool threshold _ || String.eqb _ "")%bool; [|destruct Hin].
  apply in_map_iff in Hin as (polygon & <- & Hp).
  split; [reflexivity|]. eexists. split; [reflexivity|].
  now apply Qle_bool_iff.
Qed.

Lemma find_fuzzy_match_polygons_sound_aux
    (ratio partial_ratio : string -> string -> Q)
    (value : string) (words lines : list Item.t) (threshold : Q)
    (m : Match.t) :
  In m (find_fuzzy_match_polygons ratio partial_ratio value words lines
          threshold) ->
  Match.source m <> doc_intelligence_kv
  /\ exists s, Match.similarity m = Some s /\ (threshold <= s)%Q.
Proof.
  rewrite find_fuzzy_match_polygons_parts. cbv zeta.
  destruct (negb (PyStr.nonempty _)); [intros []|].
  intros Hin. apply in_app_or in Hin as [Hin|Hin].
  - destruct (1 <? _); [|destruct Hin].
    apply in_flat_map in Hin as (line & Hl & Hin).
    apply line_matches_in in Hin as (s & src & -> & Hs & Hsrc).
    split; [destruct Hsrc as [->| ->]; discriminate|].
    exists s. split; [reflexivity|now apply Qle_bool_iff].
  - apply in_flat_map in Hin as (word & Hw & Hin).
    apply word_matches_in in Hin as (s & src & -> & Hs & Hsrc).
    split; [destruct Hsrc as [[-> _]|[-> _]]; discriminate|].
    exists s. split; [reflexivity|now apply Qle_bool_iff].
Qed.

(** X4. Every match of Pass 1 is a key-value match that comes from a
    pair of the index whose key similarity reaches the threshold and
    whose value similarity reaches it too, unless the stringified field
    value is empty; it sits at a polygon of the value of that pair
    (missing points reading as the empty list and a missing page as 1)
    and carries the confidence of the pair and the content of its
    value. *)
Theorem find_key_value_polygon_sound
    (ratio : string -> string -> Q) (py_repr : json -> string)
    (field_name : string) (field_value : json)
    (key_value_pairs : list KVPair.t) (threshold : Q) (m : Match.t) :
  In m (find_key_value_polygon ratio py_repr field_name field_value
          key_value_pairs threshold) ->
  Match.source m = doc_intelligence_kv
  /\ Match.similarity m = None
  /\ (exists ks vs,
        Match.keySimilarity m = Some ks
        /\ Match.valueSimilarity m = Some vs
        /\ (threshold <= ks)%Q
        /\ ((threshold <= vs)%Q
            \/ str_field_value_of py_repr field_value = ""))
  /\ exists kv_pair polygon,
      In kv_pair key_value_pairs
      /\ In polygon (element_polygons (KVPair.value kv_pair))
      /\ Match.points m = opt_default [] (Polygon.points polygon)
      /\ Match.pageNumber m = opt_default 1%Q (Polygon.pageNumber polygon)
      /\ Match.confidence m = KVPair.confidence kv_pair
      /\ Match.matchedContent m = element_content (KVPair.value kv_pair).
Proof.
  rewrite find_key_value_polygon_flat_map. intros Hin.
  apply in_flat_map in Hin as (kv_pair & Hkv & Hin).
  unfold kv_pair_matches in Hin.
  destruct (Qle_bool threshold (ratio _ _)) eqn:Hk; [|destruct Hin].
  destruct (Qle_bool threshold _ || String.eqb _ "")%bool eqn:Hv;
    [|destruct Hin].
  apply in_map_iff in Hin as (polygon & <- & Hp).
  split; [reflexivity|]. split; [reflexivity|]. split.
  - eexists. eexists. split; [reflexivity|]. split; [reflexivity|].
    split; [now apply Qle_bool_iff|].
    apply orb_true_iff in Hv as [Hv|Hv].
    + left. now apply Qle_bool_iff.
    + right. now apply String.eqb_eq.
  - exists kv_pair, polygon. repeat split; auto.
Qed.

Lemma find_key_value_polygon_sound_witness :
  Match.source
    (kv_match Sample2.kv_invoice "INV-2024-001" (2800 # 28)%Q (2400 # 24)%Q
       (Polygon.mk (Some Sample.P2) (Some 1%Q)))
  = doc_intelligence_kv.
Proof.
  apply (find_key_value_polygon_sound Sim.ratio Sim.repr "invoice_number"
           (JStr "INV-2024-001") [Sample2.kv_invoice] 90%Q).
  vm_compute. left. reflexivity.
Defined.

(** X5. Every match of Pass 2 carries a similarity that reaches the
    threshold; it is either a line match, at the location of a line of
    the index and without confidence, or a word match, at the location
    of a word of the index and with the confidence of that word. *)
Theorem find_fuzzy_match_polygons_sound
    (ratio partial_ratio : string -> string -> Q)
    (value : string) (words lines : list Item.t) (threshold : Q)
    (m : Match.t) :
  In m (find_fuzzy_match_polygons ratio partial_ratio value words lines
          threshold) ->
  (exists s, Match.similarity m = Some s /\ (threshold <= s)%Q)
  /\ Match.keySimilarity m = None
  /\ ((exists line,
         In line lines
         /\ (Match.source m = fuzzy_match_line
             \/ Match.source m = fuzzy_match_line_partial)
         /\ Match.confidence m = None
         /\ Match.points m = opt_default [] (Item.points line)
         /\ Match.pageNumber m = opt_default 1%Q (Item.pageNumber line)
         /\ Match.matchedContent m = opt_default "" (Item.content line))
      \/ (exists word,
            In word words
            /\ (Match.source m = fuzzy_match_word
                \/ Match.source m = fuzzy_match_word_partial)
            /\ Match.confidence m = Item.confidence word
            /\ Match.points m = opt_default [] (Item.points word)
            /\ Match.pageNumber m = opt_default 1%Q (Item.pageNumber word)
            /\ Match.matchedContent m = opt_default "" (Item.content word))).
Proof.
  rewrite find_fuzzy_match_polygons_parts. cbv zeta.
  destruct (negb (PyStr.nonempty _)); [intros []|].
  intros Hin. apply in_app_or in Hin as [Hin|Hin].
  - destruct (1 <? _); [|destruct Hin].
    apply in_flat_map in Hin as (line & Hl & Hin).
    apply line_matches_in in Hin as (s & src & -> & Hs & Hsrc).
    split; [exists s; split; [reflexivity|now apply Qle_bool_iff]|].
    split; [reflexivity|]. left. exists line. repeat split; auto.
  - apply in_flat_map in Hin as (word & Hw & Hin).
    apply word_matches_in in Hin as (s & src & -> & Hs & Hsrc).
    split; [exists s; split; [reflexivity|now apply Qle_bool_iff]|].
    split; [reflexivity|]. right. exists word. repeat split; auto.
    destruct Hsrc as [[-> _]|[-> _]]; auto.
Qed.

Lemma find_fuzzy_match_polygons_sound_witness :
  Match.keySimilarity Sample.match_of_totals = None.
Proof.
  apply (find_fuzzy_match_polygons_sound Sim.ratio Sim.partial_ratio
           "Totals total" [Sample.word_total] [] 90%Q).
  vm_compute. left. reflexivity.
Defined.

(** X6. In the list returned for a field no two matches share a
    location, and every match meets the threshold: it is a key-value
    match of Pass 1 with a key similarity at or above it, or a match of
    Pass 2 with a similarity at or above it.  The two kinds are never
    mixed in one result. *)
Theorem correlate_result_sound
    (ratio partial_ratio : string -> string -> Q) (py_repr : json -> string)
    (field_name : string) (field_value : json) (polygon_data : Index.t)
    (threshold : Q) :
  let result :=
    correlate_field_with_polygons ratio partial_ratio py_repr
      field_name field_value polygon_data threshold in
  distinct_groups result
  /\ ((forall m, In m result ->
         Match.source m = doc_intelligence_kv
         /\ exists ks, Match.keySimilarity m = Some ks /\ (threshold <= ks)%Q)
      \/ (forall m, In m result ->
            Match.source m <> doc_intelligence_kv
            /\ exists s, Match.similarity m = Some s /\ (threshold <= s)%Q)).
Proof.
  intros result. subst result. unfold correlate_field_with_polygons.
  destruct (skipped field_value).
  { split; [exact I|]. left. intros m []. }
  split; [destruct (find_key_value_polygon _ _ _ _ _ _);
          apply deduplicate_distinct|].
  destruct (find_key_value_polygon ratio py_repr field_name field_value
              (Index.keyValuePairs polygon_data) threshold)
    as [|m0 r] eqn:Hkv.
  - right. intros m Hin. apply deduplicate_subset in Hin. simpl in Hin.
    exact (find_fuzzy_match_polygons_sound_aux _ _ _ _ _ _ _ Hin).
  - left. intros m Hin. apply deduplicate_subset in Hin.
    rewrite <- Hkv in Hin.
    destruct (find_key_value_polygon_sound_aux _ _ _ _ _ _ _ Hin)
      as (Hsrc & ks & Hks & Hle).
    split; [exact Hsrc|]. exists ks. auto.
Qed.

Lemma correlate_result_sound_witness :
  exists ks,
    Match.keySimilarity
      (kv_match Sample2.kv_invoice "INV-2024-001" (2800 # 28)%Q (2400 # 24)%Q
         (Polygon.mk (Some Sample.P2) (Some 1%Q))) = Some ks
    /\ (90 <= ks)%Q.
Proof.
  assert (Hin : In (kv_match Sample2.kv_invoice "INV-2024-001"
                      (2800 # 28)%Q (2400 # 24)%Q
                      (Polygon.mk (Some Sample.P2) (Some 1%Q)))
                  (correlate_field_with_polygons
                     Sim.ratio Sim.partial_ratio Sim.repr "invoice_number"
                     (JStr "INV-2024-001") Sample2.index_invoice 90%Q))
    by (vm_compute; left; reflexivity).
  destruct (proj2 (correlate_result_sound Sim.ratio Sim.partial_ratio
                     Sim.repr "invoice_number" (JStr "INV-2024-001")
                     Sample2.index_invoice 90%Q)) as [H|H].
  - exact (proj2 (H _ Hin)).
  - exfalso. apply (proj1 (H _ Hin)). reflexivity.
Defined.

(** X7. A search value of a single word is never matched against the
    lines: the result of Pass 2 does not depend on the lines of the
    index and holds word matches only. *)
Theorem single_word_ignores_lines
    (ratio partial_ratio : string -> string -> Q)
    (value : string) (words lines lines' : list Item.t) (threshold : Q) :
  List.length (PyStr.split (PyStr.lower (PyStr.strip value))) <= 1 ->
  find_fuzzy_match_polygons ratio partial_ratio value words lines threshold
  = find_fuzzy_match_polygons ratio partial_ratio value words lines' threshold
  /\ forall m,
      In m (find_fuzzy_match_polygons ratio partial_ratio value words lines
              threshold) ->
      Match.source m = fuzzy_match_word.
Proof.
  intros Hone. rewrite !find_fuzzy_match_polygons_parts. cbv zeta.
  assert (Hlt : (1 <? List.length
                        (PyStr.split (PyStr.lower (PyStr.strip value))))
                = false) by (apply Nat.ltb_ge; exact Hone).
  rewrite Hlt. split; [reflexivity|].
  destruct (negb (PyStr.nonempty _)); [intros m []|].
  simpl. intros m Hin. apply in_flat_map in Hin as (word & _ & Hin).
  rewrite word_matches_flat_map in Hin.
  destruct (Nat.eqb _ 1) eqn:E.
  - destruct (Qle_bool threshold _); [|destruct Hin].
    destruct Hin as [<-|[]]. reflexivity.
  - apply Nat.eqb_neq in E.
    destruct (PyStr.split (PyStr.lower (PyStr.strip value))) as [|w ws];
      [destruct Hin|].
    simpl in Hone, E. lia.
Qed.

Lemma single_word_ignores_lines_witness :
  find_fuzzy_match_polygons Sim.ratio Sim.partial_ratio "1,234.56"
    [Sample.word_total]
    [Item.mk (Some "Total: 1,234.56") (Some 1%Q) (Some Sample.P2) None] 90%Q
  = find_fuzzy_match_polygons Sim.ratio Sim.partial_ratio "1,234.56"
      [Sample.word_total] [] 90%Q.
Proof.
  apply (proj1 (single_word_ignores_lines Sim.ratio Sim.partial_ratio
                  "1,234.56" [Sample.word_total]
                  [Item.mk (Some "Total: 1,234.56") (Some 1%Q)
                     (Some Sample.P2) None]
                  [] 90%Q ltac:(vm_compute; lia))).
Defined.

(** X8. An exact occurrence is found.  When Pass 1 finds nothing and the
    field value, stripped and lowercased, is a single word equal to the
    lowercased content of a word of the index, and the similarity of
    that string with itself reaches the threshold, the result holds a
    match at the location of that word. *)
Theorem exact_word_is_found
    (ratio partial_ratio : string -> string -> Q) (py_repr : json -> string)
    (field_name : string) (field_value : json) (polygon_data : Index.t)
    (threshold : Q) (word : Item.t) :
  let search_value := PyStr.lower (PyStr.strip (py_str py_repr field_value)) in
  skipped field_value = false ->
  find_key_value_polygon ratio py_repr field_name field_value
    (Index.keyValuePairs polygon_data) threshold = [] ->
  List.length (PyStr.split search_value) = 1 ->
  In word (Index.words polygon_data) ->
  PyStr.lower (opt_default EmptyString (Item.content word)) = search_value ->
  Qle_bool threshold (ratio search_value search_value) = true ->
  exists m,
    In m (correlate_field_with_polygons ratio partial_ratio py_repr
            field_name field_value polygon_data threshold)
    /\ Match.source m <> doc_intelligence_kv
    /\ key_eqb (match_key m)
         (opt_default [] (Item.points word),
          opt_default 1%Q (Item.pageNumber word)) = true.
Proof.
  intros search_value Hskip Hkv Hone Hword Hcontent Hratio.
  set (m0 := item_match word (Item.confidence word) fuzzy_match_word
               (ratio search_value search_value)).
  assert (Hin0 : In m0 (find_fuzzy_match_polygons ratio partial_ratio
                          (py_str py_repr field_value)
                          (Index.words polygon_data)
                          (Index.lines polygon_data) threshold)).
  { rewrite find_fuzzy_match_polygons_parts. cbv zeta. fold search_value.
    assert (Hne : PyStr.nonempty search_value = true).
    { destruct search_value; [discriminate Hone|reflexivity]. }
    rewrite Hne. simpl. apply in_or_app. right.
    apply in_flat_map. exists word. split; [exact Hword|].
    rewrite word_matches_flat_map. cbv zeta.
    rewrite Hone, Hcontent, Hratio. simpl. now left. }
  unfold correlate_field_with_polygons. rewrite Hskip, Hkv. simpl.
  destruct (deduplicate_covers _ m0 Hin0) as (m & Hm & Hg).
  exists m. split; [exact Hm|]. split.
  - apply deduplicate_subset in Hm.
    exact (proj1 (find_fuzzy_match_polygons_sound_aux _ _ _ _ _ _ _ Hm)).
  - apply key_eqb_sym. exact Hg.
Qed.

Lemma exact_word_is_found_witness :
  exists m,
    In m (correlate_field_with_polygons Sim.ratio Sim.partial_ratio Sim.repr
            "amount" (JStr " TOTAL ") Sample2.index_invoice 90%Q)
    /\ Match.source m <> doc_intelligence_kv
    /\ key_eqb (match_key m) (Sample.P1, 1%Q) = true.
Proof.
  apply (exact_word_is_found Sim.ratio Sim.partial_ratio Sim.repr
           "amount" (JStr " TOTAL ") Sample2.index_invoice 90%Q
           Sample.word_total);
    try (vm_compute; reflexivity).
  left. reflexivity.
Defined.

(** X9. The same for lines: when Pass 1 finds nothing and the field
    value, stripped and lowercased, has several words and equals the
    lowercased content of a line of the index, the result holds a match
    at the location of that line. *)
Theorem exact_line_is_found
    (ratio partial_ratio : string -> string -> Q) (py_repr : json -> string)
    (field_name : string) (field_value : json) (polygon_data : Index.t)
    (threshold : Q) (line : Item.t) :
  let search_value := PyStr.lower (PyStr.strip (py_str py_repr field_value)) in
  skipped field_value = false ->
  find_key_value_polygon ratio py_repr field_name field_value
    (Index.keyValuePairs polygon_data) threshold = [] ->
  1 < List.length (PyStr.split search_value) ->
  In line (Index.lines polygon_data) ->
  PyStr.lower (opt_default EmptyString (Item.content line)) = search_value ->
  Qle_bool threshold (ratio search_value search_value) = true ->
  exists m,
    In m (correlate_field_with_polygons ratio partial_ratio py_repr
            field_name field_value polygon_data threshold)
    /\ Match.source m <> doc_intelligence_kv
    /\ key_eqb (match_key m)
         (opt_default [] (Item.points line),
          opt_default 1%Q (Item.pageNumber line)) = true.
Proof.
  intros search_value Hskip Hkv Hmulti Hline Hcontent Hratio.
  set (m0 := item_match line None fuzzy_match_line
               (ratio search_value search_value)).
  assert (Hin0 : In m0 (find_fuzzy_match_polygons ratio partial_ratio
                          (py_str py_repr field_value)
                          (Index.words polygon_data)
                          (Index.lines polygon_data) threshold)).
  { rewrite find_fuzzy_match_polygons_parts. cbv zeta. fold search_value.
    rewrite (split_nonempty _ Hmulti). simpl.
    apply Nat.ltb_lt in Hmulti. rewrite Hmulti.
    apply in_or_app. left.
    apply in_flat_map. exists line. split; [exact Hline|].
    unfold line_matches. rewrite Hcontent, Hratio. now left. }
  unfold correlate_field_with_polygons. rewrite Hskip, Hkv. simpl.
  destruct (deduplicate_covers _ m0 Hin0) as (m & Hm & Hg).
  exists m. split; [exact Hm|]. split.
  - apply deduplicate_subset in Hm.
    exact (proj1 (find_fuzzy_match_polygons_sound_aux _ _ _ _ _ _ _ Hm)).
  - apply key_eqb_sym. exact Hg.
Qed.

Lemma exact_line_is_found_witness :
  exists m,
    In m (correlate_field_with_polygons Sim.ratio Sim.partial_ratio Sim.repr
            "notes" (JStr "Paid in full") Sample2.index_invoice 90%Q)
    /\ Match.source m <> doc_intelligence_kv
    /\ key_eqb (match_key m) (Sample.P1, 1%Q) = true.
Proof.
  apply (exact_line_is_found Sim.ratio Sim.partial_ratio Sim.repr
           "notes" (JStr "Paid in full") Sample2.index_invoice 90%Q
           Sample2.line_paid);
    try (vm_compute; reflexivity).
  - vm_compute. lia.
  - left. reflexivity.
Defined.

(** X10. Pass 1 misses nothing it accepts.  For a field value that the
    guard lets through, every polygon of the value of a pair whose key
    similarity reaches the threshold, and whose value similarity
    reaches it too or whose stringified field value is empty, is the
    location of a key-value match of the result. *)
Theorem accepted_pair_is_found
    (ratio partial_ratio : string -> string -> Q) (py_repr : json -> string)
    (field_name : string) (field_value : json) (polygon_data : Index.t)
    (threshold : Q) (kv_pair : KVPair.t) (polygon : Polygon.t) :
  let str_field_value := str_field_value_of py_repr field_value in
  let value_content := element_content (KVPair.value kv_pair) in
  let key_similarity :=
    ratio (normalize_key field_name)
      (normalize_key (element_content (KVPair.key kv_pair))) in
  let value_similarity :=
    if PyStr.nonempty str_field_value && PyStr.nonempty value_content
    then ratio (PyStr.lower str_field_value) (PyStr.lower value_content)
    else 0%Q in
  skipped field_value = false ->
  In kv_pair (Index.keyValuePairs polygon_data) ->
  In polygon (element_polygons (KVPair.value kv_pair)) ->
  (threshold <= key_similarity)%Q ->
  (threshold <= value_similarity)%Q \/ str_field_value = EmptyString ->
  exists m,
    In m (correlate_field_with_polygons ratio partial_ratio py_repr
            field_name field_value polygon_data threshold)
    /\ Match.source m = doc_intelligence_kv
    /\ key_eqb (match_key m)
         (opt_default [] (Polygon.points polygon),
          opt_default 1%Q (Polygon.pageNumber polygon)) = true.
Proof.
  intros sfv vc ks vs Hskip Hkv Hpoly Hks Hvs.
  set (kv_matches := find_key_value_polygon ratio py_repr field_name
                       field_value (Index.keyValuePairs polygon_data)
                       threshold).
  set (m0 := kv_match kv_pair vc ks vs polygon).
  assert (Hin0 : In m0 kv_matches).
  { subst kv_matches. rewrite find_key_value_polygon_flat_map.
    apply in_flat_map. exists kv_pair. split; [exact Hkv|].
    unfold kv_pair_matches. fold sfv. fold vc. fold ks. fold vs.
    apply Qle_bool_iff in Hks. rewrite Hks.
    assert (Hacc : (Qle_bool threshold vs || String.eqb sfv EmptyString)%bool
                   = true).
    { apply orb_true_iff. destruct Hvs as [H|H].
      - left. now apply Qle_bool_iff.
      - right. rewrite H. reflexivity. }
    rewrite Hacc. apply in_map_iff. exists polygon. auto. }
  assert (Hres : correlate_field_with_polygons ratio partial_ratio py_repr
                   field_name field_value polygon_data threshold
                 = deduplicate_polygons kv_matches).
  { unfold correlate_field_with_polygons. rewrite Hskip. fold kv_matches.
    destruct kv_matches; [destruct Hin0|reflexivity]. }
  destruct (deduplicate_covers _ m0 Hin0) as (m & Hm & Hg).
  exists m. rewrite Hres. split; [exact Hm|]. split.
  - apply deduplicate_subset in Hm.
    exact (proj1 (find_key_value_polygon_sound_aux _ _ _ _ _ _ _ Hm)).
  - apply key_eqb_sym. exact Hg.
Qed.

Lemma accepted_pair_is_found_witness :
  exists m,
    In m (correlate_field_with_polygons Sim.ratio Sim.partial_ratio Sim.repr
            "invoice_number" (JStr "inv-2024-001") Sample2.index_invoice
            90%Q)
    /\ Match.source m = doc_intelligence_kv
    /\ key_eqb (match_key m) (Sample.P2, 1%Q) = true.
Proof.
  apply (accepted_pair_is_found Sim.ratio Sim.partial_ratio Sim.repr
           "invoice_number" (JStr "inv-2024-001") Sample2.index_invoice
           90%Q Sample2.kv_invoice (Polygon.mk (Some Sample.P2) (Some 1%Q))).
  - reflexivity.
  - left. reflexivity.
  - left. reflexivity.
  - apply Qle_bool_iff. vm_compute. reflexivity.
  - left. apply Qle_bool_iff. vm_compute. reflexivity.
Defined.

(* ================================================================== *)
(** * Further properties of the report *)

Lemma fold_left_additive_le {A : Type} (f g : nat -> A -> nat) (l : list A) :
  (forall x c, f c x = c + f 0 x) ->
  (forall x c, g c x = c + g 0 x) ->
  Forall (fun x => f 0 x <= g 0 x) l ->
  fold_left f l 0 <= fold_left g l 0.
Proof.
  intros Hf Hg H.
  assert (Hgen : forall a b, a <= b -> fold_left f l a <= fold_left g l b).
  { induction H as [|x r Hx Hr IH]; intros a b Hab; simpl; [exact Hab|].
    apply IH. rewrite Hf, Hg. lia. }
  apply Hgen. lia.
Qed.

Lemma count_fields_item_additive (item : json) (c : nat) :
  count_fields item c = c + count_fields item 0.
Proof. apply (proj1 (count_fields_additive item)). Qed.

Lemma count_fields_with_polygons_item_additive (item : json) (c : nat) :
  count_fields_with_polygons item c = c + count_fields_with_polygons item 0.
Proof. apply (proj1 (count_fields_with_polygons_additive item)). Qed.

Lemma matched_le_total (v : json) :
  count_fields_with_polygons v 0 <= count_fields v 0
  /\ match v with
     | JList l =>
         Forall (fun item =>
                   count_fields_with_polygons item 0 <= count_fields item 0) l
     | _ => True
     end.
Proof.
  induction v as [| b | q | s | l IH | d IH] using json_induction;
    try (split; [simpl; lia|exact I]).
  - split; [simpl; lia|].
    eapply Forall_impl; [|exact IH]. intros item [H _]. exact H.
  - split; [|exact I].
    rewrite count_fields_dict, count_fields_with_polygons_dict.
    apply fold_left_additive_le.
    + intros x c. apply count_polygons_step_additive.
    + intros x c. apply count_step_additive.
    + eapply Forall_impl; [|exact IH].
      intros [k v] [Hv Hl]. unfold count_polygons_step, count_step.
      simpl in *. destruct (PyStr.startswith_char "_" k); [lia|].
      destruct v as [| | | |l|vd]; try lia.
      * apply fold_left_additive_le.
        -- intros x c. apply count_fields_with_polygons_item_additive.
        -- intros x c. apply count_fields_item_additive.
        -- exact Hl.
      * destruct (is_leaf_record vd); [destruct (truthy _); lia|exact Hv].
Qed.

(** X11. The report never counts more matched leaves than leaves:
    [fieldsWithPolygons] is at most [totalFields], for every tree,
    index and threshold. *)
Theorem report_matched_le_total
    (ratio partial_ratio : string -> string -> Q) (py_repr : json -> string)
    (extracted_data : dict) (polygon_data : Index.t) (threshold : Q) :
  exists report total matched,
    dict_get (enrich_extraction_with_polygons ratio partial_ratio py_repr
                extracted_data polygon_data threshold) "_polygonMetadata"
    = Some (JDict report)
    /\ dict_get report "totalFields" = Some (JInt total)
    /\ dict_get report "fieldsWithPolygons" = Some (JInt matched)
    /\ matched <= total.
Proof.
  unfold enrich_extraction_with_polygons.
  eexists. eexists. eexists.
  split; [apply dict_get_set_same|].
  split; [reflexivity|]. split; [reflexivity|].
  apply (proj1 (matched_le_total _)).
Qed.

(** ** The total does not depend on the index *)

Lemma dict_has_map (g : string * json -> json) (d : dict) (k : string) :
  dict_has (map (fun kv => (fst kv, g kv)) d) k = dict_has d k.
Proof.
  unfold dict_has. induction d as [|[k0 v0] r IH]; simpl; [reflexivity|].
  destruct (String.eqb k0 k); [reflexivity|exact IH].
Qed.

Lemma is_leaf_record_map (g : string * json -> json) (d : dict) :
  is_leaf_record (map (fun kv => (fst kv, g kv)) d) = is_leaf_record d.
Proof.
  unfold is_leaf_record. now rewrite !dict_has_map.
Qed.

Lemma fold_left_map_eq {A B : Type} (f : nat -> B -> nat) (g : nat -> A -> nat)
    (h : A -> B) (l : list A) :
  Forall (fun x => forall c, f c (h x) = g c x) l ->
  forall c, fold_left f (map h l) c = fold_left g l c.
Proof.
  induction 1 as [|x r Hx Hr IH]; intros c; simpl; [reflexivity|].
  now rewrite Hx, IH.
Qed.

Lemma scalar_leaf_is_leaf_record (value : json) (polygons : list Match.t) :
  exists rec,
    scalar_leaf value polygons = JDict rec /\ is_leaf_record rec = true
    /\ truthy (opt_default JNull (dict_get rec "boundingPolygons"))
       = match polygons with [] => false | _ => true end.
Proof.
  destruct (scalar_leaf_fields value polygons) as (rec & Heq & Hv & Hb).
  exists rec. split; [exact Heq|]. unfold is_leaf_record, dict_has.
  rewrite Hv, Hb. split; [reflexivity|]. simpl. now destruct polygons.
Qed.

Section TotalFacts.

Variable ratio : string -> string -> Q.
Variable partial_ratio : string -> string -> Q.
Variable py_repr : json -> string.
Variable polygon_data : Index.t.
Variable threshold : Q.

Local Abbreviation process :=
  (process_value ratio partial_ratio py_repr polygon_data threshold).

Lemma count_step_scalar_leaf (key : string) (value : json)
    (polygons : list Match.t) (c : nat) :
  count_step c (key, scalar_leaf value polygons)
  = if PyStr.startswith_char "_" key then c else c + 1.
Proof.
  destruct (scalar_leaf_is_leaf_record value polygons) as (rec & -> & Hl & _).
  unfold count_step. simpl. now rewrite Hl.
Qed.

Lemma count_step_process (value : json) :
  well_keyed value = true ->
  mapping_arrays value = true ->
  (forall key c, count_step c (key, process key value)
                 = count_step c (key, value))
  /\ (forall key c, is_dict value = true ->
                    count_fields (process key value) c = count_fields value c).
Proof.
  induction value as [| b | q | s | l IH | d IH] using json_induction;
    intros Hwk Hma;
    try (split; [|intros key c H; discriminate H];
         intros key c; rewrite process_value_scalar by reflexivity;
         rewrite count_step_scalar_leaf; unfold count_step; simpl;
         reflexivity).
  - split; [|intros key c H; discriminate H].
    intros key c. rewrite process_value_list. unfold count_step. simpl.
    destruct (PyStr.startswith_char "_" key); [reflexivity|].
    apply fold_left_map_eq.
    simpl in Hwk, Hma. rewrite forallb_forall in Hwk, Hma.
    rewrite Forall_forall in IH |- *. intros item Hin c'.
    specialize (Hma item Hin). apply andb_true_iff in Hma as [Hd Hm].
    destruct item as [| | | | |d']; try discriminate.
    apply (proj2 (IH _ Hin (Hwk _ Hin) Hm) key c' eq_refl).
  - simpl in Hwk. apply andb_true_iff in Hwk as [Hu Hwk].
    simpl in Hma. rewrite forallb_forall in Hwk, Hma.
    assert (Hfold : forall c,
               fold_left count_step
                 (map (fun kv => (fst kv, process (fst kv) (snd kv))) d) c
               = fold_left count_step d c).
    { apply fold_left_map_eq.
      rewrite Forall_forall in IH |- *. intros [k v] Hin c'.
      apply (proj1 (IH _ Hin (Hwk _ Hin) (Hma _ Hin)) k c'). }
    split.
    + intros key c. rewrite process_value_dict by exact Hu.
      unfold count_step. cbn [fst snd].
      destruct (PyStr.startswith_char "_" key); [reflexivity|].
      rewrite is_leaf_record_map.
      destruct (is_leaf_record d); [reflexivity|].
      rewrite !count_fields_dict. apply Hfold.
    + intros key c _. rewrite process_value_dict by exact Hu.
      rewrite !count_fields_dict. apply Hfold.
Qed.

End TotalFacts.

(** X12. For a tree whose sequences hold mappings only, the total leaf
    count of the report is the leaf count of the input tree itself: it
    does not depend on the index, on the threshold or on what was
    matched. *)
Theorem report_total_is_input_leaf_count
    (ratio partial_ratio : string -> string -> Q) (py_repr : json -> string)
    (extracted_data : dict) (polygon_data : Index.t) (threshold : Q) :
  well_keyed (JDict extracted_data) = true ->
  mapping_arrays (JDict extracted_data) = true ->
  exists report,
    dict_get (enrich_extraction_with_polygons ratio partial_ratio py_repr
                extracted_data polygon_data threshold) "_polygonMetadata"
    = Some (JDict report)
    /\ dict_get report "totalFields"
       = Some (JInt (count_fields (JDict extracted_data) 0)).
Proof.
  intros Hwk Hma. unfold enrich_extraction_with_polygons.
  eexists. split; [apply dict_get_set_same|].
  simpl dict_get. f_equal. f_equal.
  simpl in Hwk. apply andb_true_iff in Hwk as [Hu Hwk].
  simpl in Hma. rewrite forallb_forall in Hwk, Hma.
  rewrite (enrich_fields_map _ _ _ _ _ _ Hu), !count_fields_dict.
  apply fold_left_map_eq. apply Forall_forall. intros [k v] Hin c.
  unfold enriched_field. simpl. destruct (is_excluded k); [reflexivity|].
  apply (proj1 (count_step_process ratio partial_ratio py_repr polygon_data
                  threshold v (Hwk _ Hin) (Hma _ Hin)) k c).
Qed.

Lemma report_total_is_input_leaf_count_witness :
  exists report,
    dict_get (enrich_extraction_with_polygons
                Sim.ratio Sim.partial_ratio Sim.repr
                (firstn 3 Sample3.invoice_tree) Sample2.index_invoice 90%Q)
      "_polygonMetadata" = Some (JDict report)
    /\ dict_get report "totalFields" = Some (JInt 4).
Proof.
  apply (report_total_is_input_leaf_count Sim.ratio Sim.partial_ratio
           Sim.repr (firstn 3 Sample3.invoice_tree) Sample2.index_invoice
           90%Q eq_refl eq_refl).
Defined.

(** ** Arrays of scalars and scalar fields in the report *)

Lemma count_fields_nums (points : list Q) (c : nat) :
  fold_left (fun count item => count_fields item count) (map JNum points) c
  = c.
Proof.
  revert c. induction points as [|q r IH]; intros c; simpl; [reflexivity|].
  apply IH.
Qed.

Lemma count_fields_with_polygons_nums (points : list Q) (c : nat) :
  fold_left (fun count item => count_fields_with_polygons item count)
    (map JNum points) c = c.
Proof.
  revert c. induction points as [|q r IH]; intros c; simpl; [reflexivity|].
  apply IH.
Qed.

Lemma count_fields_polygon_json (p : Match.t) (c : nat) :
  count_fields (polygon_json p) c = c + 1.
Proof.
  unfold polygon_json. rewrite count_fields_dict. simpl.
  unfold count_step at 2. simpl. rewrite count_fields_nums.
  reflexivity.
Qed.

Lemma count_fields_with_polygons_polygon_json (p : Match.t) (c : nat) :
  count_fields_with_polygons (polygon_json p) c = c.
Proof.
  unfold polygon_json. rewrite count_fields_with_polygons_dict. simpl.
  unfold count_polygons_step at 2. simpl.
  rewrite count_fields_with_polygons_nums. reflexivity.
Qed.

Lemma count_fields_polygons (polygons : list Match.t) (c : nat) :
  fold_left (fun count item => count_fields item count)
    (map polygon_json polygons) c = c + List.length polygons.
Proof.
  revert c. induction polygons as [|p r IH]; intros c;
    cbn [map fold_left List.length]; [lia|].
  rewrite count_fields_polygon_json, IH. lia.
Qed.

Lemma count_fields_with_polygons_polygons (polygons : list Match.t)
    (c : nat) :
  fold_left (fun count item => count_fields_with_polygons item count)
    (map polygon_json polygons) c = c.
Proof.
  revert c. induction polygons as [|p r IH]; intros c;
    cbn [map fold_left]; [reflexivity|].
  now rewrite count_fields_with_polygons_polygon_json, IH.
Qed.

Lemma count_fields_array_leaf (item : json) (polygons : list Match.t)
    (c : nat) :
  is_scalar item = true ->
  count_fields (array_leaf item polygons) c = c + 1 + List.length polygons.
Proof.
  intros Hs. unfold array_leaf. rewrite count_fields_dict.
  cbn [fold_left]. unfold count_step. cbn [fst snd].
  change (PyStr.startswith_char "_" "boundingPolygons") with false.
  change (PyStr.startswith_char "_" "value") with false. cbv iota.
  rewrite count_fields_polygons.
  destruct item; try discriminate; reflexivity.
Qed.

Lemma count_fields_with_polygons_array_leaf (item : json)
    (polygons : list Match.t) (c : nat) :
  is_scalar item = true ->
  count_fields_with_polygons (array_leaf item polygons) c = c.
Proof.
  intros Hs. unfold array_leaf. rewrite count_fields_with_polygons_dict.
  cbn [fold_left]. unfold count_polygons_step. cbn [fst snd].
  change (PyStr.startswith_char "_" "boundingPolygons") with false.
  change (PyStr.startswith_char "_" "value") with false. cbv iota.
  rewrite count_fields_with_polygons_polygons.
  destruct item; try discriminate; reflexivity.
Qed.

Lemma count_polygons_step_scalar_leaf (key : string) (value : json)
    (polygons : list Match.t) (c : nat) :
  count_polygons_step c (key, scalar_leaf value polygons)
  = if PyStr.startswith_char "_" key then c
    else match polygons with [] => c | _ => c + 1 end.
Proof.
  destruct (scalar_leaf_is_leaf_record value polygons)
    as (rec & -> & Hl & Ht).
  unfold count_polygons_step. cbn [fst snd]. rewrite Hl, Ht.
  now destruct polygons.
Qed.

Section ReportFacts.

Variable ratio : string -> string -> Q.
Variable partial_ratio : string -> string -> Q.
Variable py_repr : json -> string.
Variable polygon_data : Index.t.
Variable threshold : Q.

Local Abbreviation process :=
  (process_value ratio partial_ratio py_repr polygon_data threshold).
Local Abbreviation matcher :=
  (correlate ratio partial_ratio py_repr polygon_data threshold).
Local Abbreviation fields_of :=
  (enrich_fields ratio partial_ratio py_repr polygon_data threshold).
Local Abbreviation field_of :=
  (enriched_field ratio partial_ratio py_repr polygon_data threshold).

(** What one top-level field adds to the two counts. *)
Lemma report_counts_split (d1 : dict) (key : string) (value : json)
    (d2 : dict) :
  unique_keysb (map fst (d1 ++ (key, value) :: d2)) = true ->
  count_fields (JDict (fields_of (d1 ++ (key, value) :: d2))) 0
  = count_fields (JDict (fields_of (d1 ++ d2))) 0
    + count_step 0 (key, field_of (key, value))
  /\ count_fields_with_polygons
       (JDict (fields_of (d1 ++ (key, value) :: d2))) 0
     = count_fields_with_polygons (JDict (fields_of (d1 ++ d2))) 0
       + count_polygons_step 0 (key, field_of (key, value)).
Proof.
  intros Hu.
  assert (Hu' : unique_keysb (map fst (d1 ++ d2)) = true).
  { rewrite map_app in Hu. simpl in Hu. rewrite map_app.
    now apply unique_keysb_app_cons in Hu as (_ & _ & H). }
  rewrite !count_fields_dict, !count_fields_with_polygons_dict.
  rewrite (enrich_fields_map _ _ _ _ _ _ Hu),
    (enrich_fields_map _ _ _ _ _ _ Hu').
  rewrite !map_app. cbn [map fst].
  split.
  - apply (fold_left_additive_remove count_step).
    intros; apply count_step_additive.
  - apply (fold_left_additive_remove count_polygons_step).
    intros; apply count_polygons_step_additive.
Qed.

Lemma count_fields_array_leaves (key : string) (l : list json) (c : nat) :
  forallb is_scalar l = true ->
  fold_left (fun count item => count_fields item count)
    (map (fun item =>
            match item with
            | JDict _ => process key item
            | _ => array_leaf item (matcher key item)
            end) l) c
  = c + list_sum (map (fun item => 1 + List.length (matcher key item)) l).
Proof.
  revert c. induction l as [|item r IH]; intros c Hs; cbn [map fold_left].
  - simpl. lia.
  - cbn [forallb] in Hs. apply andb_true_iff in Hs as [Hi Hr].
    rewrite IH by exact Hr. cbn [list_sum].
    destruct item; try discriminate Hi;
      rewrite count_fields_array_leaf by reflexivity;
      unfold list_sum; cbn [fold_right map]; lia.
Qed.

Lemma count_fields_with_polygons_array_leaves (key : string) (l : list json)
    (c : nat) :
  forallb is_scalar l = true ->
  fold_left (fun count item => count_fields_with_polygons item count)
    (map (fun item =>
            match item with
            | JDict _ => process key item
            | _ => array_leaf item (matcher key item)
            end) l) c
  = c.
Proof.
  revert c. induction l as [|item r IH]; intros c Hs; cbn [map fold_left].
  - reflexivity.
  - cbn [forallb] in Hs. apply andb_true_iff in Hs as [Hi Hr].
    rewrite IH by exact Hr.
    destruct item; try discriminate Hi;
      now rewrite count_fields_with_polygons_array_leaf by reflexivity.
Qed.

End ReportFacts.

(** X13. A top-level field that holds an array of scalars, under a key
    that is neither excluded nor starts with an underscore, never adds
    to the matched-leaf count, whatever its elements match; to the
    total leaf count it adds, for each element, one plus the number of
    polygons found for that element. *)
Theorem scalar_array_in_report
    (ratio partial_ratio : string -> string -> Q) (py_repr : json -> string)
    (d1 : dict) (key : string) (items : list json) (d2 : dict)
    (polygon_data : Index.t) (threshold : Q) :
  let extracted_data := d1 ++ (key, JList items) :: d2 in
  let fields :=
    enrich_fields ratio partial_ratio py_repr polygon_data threshold
      extracted_data in
  let fields_without :=
    enrich_fields ratio partial_ratio py_repr polygon_data threshold
      (d1 ++ d2) in
  unique_keysb (map fst extracted_data) = true ->
  is_excluded key = false ->
  PyStr.startswith_char "_" key = false ->
  forallb is_scalar items = true ->
  count_fields_with_polygons (JDict fields) 0
  = count_fields_with_polygons (JDict fields_without) 0
  /\ count_fields (JDict fields) 0
     = count_fields (JDict fields_without) 0
       + list_sum
           (map (fun item =>
                   1 + List.length
                         (correlate ratio partial_ratio py_repr polygon_data
                            threshold key item))
                items).
Proof.
  intros extracted_data fields fields_without Hu Hex Hpriv Hs.
  destruct (report_counts_split ratio partial_ratio py_repr polygon_data
              threshold d1 key (JList items) d2 Hu) as [Ht Hm].
  subst fields fields_without extracted_data. rewrite Ht, Hm.
  unfold enriched_field. cbn [fst snd]. rewrite Hex.
  rewrite process_value_list.
  unfold count_step, count_polygons_step. cbn [fst snd]. rewrite Hpriv.
  rewrite count_fields_array_leaves by exact Hs.
  rewrite count_fields_with_polygons_array_leaves by exact Hs.
  split; lia.
Qed.

Lemma scalar_array_in_report_witness :
  count_fields_with_polygons
    (JDict (enrich_fields Sim.ratio Sim.partial_ratio Sim.repr
              Sample2.index_invoice 90%Q Sample3.invoice_tree)) 0
  = count_fields_with_polygons
      (JDict (enrich_fields Sim.ratio Sim.partial_ratio Sim.repr
                Sample2.index_invoice 90%Q
                (firstn 3 Sample3.invoice_tree))) 0.
Proof.
  apply (proj1 (scalar_array_in_report Sim.ratio Sim.partial_ratio Sim.repr
                  (firstn 3 Sample3.invoice_tree) "tags"
                  [JStr "Total"; JNull] []
                  Sample2.index_invoice 90%Q
                  eq_refl eq_refl eq_refl eq_refl)).
Defined.

(** X14. A top-level field that holds a scalar, under a key that is
    neither excluded nor starts with an underscore, adds exactly one to
    the total leaf count, and adds one to the matched-leaf count when
    the matcher returns at least one match for it and nothing
    otherwise. *)
Theorem scalar_field_in_report
    (ratio partial_ratio : string -> string -> Q) (py_repr : json -> string)
    (d1 : dict) (key : string) (value : json) (d2 : dict)
    (polygon_data : Index.t) (threshold : Q) :
  let extracted_data := d1 ++ (key, value) :: d2 in
  let fields :=
    enrich_fields ratio partial_ratio py_repr polygon_data threshold
      extracted_data in
  let fields_without :=
    enrich_fields ratio partial_ratio py_repr polygon_data threshold
      (d1 ++ d2) in
  unique_keysb (map fst extracted_data) = true ->
  is_excluded key = false ->
  PyStr.startswith_char "_" key = false ->
  is_scalar value = true ->
  count_fields (JDict fields) 0 = count_fields (JDict fields_without) 0 + 1
  /\ count_fields_with_polygons (JDict fields) 0
     = count_fields_with_polygons (JDict fields_without) 0
       + match correlate ratio partial_ratio py_repr polygon_data threshold
                 key value with
         | [] => 0
         | _ => 1
         end.
Proof.
  intros extracted_data fields fields_without Hu Hex Hpriv Hs.
  destruct (report_counts_split ratio partial_ratio py_repr polygon_data
              threshold d1 key value d2 Hu) as [Ht Hm].
  subst fields fields_without extracted_data. rewrite Ht, Hm.
  unfold enriched_field. cbn [fst snd]. rewrite Hex.
  rewrite process_value_scalar by exact Hs.
  rewrite count_step_scalar_leaf, count_polygons_step_scalar_leaf, Hpriv.
  split; [reflexivity|].
  now destruct (correlate _ _ _ _ _ key value).
Qed.

Lemma scalar_field_in_report_witness :
  count_fields
    (JDict (enrich_fields Sim.ratio Sim.partial_ratio Sim.repr
              Sample2.index_invoice 90%Q Sample3.invoice_tree)) 0
  = count_fields
      (JDict (enrich_fields Sim.ratio Sim.partial_ratio Sim.repr
                Sample2.index_invoice 90%Q
                (hd ("", JNull) Sample3.invoice_tree
                 :: skipn 2 Sample3.invoice_tree))) 0 + 1.
Proof.
  apply (proj1 (scalar_field_in_report Sim.ratio Sim.partial_ratio Sim.repr
                  (firstn 1 Sample3.invoice_tree) "invoice_number"
                  (JStr "INV-2024-001") (skipn 2 Sample3.invoice_tree)
                  Sample2.index_invoice 90%Q
                  eq_refl eq_refl eq_refl eq_refl)).
Defined.

(* ================================================================== *)
(** * The second provider *)

(** X15. Normalising a box twice is normalising it once, and a
    normalised box never has four numbers: a 4-number box is always
    expanded to eight.  This holds for any numbers and any addition. *)
Theorem normalize_mistral_bbox_idempotent
    (num : Type) (add : num -> num -> num) (bbox : list num) :
  normalize_mistral_bbox add (normalize_mistral_bbox add bbox)
  = normalize_mistral_bbox add bbox
  /\ List.length (normalize_mistral_bbox add bbox) <> 4.
Proof.
  destruct bbox as [|a [|b [|c [|d [|e r]]]]]; simpl; try (split; [reflexivity|lia]).
  destruct (Nat.eqb (List.length r) 3) eqn:E; simpl; rewrite ?E;
    (split; [reflexivity|]); simpl; lia.
Qed.

Lemma normalize_mistral_bbox_length
    (num : Type) (add : num -> num -> num) (bbox : list num) :
  List.length (normalize_mistral_bbox add bbox) <> 4.
Proof.
  destruct bbox as [|a [|b [|c [|d [|e r]]]]]; simpl; try lia.
  destruct (Nat.eqb (List.length r) 3); simpl; lia.
Qed.

Lemma flat_map_singleton {A B : Type} (f : A -> B) (l : list A) :
  flat_map (fun x => [f x]) l = map f l.
Proof.
  induction l as [|x r IH]; simpl; [reflexivity|now rewrite IH].
Qed.

Lemma flat_map_filter {A B : Type} (p : A -> bool) (f : A -> B)
    (l : list A) :
  flat_map (fun x => if p x then [f x] else []) l = map f (filter p l).
Proof.
  induction l as [|x r IH]; simpl; [reflexivity|].
  rewrite IH. now destruct (p x).
Qed.

Section MistralIndexFacts.

Variable add : Q -> Q -> Q.

Lemma extract_page_eq (acc : list Item.t * list Item.t) (page_idx : nat)
    (page : Page.t) :
  let page_number := inject_Z (Z.of_nat (page_idx + 1)) in
  extract_page add acc page_idx page
  = (fst acc
     ++ map (mistral_word add page_number) (opt_default [] (Page.words page)),
     (snd acc
      ++ map (mistral_line add page_number) (opt_default [] (Page.lines page)))
     ++ map (mistral_line add page_number)
          (filter nonempty_bbox (opt_default [] (Page.blocks page)))).
Proof.
  intros page_number. unfold extract_page. fold page_number.
  rewrite fold_left_append with
    (g := fun word => [mistral_word add page_number word]) by reflexivity.
  rewrite fold_left_append with
    (g := fun block => if nonempty_bbox block
                       then [mistral_line add page_number block] else []).
  - rewrite fold_left_append with
      (g := fun line => [mistral_line add page_number line]) by reflexivity.
    now rewrite !flat_map_singleton, flat_map_filter.
  - intros ls block. unfold nonempty_bbox.
    destruct (entry_bbox block); [now rewrite app_nil_r|reflexivity].
Qed.

Lemma mistral_word_ok (n page_idx : nat) (word : Entry.t) :
  page_idx < n ->
  mistral_item_ok n
    (mistral_word add (inject_Z (Z.of_nat (page_idx + 1))) word).
Proof.
  intros Hlt. unfold mistral_item_ok, mistral_word. simpl.
  split; [discriminate|]. split.
  - exists (page_idx + 1). split; [reflexivity|lia].
  - eexists. split; [reflexivity|apply normalize_mistral_bbox_length].
Qed.

Lemma mistral_line_ok (n page_idx : nat) (line : Entry.t) :
  page_idx < n ->
  mistral_item_ok n
    (mistral_line add (inject_Z (Z.of_nat (page_idx + 1))) line).
Proof.
  intros Hlt. unfold mistral_item_ok, mistral_line. simpl.
  split; [discriminate|]. split.
  - exists (page_idx + 1). split; [reflexivity|lia].
  - eexists. split; [reflexivity|apply normalize_mistral_bbox_length].
Qed.

Lemma extract_fold_ok (n : nat) (pages : list Page.t) :
  forall acc page_idx,
    page_idx + List.length pages <= n ->
    Forall (mistral_item_ok n) (fst acc) ->
    Forall (mistral_item_ok n) (snd acc) ->
    let out :=
      fst (fold_left
             (fun st page =>
                (extract_page add (fst st) (snd st) page, S (snd st)))
             pages (acc, page_idx)) in
    Forall (mistral_item_ok n) (fst out)
    /\ Forall (mistral_item_ok n) (snd out).
Proof.
  induction pages as [|page r IH]; intros acc i Hn Hw Hl; simpl.
  - auto.
  - simpl in Hn. apply IH; [lia| |]; rewrite extract_page_eq; simpl.
    + apply Forall_app. split; [exact Hw|].
      apply Forall_forall. intros x Hx.
      apply in_map_iff in Hx as (w & <- & _). apply mistral_word_ok. lia.
    + apply Forall_app. split; [apply Forall_app; split; [exact Hl|]|];
        apply Forall_forall; intros x Hx;
        apply in_map_iff in Hx as (w & <- & _); apply mistral_line_ok; lia.
Qed.

Lemma extract_fold_length (pages : list Page.t) :
  forall acc page_idx,
    let out :=
      fst (fold_left
             (fun st page =>
                (extract_page add (fst st) (snd st) page, S (snd st)))
             pages (acc, page_idx)) in
    List.length (fst out)
    = List.length (fst acc)
      + list_sum
          (map (fun page => List.length (opt_default [] (Page.words page)))
             pages)
    /\ List.length (snd out)
       = List.length (snd acc)
         + list_sum
             (map (fun page =>
                     List.length (opt_default [] (Page.lines page))
                     + List.length
                         (filter nonempty_bbox
                            (opt_default [] (Page.blocks page))))
                pages).
Proof.
  induction pages as [|page r IH]; intros acc i; simpl.
  - split; lia.
  - destruct (IH (extract_page add acc i page) (S i)) as [Hw Hl].
    cbv zeta in Hw, Hl. rewrite Hw, Hl. rewrite extract_page_eq. simpl.
    rewrite !length_app, !length_map. split; lia.
Qed.

(** X16. Whatever the response, the index built from it has no
    key-value pair and no paragraph, and each of its words and lines
    has a content, a page number between 1 and the number of pages, and
    points that are not a 4-number box. *)
Theorem mistral_index_well_formed (pages : option (list Page.t)) :
  let index := extract_bboxes_from_mistral_response add pages in
  let n := List.length (opt_default [] pages) in
  Index.keyValuePairs index = []
  /\ Index.paragraphs index = []
  /\ Forall (mistral_item_ok n) (Index.words index)
  /\ Forall (mistral_item_ok n) (Index.lines index).
Proof.
  destruct pages as [pages|]; simpl.
  - unfold extract_pages.
    destruct (extract_fold_ok (List.length pages) pages ([], []) 0
                (Nat.le_refl _) (Forall_nil _) (Forall_nil _)) as [Hw Hl].
    cbv zeta in Hw, Hl.
    destruct (fst (fold_left _ pages (([], []), 0))) as [words lines].
    simpl in *. auto.
  - repeat split; constructor.
Qed.

Lemma extract_fold_items (pages : list Page.t) :
  forall acc page_idx,
    fst (fold_left
           (fun st page =>
              (extract_page add (fst st) (snd st) page, S (snd st)))
           pages (acc, page_idx))
    = (fst acc
       ++ flat_map
            (fun np =>
               map (mistral_word add (fst np))
                 (opt_default [] (Page.words (snd np))))
            (numbered_from page_idx pages),
       snd acc
       ++ flat_map
            (fun np =>
               map (mistral_line add (fst np))
                 (opt_default [] (Page.lines (snd np)))
               ++ map (mistral_line add (fst np))
                    (filter nonempty_bbox
                       (opt_default [] (Page.blocks (snd np)))))
            (numbered_from page_idx pages)).
Proof.
  induction pages as [|page r IH]; intros acc i.
  - simpl. rewrite !app_nil_r. now destruct acc.
  - cbn [fold_left fst snd numbered_from flat_map].
    rewrite IH, extract_page_eq. cbn [fst snd].
    now rewrite <- !app_assoc.
Qed.

(** X17. The words of the index are, page after page and in the order
    of the response, the words of the response, each turned into an
    item that carries the number of its page (counted from 1); the
    lines of the index are, page after page, the lines of the page
    followed by those blocks of the page whose bounding box is not
    empty, in their order.  So no word and no line of the response is
    dropped, bounding box or not, and of the blocks exactly those with
    a non-empty bounding box become lines. *)
Theorem mistral_index_sizes (pages : list Page.t) :
  let index := extract_bboxes_from_mistral_response add (Some pages) in
  Index.words index
  = flat_map
      (fun np =>
         map (mistral_word add (fst np))
           (opt_default [] (Page.words (snd np))))
      (numbered_from 0 pages)
  /\ Index.lines index
     = flat_map
         (fun np =>
            map (mistral_line add (fst np))
              (opt_default [] (Page.lines (snd np)))
            ++ map (mistral_line add (fst np))
                 (filter nonempty_bbox
                    (opt_default [] (Page.blocks (snd np)))))
         (numbered_from 0 pages)
  /\ List.length (Index.words index)
     = list_sum
         (map (fun page => List.length (opt_default [] (Page.words page)))
            pages)
  /\ List.length (Index.lines index)
     = list_sum
         (map (fun page =>
                 List.length (opt_default [] (Page.lines page))
                 + List.length
                     (filter nonempty_bbox
                        (opt_default [] (Page.blocks page))))
            pages).
Proof.
  simpl. unfold extract_pages.
  destruct (extract_fold_length pages ([], []) 0) as [Hw Hl].
  cbv zeta in Hw, Hl.
  pose proof (extract_fold_items pages ([], []) 0) as Hi.
  destruct (fst (fold_left _ pages (([], []), 0))) as [words lines].
  simpl in *. injection Hi as Hiw Hil. auto.
Qed.

(** X18. On an index built from a response of the second provider Pass 1
    finds nothing: every match returned for a field is a fuzzy match,
    and the result is the deduplicated output of Pass 2. *)
Theorem mistral_index_matches_are_fuzzy
    (ratio partial_ratio : string -> string -> Q) (py_repr : json -> string)
    (field_name : string) (field_value : json)
    (pages : option (list Page.t)) (threshold : Q) :
  let index := extract_bboxes_from_mistral_response add pages in
  let result :=
    correlate_field_with_polygons ratio partial_ratio py_repr
      field_name field_value index threshold in
  (skipped field_value = false ->
   result
   = deduplicate_polygons
       (find_fuzzy_match_polygons ratio partial_ratio
          (py_str py_repr field_value) (Index.words index)
          (Index.lines index) threshold))
  /\ forall m, In m result -> Match.source m <> doc_intelligence_kv.
Proof.
  intros index result.
  assert (Hkv : Index.keyValuePairs index = []).
  { subst index. destruct pages as [pages|]; simpl; [|reflexivity].
    now destruct (extract_pages add pages). }
  subst result. unfold correlate_field_with_polygons. rewrite Hkv.
  destruct (skipped field_value); simpl.
  - split; [discriminate|intros m []].
  - split; [reflexivity|].
    intros m Hin. apply deduplicate_subset in Hin.
    exact (proj1 (find_fuzzy_match_polygons_sound_aux _ _ _ _ _ _ _ Hin)).
Qed.

End MistralIndexFacts.

Lemma mistral_index_matches_are_fuzzy_witness :
  correlate_field_with_polygons Sim.ratio Sim.partial_ratio Sim.repr
    "total" (JStr "Total")
    (extract_bboxes_from_mistral_response Qplus Sample4.response) 90%Q
  = deduplicate_polygons
      (find_fuzzy_match_polygons Sim.ratio Sim.partial_ratio "Total"
         (Index.words (extract_bboxes_from_mistral_response Qplus Sample4.response))
         (Index.lines (extract_bboxes_from_mistral_response Qplus Sample4.response))
         90%Q).
Proof.
  apply (proj1 (mistral_index_matches_are_fuzzy Qplus Sim.ratio Sim.partial_ratio
                  Sim.repr "total" (JStr "Total") Sample4.response 90%Q)).
  reflexivity.
Defined.

(** ** Content selection, continued *)

Lemma join_parts_not_string (parts : list json) (m : json) :
  In m parts -> is_string m = false -> join_parts parts = Raised TypeError.
Proof.
  induction parts as [|p r IH]; intros Hin Hm; [destruct Hin|].
  destruct Hin as [->|Hin].
  - destruct m; try reflexivity. discriminate Hm.
  - destruct p; try reflexivity. simpl. now rewrite (IH Hin Hm).
Qed.

(** X19. A list under [pages] takes precedence over everything else:
    the selected text then depends on the pages only, and when no page
    carries a [markdown] it is the empty string, whatever [content],
    [text] and [choices] hold. *)
Theorem pages_take_precedence (result : dict) (pages : list json) :
  dict_get result "pages" = Some (JList pages) ->
  ocr_text_of_result result = ocr_text_of_result [("pages", JList pages)]
  /\ (markdown_parts pages = [] ->
      ocr_text_of_result result = Returned (JStr "")).
Proof.
  intros Hp. unfold ocr_text_of_result, select_ocr_text. rewrite Hp.
  split; [reflexivity|]. intros Hm. unfold py_join. rewrite Hm. reflexivity.
Qed.

Lemma pages_take_precedence_witness :
  ocr_text_of_result
    [("content", JStr "full text"); ("pages", JList [JDict [("index", JNum 0)]])]
  = Returned (JStr "").
Proof.
  apply (proj2 (pages_take_precedence
                  [("content", JStr "full text");
                   ("pages", JList [JDict [("index", JNum 0)]])]
                  [JDict [("index", JNum 0)]] eq_refl)).
  reflexivity.
Defined.

(** X20. The selection raises a [TypeError] when a page of the list
    under [pages] has a [markdown] that is not a string, and when,
    without such a list, the [content] of the response is [null], a
    boolean or a number. *)
Theorem ocr_text_type_errors (result : dict) :
  (forall pages d m,
      dict_get result "pages" = Some (JList pages) ->
      In (JDict d) pages -> dict_get d "markdown" = Some m ->
      is_string m = false ->
      ocr_text_of_result result = Raised TypeError)
  /\ (forall content,
        match dict_get result "pages" with
        | Some (JList _) => False
        | _ => True
        end ->
        dict_get result "content" = Some content ->
        match content with
        | JNull | JBool _ | JNum _ => True
        | _ => False
        end ->
        ocr_text_of_result result = Raised TypeError).
Proof.
  split.
  - intros pages d m Hp Hin Hd Hm.
    unfold ocr_text_of_result, select_ocr_text, py_join. rewrite Hp.
    rewrite (join_parts_not_string (markdown_parts pages) m); [reflexivity| |exact Hm].
    rewrite markdown_parts_flat_map. apply in_flat_map.
    exists (JDict d). split; [exact Hin|]. rewrite Hd. now left.
  - intros content Hp Hc Hty.
    unfold ocr_text_of_result, select_ocr_text. rewrite Hc.
    destruct (dict_get result "pages") as [[| | | |l|]|];
      try contradiction; destruct content; try contradiction; reflexivity.
Qed.

Lemma ocr_text_type_errors_witness :
  ocr_text_of_result [("pages", JList [JDict [("markdown", JNull)]])]
  = Raised TypeError
  /\ ocr_text_of_result [("content", JNull)] = Raised TypeError.
Proof.
  split.
  - apply (proj1 (ocr_text_type_errors
                    [("pages", JList [JDict [("markdown", JNull)]])])
             [JDict [("markdown", JNull)]] [("markdown", JNull)] JNull
             eq_refl (or_introl eq_refl) eq_refl eq_refl).
  - apply (proj2 (ocr_text_type_errors [("content", JNull)]) JNull I eq_refl I).
Defined.

(** ** The request *)

(** X21. The document of the request describes itself: its [type] is
    [document_url] or [image_url], the data URL is stored under the key
    that [type] names, and the media type of the data URL is
    [application/pdf] exactly when the type is [document_url] and an
    image type otherwise. *)
Theorem request_document_self_describing
    (b64encode : string -> string) (model_name : json)
    (file_path file_bytes : string) (json_schema : json)
    (include_polygons : bool) :
  let encoded := encode_file_to_base64 b64encode file_path file_bytes in
  let payload :=
    request_payload model_name (snd encoded) (fst encoded) json_schema
      include_polygons in
  exists document,
    dict_get payload "document" = Some (JDict document)
    /\ dict_get document "type" = Some (JStr (snd encoded))
    /\ dict_get document (snd encoded) = Some (JStr (fst encoded))
    /\ ((snd encoded = "document_url"
         /\ fst encoded
            = ("data:application/pdf;base64," ++ b64encode file_bytes)%string)
        \/ (snd encoded = "image_url"
            /\ (fst encoded
                = ("data:image/jpeg;base64," ++ b64encode file_bytes)%string
                \/ fst encoded
                   = ("data:image/png;base64," ++ b64encode file_bytes)%string))).
Proof.
  intros encoded payload.
  assert (Hget : exists document,
             dict_get payload "document" = Some (JDict document)
             /\ document
                = dict_set [("type", JStr (snd encoded))] (snd encoded)
                    (JStr (fst encoded))).
  { subst payload. unfold request_payload.
    destruct (truthy json_schema || include_polygons);
      [destruct (truthy json_schema)|]; eexists; split; reflexivity. }
  destruct Hget as (document & Hdoc & ->). eexists. split; [exact Hdoc|].
  subst encoded. unfold encode_file_to_base64.
  destruct (endswith (PyStr.lower file_path) ".pdf");
    [|destruct (endswith (PyStr.lower file_path) ".jpg"
                || endswith (PyStr.lower file_path) ".jpeg");
      [|destruct (endswith (PyStr.lower file_path) ".png")]];
    cbn [fst snd]; (split; [reflexivity|]); (split; [reflexivity|]); auto.
Qed.

(** X22. The request asks for bounding boxes in one way at most: it
    carries [bbox_annotation_format] exactly when a non-empty schema is
    given, and [include_bboxes] exactly when polygons are wanted and no
    schema is given; never both. *)
Theorem request_bbox_options
    (model_name : json) (url_type data_url : string) (json_schema : json)
    (include_polygons : bool) :
  let payload :=
    request_payload model_name url_type data_url json_schema
      include_polygons in
  dict_has payload "bbox_annotation_format" = truthy json_schema
  /\ dict_has payload "include_bboxes"
     = negb (truthy json_schema) && include_polygons
  /\ dict_has payload "bbox_annotation_format"
     && dict_has payload "include_bboxes" = false
  /\ dict_get payload "include_image_base64" = Some (JBool false).
Proof.
  intros payload. subst payload. unfold request_payload.
  destruct (truthy json_schema); destruct include_polygons;
    repeat split; reflexivity.
Qed.

(** X23. The client configuration is returned only when both the
    endpoint and the key are set to something truthy, and then it holds
    them as they are, with the configured model or, when none is
    configured, [mistral-document-ai-2505]; otherwise the call fails. *)
Theorem mistral_client_requires_endpoint_and_key (config : dict) :
  let endpoint := opt_default JNull (dict_get config "mistral_doc_ai_endpoint") in
  let api_key := opt_default JNull (dict_get config "mistral_doc_ai_key") in
  (truthy endpoint && truthy api_key = false ->
   get_mistral_doc_ai_client config = None)
  /\ (truthy endpoint && truthy api_key = true ->
      exists client,
        get_mistral_doc_ai_client config = Some client
        /\ dict_get client "endpoint" = Some endpoint
        /\ dict_get client "api_key" = Some api_key
        /\ dict_get client "model"
           = Some (match dict_get config "mistral_doc_ai_model" with
                   | Some model => model
                   | None => JStr "mistral-document-ai-2505"
                   end)).
Proof.
  intros endpoint api_key. unfold get_mistral_doc_ai_client.
  fold endpoint. fold api_key.
  destruct (truthy endpoint); destruct (truthy api_key); simpl;
    split; intros H; try discriminate H; try reflexivity.
  eexists. split; [reflexivity|]. repeat split.
Qed.

Lemma mistral_client_requires_endpoint_and_key_witness :
  get_mistral_doc_ai_client
    [("mistral_doc_ai_endpoint", JStr "https://example.test/ocr");
     ("mistral_doc_ai_key", JStr "")] = None.
Proof.
  apply (proj1 (mistral_client_requires_endpoint_and_key
                  [("mistral_doc_ai_endpoint", JStr "https://example.test/ocr");
                   ("mistral_doc_ai_key", JStr "")])).
  reflexivity.
Defined.

(* ================================================================== *)
(** * The first provider *)

Lemma fold_left_snoc_map {A B : Type} (f : A -> B) (l : list A) :
  fold_left (fun acc x => acc ++ [f x]) l [] = map f l.
Proof.
  rewrite fold_left_append with (g := fun x => [f x]) by reflexivity.
  apply flat_map_singleton.
Qed.

Lemma extract_polygon_from_bounding_regions_map
    (bounding_regions : option (list Region.t)) :
  extract_polygon_from_bounding_regions bounding_regions
  = map region_polygon (opt_default [] bounding_regions).
Proof.
  destruct bounding_regions as [[|r l]|]; try reflexivity.
  unfold extract_polygon_from_bounding_regions.
  apply fold_left_snoc_map.
Qed.

Lemma extract_key_value_pairs_map (pairs : option (list DIPair.t)) :
  extract_key_value_pairs pairs = map di_pair (opt_default [] pairs).
Proof.
  destruct pairs as [[|p l]|]; try reflexivity.
  unfold extract_key_value_pairs. apply fold_left_snoc_map.
Qed.

Lemma extract_paragraphs_with_polygons_map
    (paragraphs : option (list DIParagraph.t)) :
  extract_paragraphs_with_polygons paragraphs
  = map di_paragraph (opt_default [] paragraphs).
Proof.
  destruct paragraphs as [[|p l]|]; try reflexivity.
  unfold extract_paragraphs_with_polygons. apply fold_left_snoc_map.
Qed.

Section ProviderAPages.

(** The two loops over the pages differ in the entries they read and in
    the item they build. *)
Variable item : DIPage.t -> DIWord.t -> outcome Item.t.
Variable entries : DIPage.t -> list DIWord.t.

Hypothesis item_none :
  forall page entry,
    polygon_is_none entry = true -> item page entry = Raised TypeError.
Hypothesis item_some :
  forall page entry,
    polygon_is_none entry = false -> exists it, item page entry = Returned it.

Lemma entries_fold_raised (page : DIPage.t) (l : list DIWord.t)
    (e : PyError) :
  fold_left
    (fun state entry =>
       data <- state ;; it <- item page entry ;; Returned (data ++ [it]))
    l (Raised e)
  = Raised e.
Proof.
  induction l as [|x r IH]; simpl; [reflexivity|exact IH].
Qed.

Lemma entries_fold_returned (page : DIPage.t) (l : list DIWord.t) :
  existsb polygon_is_none l = false ->
  forall data,
  exists items,
    fold_left
      (fun state entry =>
         data <- state ;; it <- item page entry ;; Returned (data ++ [it]))
      l (Returned data)
    = Returned (data ++ items)
    /\ List.length items = List.length l.
Proof.
  induction l as [|x r IH]; intros Hex data.
  - exists []. simpl. now rewrite app_nil_r.
  - simpl in Hex. apply orb_false_iff in Hex as [Hx Hr].
    destruct (item_some page x Hx) as (it & Hit).
    destruct (IH Hr (data ++ [it])) as (items & Hfold & Hlen).
    exists (it :: items). simpl. rewrite Hit. simpl.
    rewrite Hfold, <- app_assoc. simpl. now rewrite Hlen.
Qed.

Lemma entries_fold_none (page : DIPage.t) (l : list DIWord.t) :
  existsb polygon_is_none l = true ->
  forall data,
    fold_left
      (fun state entry =>
         data <- state ;; it <- item page entry ;; Returned (data ++ [it]))
      l (Returned data)
    = Raised TypeError.
Proof.
  induction l as [|x r IH]; intros Hex data; [discriminate|].
  simpl in Hex. simpl.
  destruct (polygon_is_none x) eqn:Hx.
  - rewrite (item_none page x Hx). simpl. apply entries_fold_raised.
  - destruct (item_some page x Hx) as (it & Hit). rewrite Hit. simpl.
    apply IH. exact Hex.
Qed.

Lemma pages_fold_raised (pages : list DIPage.t) (e : PyError) :
  fold_left
    (fun state page =>
       data <- state ;;
       fold_left
         (fun state entry =>
            data <- state ;; it <- item page entry ;;
            Returned (data ++ [it]))
         (entries page) (Returned data))
    pages (Raised e)
  = Raised e.
Proof.
  induction pages as [|p r IH]; simpl; [reflexivity|exact IH].
Qed.

Lemma pages_fold_returned (pages : list DIPage.t) :
  existsb (fun page => existsb polygon_is_none (entries page)) pages
  = false ->
  forall data,
  exists items,
    fold_left
      (fun state page =>
         data <- state ;;
         fold_left
           (fun state entry =>
              data <- state ;; it <- item page entry ;;
              Returned (data ++ [it]))
           (entries page) (Returned data))
      pages (Returned data)
    = Returned (data ++ items)
    /\ List.length items
       = list_sum (map (fun page => List.length (entries page)) pages).
Proof.
  induction pages as [|p r IH]; intros Hex data.
  - exists []. simpl. now rewrite app_nil_r.
  - simpl in Hex. apply orb_false_iff in Hex as [Hp Hr].
    destruct (entries_fold_returned p (entries p) Hp data)
      as (first & Hfirst & Hlen).
    destruct (IH Hr (data ++ first)) as (rest & Hrest & Hlen').
    exists (first ++ rest).
    cbn [fold_left bind]. rewrite Hfirst, Hrest, <- app_assoc.
    split; [reflexivity|].
    rewrite length_app, Hlen, Hlen'. reflexivity.
Qed.

Lemma pages_fold_none (pages : list DIPage.t) :
  existsb (fun page => existsb polygon_is_none (entries page)) pages
  = true ->
  forall data,
    fold_left
      (fun state page =>
         data <- state ;;
         fold_left
           (fun state entry =>
              data <- state ;; it <- item page entry ;;
              Returned (data ++ [it]))
           (entries page) (Returned data))
      pages (Returned data)
    = Raised TypeError.
Proof.
  induction pages as [|p r IH]; intros Hex data; [discriminate|].
  simpl in Hex. cbn [fold_left bind].
  destruct (existsb polygon_is_none (entries p)) eqn:Hp.
  - rewrite (entries_fold_none p (entries p) Hp data).
    apply pages_fold_raised.
  - destruct (entries_fold_returned p (entries p) Hp data)
      as (first & Hfirst & _).
    rewrite Hfirst. apply IH. exact Hex.
Qed.

End ProviderAPages.

Lemma di_word_item_none (page_number : Q) (word : DIWord.t) :
  polygon_is_none word = true ->
  di_word_item page_number word = Raised TypeError.
Proof.
  unfold polygon_is_none, di_word_item.
  destruct (DIWord.polygon word); try discriminate. reflexivity.
Qed.

Lemma di_word_item_some (page_number : Q) (word : DIWord.t) :
  polygon_is_none word = false ->
  exists it, di_word_item page_number word = Returned it.
Proof.
  unfold polygon_is_none, di_word_item.
  destruct (DIWord.polygon word); try discriminate; eexists; reflexivity.
Qed.

Lemma di_line_item_none (page_number : Q) (line : DIWord.t) :
  polygon_is_none line = true ->
  di_line_item page_number line = Raised TypeError.
Proof.
  unfold polygon_is_none, di_line_item.
  destruct (DIWord.polygon line); try discriminate. reflexivity.
Qed.

Lemma di_line_item_some (page_number : Q) (line : DIWord.t) :
  polygon_is_none line = false ->
  exists it, di_line_item page_number line = Returned it.
Proof.
  unfold polygon_is_none, di_line_item.
  destruct (DIWord.polygon line); try discriminate; eexists; reflexivity.
Qed.

Lemma extract_words_with_polygons_returned (pages : option (list DIPage.t)) :
  existsb
    (fun page => existsb polygon_is_none (opt_default [] (DIPage.words page)))
    (opt_default [] pages) = false ->
  exists words,
    extract_words_with_polygons pages = Returned words
    /\ List.length words
       = list_sum
           (map (fun page => List.length (opt_default [] (DIPage.words page)))
              (opt_default [] pages)).
Proof.
  intros Hex. destruct pages as [[|p l]|]; try (now exists []).
  unfold extract_words_with_polygons.
  exact (pages_fold_returned
           (fun page =>
              di_word_item (opt_default 1%Q (DIPage.page_number page)))
           (fun page => opt_default [] (DIPage.words page))
           (fun page => di_word_item_some _)
           (p :: l) Hex []).
Qed.

Lemma extract_words_with_polygons_none (pages : option (list DIPage.t)) :
  existsb
    (fun page => existsb polygon_is_none (opt_default [] (DIPage.words page)))
    (opt_default [] pages) = true ->
  extract_words_with_polygons pages = Raised TypeError.
Proof.
  intros Hex. destruct pages as [[|p l]|]; try discriminate.
  unfold extract_words_with_polygons.
  exact (pages_fold_none
           (fun page =>
              di_word_item (opt_default 1%Q (DIPage.page_number page)))
           (fun page => opt_default [] (DIPage.words page))
           (fun page => di_word_item_none _)
           (fun page => di_word_item_some _)
           (p :: l) Hex []).
Qed.

Lemma extract_lines_with_polygons_returned (pages : option (list DIPage.t)) :
  existsb
    (fun page => existsb polygon_is_none (opt_default [] (DIPage.lines page)))
    (opt_default [] pages) = false ->
  exists lines,
    extract_lines_with_polygons pages = Returned lines
    /\ List.length lines
       = list_sum
           (map (fun page => List.length (opt_default [] (DIPage.lines page)))
              (opt_default [] pages)).
Proof.
  intros Hex. destruct pages as [[|p l]|]; try (now exists []).
  unfold extract_lines_with_polygons.
  exact (pages_fold_returned
           (fun page =>
              di_line_item (opt_default 1%Q (DIPage.page_number page)))
           (fun page => opt_default [] (DIPage.lines page))
           (fun page => di_line_item_some _)
           (p :: l) Hex []).
Qed.

Lemma extract_lines_with_polygons_none (pages : option (list DIPage.t)) :
  existsb
    (fun page => existsb polygon_is_none (opt_default [] (DIPage.lines page)))
    (opt_default [] pages) = true ->
  extract_lines_with_polygons pages = Raised TypeError.
Proof.
  intros Hex. destruct pages as [[|p l]|]; try discriminate.
  unfold extract_lines_with_polygons.
  exact (pages_fold_none
           (fun page =>
              di_line_item (opt_default 1%Q (DIPage.page_number page)))
           (fun page => opt_default [] (DIPage.lines page))
           (fun page => di_line_item_none _)
           (fun page => di_line_item_some _)
           (p :: l) Hex []).
Qed.

Lemma length_flat_map_sum {A B : Type} (f : A -> list B) (l : list A) :
  List.length (flat_map f l)
  = list_sum (map (fun x => List.length (f x)) l).
Proof.
  induction l as [|x r IH]; simpl; [reflexivity|].
  now rewrite length_app, IH.
Qed.

(** X24. On the index built from an analysis result of the first
    provider, every match of Pass 1 lies at a bounding region of the
    value object of one of the result's pairs, a region without polygon
    giving empty points and a region without page giving page 1; it
    carries the confidence of that pair and the content of its value.
    A pair without value object therefore never gives a match. *)
Theorem provider_a_kv_matches_are_value_regions
    (ratio : string -> string -> Q) (py_repr : json -> string)
    (field_name : string) (field_value : json)
    (pairs : option (list DIPair.t)) (threshold : Q) (m : Match.t) :
  In m (find_key_value_polygon ratio py_repr field_name field_value
          (extract_key_value_pairs pairs) threshold) ->
  exists pair value region,
    In pair (opt_default [] pairs)
    /\ DIPair.value pair = Some value
    /\ In region (opt_default [] (DIElement.bounding_regions value))
    /\ Match.points m = opt_default [] (Region.polygon region)
    /\ Match.pageNumber m = opt_default 1%Q (Region.page_number region)
    /\ Match.confidence m = DIPair.confidence pair
    /\ Match.matchedContent m = opt_default "" (DIElement.content value).
Proof.
  rewrite find_key_value_polygon_flat_map, extract_key_value_pairs_map.
  intros Hin. apply in_flat_map in Hin as (kv & Hkv & Hin).
  apply in_map_iff in Hkv as (pair & <- & Hpair).
  unfold kv_pair_matches in Hin.
  destruct (Qle_bool threshold (ratio _ _)); [|destruct Hin].
  destruct (Qle_bool threshold _ || String.eqb _ "")%bool; [|destruct Hin].
  apply in_map_iff in Hin as (polygon & <- & Hp).
  unfold di_pair in Hp. cbn [KVPair.value element_polygons] in Hp.
  destruct (DIPair.value pair) as [value|] eqn:Hv;
    cbn [di_element Element.boundingPolygons opt_default] in Hp.
  - rewrite extract_polygon_from_bounding_regions_map in Hp.
    apply in_map_iff in Hp as (region & <- & Hr).
    exists pair, value, region. unfold di_pair. rewrite Hv.
    repeat split; auto.
  - destruct Hp.
Qed.

Lemma provider_a_kv_matches_are_value_regions_witness :
  exists pair value region,
    In pair [Sample5.pair_no_value; Sample5.pair_invoice]
    /\ DIPair.value pair = Some value
    /\ In region (opt_default [] (DIElement.bounding_regions value))
    /\ Sample.P2 = opt_default [] (Region.polygon region)
    /\ 2%Q = opt_default 1%Q (Region.page_number region)
    /\ Some (9 # 10)%Q = DIPair.confidence pair
    /\ "INV-2024-001" = opt_default "" (DIElement.content value).
Proof.
  apply (provider_a_kv_matches_are_value_regions Sim.ratio Sim.repr
           "invoice_number" (JStr "INV-2024-001")
           (Some [Sample5.pair_no_value; Sample5.pair_invoice]) 90%Q
           (kv_match (di_pair Sample5.pair_invoice) "INV-2024-001"
              (2800 # 28)%Q (2400 # 24)%Q
              (Polygon.mk (Some Sample.P2) (Some 2%Q)))).
  vm_compute. left. reflexivity.
Defined.

(** X25. The polygon of a word or of a line may hold [None].  When it
    does for some word or line of the analysis result, the extraction
    raises a [TypeError] and there is no index.  When it does for none,
    the extraction returns the content of the result with an index, and
    the sizes the report gives for the source data are those of the
    analysis result: the words and the lines of all pages, the pairs
    and the paragraphs, none dropped and none added. *)
Theorem provider_a_report_sizes
    (ratio partial_ratio : string -> string -> Q) (py_repr : json -> string)
    (extracted_data : dict) (result : DIResult.t) (threshold : Q) :
  (some_polygon_is_none result = true ->
   di_polygon_data result = Raised TypeError)
  /\ (some_polygon_is_none result = false ->
      exists index report available,
        di_polygon_data result = Returned (DIResult.content result, index)
        /\ dict_get (enrich_extraction_with_polygons ratio partial_ratio
                       py_repr extracted_data index threshold)
             "_polygonMetadata" = Some (JDict report)
        /\ dict_get report "sourceDataAvailable" = Some (JDict available)
        /\ dict_get available "words"
           = Some (JInt (list_sum
                           (map (fun page =>
                                   List.length
                                     (opt_default [] (DIPage.words page)))
                              (opt_default [] (DIResult.pages result)))))
        /\ dict_get available "lines"
           = Some (JInt (list_sum
                           (map (fun page =>
                                   List.length
                                     (opt_default [] (DIPage.lines page)))
                              (opt_default [] (DIResult.pages result)))))
        /\ dict_get available "keyValuePairs"
           = Some (JInt (List.length
                           (opt_default [] (DIResult.key_value_pairs result))))
        /\ dict_get available "paragraphs"
           = Some (JInt (List.length
                           (opt_default [] (DIResult.paragraphs result))))).
Proof.
  unfold some_polygon_is_none, di_polygon_data. split.
  - intros Hex.
    destruct (existsb
                (fun page =>
                   existsb polygon_is_none
                     (opt_default [] (DIPage.words page)))
                (opt_default [] (DIResult.pages result))) eqn:Hwords.
    + now rewrite (extract_words_with_polygons_none _ Hwords).
    + destruct (extract_words_with_polygons_returned _ Hwords)
        as (words & -> & _).
      simpl in Hex.
      now rewrite (extract_lines_with_polygons_none _ Hex).
  - intros Hex. apply orb_false_iff in Hex as [Hwords Hlines].
    destruct (extract_words_with_polygons_returned _ Hwords)
      as (words & -> & Hw).
    destruct (extract_lines_with_polygons_returned _ Hlines)
      as (lines & -> & Hl).
    assert (Hk : List.length (extract_key_value_pairs
                                (DIResult.key_value_pairs result))
                 = List.length
                     (opt_default [] (DIResult.key_value_pairs result)))
      by (rewrite extract_key_value_pairs_map; apply length_map).
    assert (Hp : List.length (extract_paragraphs_with_polygons
                                (DIResult.paragraphs result))
                 = List.length (opt_default [] (DIResult.paragraphs result)))
      by (rewrite extract_paragraphs_with_polygons_map; apply length_map).
    unfold enrich_extraction_with_polygons.
    eexists. eexists. eexists. split; [reflexivity|].
    split; [apply dict_get_set_same|].
    split; [reflexivity|].
    cbn [Index.words Index.lines Index.keyValuePairs Index.paragraphs].
    rewrite Hw, Hl, Hk, Hp. repeat split.
Qed.

Lemma provider_a_report_sizes_witness :
  di_polygon_data Sample5.result_line_without_polygon = Raised TypeError
  /\ exists index report available,
       di_polygon_data Sample5.result
       = Returned (DIResult.content Sample5.result, index)
       /\ dict_get (enrich_extraction_with_polygons Sim.ratio
                      Sim.partial_ratio Sim.repr Sample3.invoice_tree index
                      90%Q)
            "_polygonMetadata" = Some (JDict report)
       /\ dict_get report "sourceDataAvailable" = Some (JDict available)
       /\ dict_get available "words" = Some (JInt 1)
       /\ dict_get available "lines" = Some (JInt 0)
       /\ dict_get available "keyValuePairs" = Some (JInt 2)
       /\ dict_get available "paragraphs" = Some (JInt 0).
Proof.
  split.
  - apply (proj1 (provider_a_report_sizes Sim.ratio Sim.partial_ratio
                    Sim.repr Sample3.invoice_tree
                    Sample5.result_line_without_polygon 90%Q)).
    reflexivity.
  - apply (proj2 (provider_a_report_sizes Sim.ratio Sim.partial_ratio
                    Sim.repr Sample3.invoice_tree Sample5.result 90%Q)).
    reflexivity.
Defined.

(* ================================================================== *)
(** * The blob stream *)

Lemma blob_read_cached (download : nat -> list Byte.byte)
    (self : BlobInputStream.t) (content : list Byte.byte) (size : Z) :
  BlobInputStream._content self = Some content ->
  BlobInputStream.read download self size
  = (if (size =? -1)%Z then content
     else BlobInputStream.slice_to content size, self).
Proof.
  intros Hc. unfold BlobInputStream.read. rewrite Hc. cbv zeta.
  rewrite Hc. simpl. now destruct (size =? -1)%Z.
Qed.

Lemma blob_reads_cached (download : nat -> list Byte.byte)
    (content : list Byte.byte) (sizes : list Z) :
  forall self,
    BlobInputStream._content self = Some content ->
    BlobInputStream.reads download self sizes
    = (map (fun size => if (size =? -1)%Z then content
                        else BlobInputStream.slice_to content size) sizes,
       self).
Proof.
  induction sizes as [|size rest IH]; intros self Hc; simpl; [reflexivity|].
  rewrite (blob_read_cached download self content size Hc).
  now rewrite (IH self Hc).
Qed.

(** X26. Whatever the sequence of reads on a new stream, the blob is
    downloaded once, at the first read, and never again; and every
    read is served from that first download, from its start: a read
    does not move a cursor, so its result depends on its size only. *)
Theorem blob_downloaded_once (download : nat -> list Byte.byte)
    (blob_name : string) (blob_size : Z) (sizes : list Z) :
  let out :=
    BlobInputStream.reads download
      (BlobInputStream.new blob_name blob_size) sizes in
  fst out
  = map (fun size => if (size =? -1)%Z then download 0
                     else BlobInputStream.slice_to (download 0) size) sizes
  /\ BlobInputStream.downloads (snd out)
     = match sizes with [] => 0 | _ => 1 end.
Proof.
  destruct sizes as [|size rest]; [split; reflexivity|].
  set (self := BlobInputStream.mk blob_name blob_size (Some (download 0)) 1).
  assert (Hread : BlobInputStream.read download
                    (BlobInputStream.new blob_name blob_size) size
                  = (if (size =? -1)%Z then download 0
                     else BlobInputStream.slice_to (download 0) size, self)).
  { unfold BlobInputStream.read. simpl. now destruct (size =? -1)%Z. }
  cbn [BlobInputStream.reads]. rewrite Hread.
  rewrite (blob_reads_cached download (download 0) rest self eq_refl).
  split; reflexivity.
Qed.

(** X27. What one read returns: with size -1 the whole content; with a
    size that is not negative, the first bytes of the content, as many
    as asked or all of them when there are fewer; with any other
    negative size, the content without its last bytes, as many as the
    size is below zero, and nothing is raised. *)
Theorem blob_read_sizes (download : nat -> list Byte.byte)
    (self : BlobInputStream.t) (size : Z) :
  let content :=
    match BlobInputStream._content self with
    | Some content => content
    | None => download (BlobInputStream.downloads self)
    end in
  let data := fst (BlobInputStream.read download self size) in
  (size = (-1)%Z -> data = content)
  /\ ((0 <= size)%Z ->
      data = firstn (Z.to_nat size) content
      /\ List.length data = Nat.min (Z.to_nat size) (List.length content))
  /\ ((size < -1)%Z ->
      data = firstn (List.length content - Z.to_nat (- size)) content
      /\ List.length data = List.length content - Z.to_nat (- size)).
Proof.
  intros content data.
  assert (Hd : data = if (size =? -1)%Z then content
                      else BlobInputStream.slice_to content size).
  { subst data content. unfold BlobInputStream.read.
    destruct self as [n l [c|] d]; simpl; now destruct (size =? -1)%Z. }
  split; [|split].
  - intros ->. now rewrite Hd.
  - intros Hs. rewrite Hd.
    destruct (size =? -1)%Z eqn:E; [apply Z.eqb_eq in E; lia|].
    unfold BlobInputStream.slice_to.
    destruct (0 <=? size)%Z eqn:E0; [|apply Z.leb_gt in E0; lia].
    split; [reflexivity|apply length_firstn].
  - intros Hs. rewrite Hd.
    destruct (size =? -1)%Z eqn:E; [apply Z.eqb_eq in E; lia|].
    unfold BlobInputStream.slice_to.
    destruct (0 <=? size)%Z eqn:E0; [apply Z.leb_le in E0; lia|].
    assert (Hn : Z.to_nat (Z.of_nat (List.length content) + size)
                 = List.length content - Z.to_nat (- size)) by lia.
    rewrite Hn. split; [reflexivity|]. rewrite length_firstn. lia.
Qed.

Lemma blob_read_sizes_witness :
  fst (BlobInputStream.read
         (fun _ => [Byte.x41; Byte.x52; Byte.x47; Byte.x55; Byte.x53])
         (BlobInputStream.new "invoice.pdf" 5) (-2))
  = [Byte.x41; Byte.x52; Byte.x47].
Proof.
  apply (proj1 (proj2 (proj2 (blob_read_sizes
                                (fun _ => [Byte.x41; Byte.x52; Byte.x47;
                                           Byte.x55; Byte.x53])
                                (BlobInputStream.new "invoice.pdf" 5) (-2)))
                  ltac:(lia))).
Defined.

(* ================================================================== *)
(** * The threshold *)

Lemma Qle_bool_above (threshold r bound : Q) :
  (r <= bound)%Q -> (bound < threshold)%Q -> Qle_bool threshold r = false.
Proof.
  intros Hr Hb. destruct (Qle_bool threshold r) eqn:E; [|reflexivity].
  apply Qle_bool_iff in E. exfalso.
  apply (Qlt_irrefl threshold).
  apply Qle_lt_trans with (y := bound); [|exact Hb].
  apply Qle_trans with (y := r); assumption.
Qed.

Lemma flat_map_nil {A B : Type} (f : A -> list B) (l : list A) :
  (forall x, In x l -> f x = []) -> flat_map f l = [].
Proof.
  induction l as [|x r IH]; simpl; intros H; [reflexivity|].
  rewrite (H x (or_introl eq_refl)), IH; [reflexivity|].
  intros y Hy. apply H. now right.
Qed.

(** X28. With similarity functions that never exceed 100, a threshold
    above 100 switches the matcher off: nothing is returned, whatever
    the field and the index. *)
Theorem threshold_above_maximum
    (ratio partial_ratio : string -> string -> Q) (py_repr : json -> string)
    (field_name : string) (field_value : json) (polygon_data : Index.t)
    (threshold : Q) :
  (forall a b, ratio a b <= 100)%Q ->
  (forall a b, partial_ratio a b <= 100)%Q ->
  (100 < threshold)%Q ->
  correlate_field_with_polygons ratio partial_ratio py_repr
    field_name field_value polygon_data threshold = [].
Proof.
  intros Hr Hp Hth. unfold correlate_field_with_polygons.
  destruct (skipped field_value); [reflexivity|].
  assert (Hkv : find_key_value_polygon ratio py_repr field_name field_value
                  (Index.keyValuePairs polygon_data) threshold = []).
  { rewrite find_key_value_polygon_flat_map. apply flat_map_nil.
    intros kv _. unfold kv_pair_matches.
    now rewrite (Qle_bool_above threshold _ 100 (Hr _ _) Hth). }
  rewrite Hkv. simpl.
  assert (Hf : find_fuzzy_match_polygons ratio partial_ratio
                 (py_str py_repr field_value) (Index.words polygon_data)
                 (Index.lines polygon_data) threshold = []).
  { rewrite find_fuzzy_match_polygons_parts. cbv zeta.
    destruct (negb (PyStr.nonempty _)); [reflexivity|].
    assert (Hl : forall sv lines,
               flat_map (line_matches ratio partial_ratio sv threshold) lines
               = []).
    { intros sv lines. apply flat_map_nil. intros line _.
      unfold line_matches.
      rewrite (Qle_bool_above threshold _ 100 (Hr _ _) Hth).
      rewrite (Qle_bool_above threshold _ 100 (Hp _ _) Hth).
      now destruct (PyStr.contains _ _). }
    assert (Hw : forall sv words,
               flat_map (word_matches ratio sv threshold) words = []).
    { intros sv words. apply flat_map_nil. intros word _.
      rewrite word_matches_flat_map. cbv zeta.
      rewrite (Qle_bool_above threshold _ 100 (Hr _ _) Hth).
      destruct (Nat.eqb _ 1); [reflexivity|].
      apply flat_map_nil. intros sw _.
      now rewrite (Qle_bool_above threshold _ 100 (Hr _ _) Hth). }
    rewrite Hl, Hw. now destruct (1 <? _). }
  rewrite Hf. reflexivity.
Qed.

Lemma exact_ratio_bound (a b : string) : (exact_ratio a b <= 100)%Q.
Proof.
  unfold exact_ratio. destruct (String.eqb a b).
  - apply Qle_refl.
  - unfold Qle. simpl. lia.
Qed.

Lemma threshold_above_maximum_witness :
  correlate_field_with_polygons exact_ratio exact_ratio Sim.repr
    "invoice_number" (JStr "INV-2024-001") Sample2.index_invoice (101 # 1)
  = [].
Proof.
  apply (threshold_above_maximum exact_ratio exact_ratio Sim.repr
           "invoice_number" (JStr "INV-2024-001") Sample2.index_invoice
           (101 # 1) exact_ratio_bound exact_ratio_bound).
  unfold Qlt. simpl. lia.
Defined.
